(** * Rule synchronisation core of the AHAS Go SDK

    Shallow embedding of package [datasource]: the four data-id builders, the
    legacy-schema rule translators ([ToGoRule] of each legacy record) and the
    four change handlers, together with the properties of the translation that
    the design document states.

    Go values are modelled as follows.
    - Sized integers ([uint32], [int64], [uint64], ...) are [Z]; arithmetic that
      can overflow is written with its wrap-around.
    - [float64] is an IEEE-754 binary64 datum of [SpecFloat] (signed zeros,
      infinities, NaN and finite numbers [(-1)^s * m * 2^e]).
    - [string] is [string]; [len] is the byte length.
    - A pointer [*T] is [option T], [None] being [nil]; reading a field through
      a nil pointer panics.
    - A slice is a list; [append(s, x)] is [s ++ [x]]. *)

From Stdlib Require Import ZArith List String Ascii Bool Lia.
From Stdlib Require Import Floats.SpecFloat DecimalString.
From Stdlib Require DecimalPos DecimalN DecimalZ.
Import ListNotations.
Local Open Scope Z_scope.

(** ** Go primitives *)

Module Go.

(** How a Go function call ends: it returns a value or it panics. *)
Inductive Completion (A : Type) : Type :=
| Returned (a : A)
| Panicked.
Arguments Returned {A} a.
Arguments Panicked {A}.

Definition bind {A B} (c : Completion A) (k : A -> Completion B) : Completion B :=
  match c with
  | Returned a => k a
  | Panicked => Panicked
  end.

(** Reading through a pointer. *)
Definition deref {A} (p : option A) : Completion A :=
  match p with
  | Some a => Returned a
  | None => Panicked
  end.

(** Conversion to a [bits]-wide unsigned, respectively signed, integer. *)
Definition wrap_unsigned (bits z : Z) : Z := z mod 2 ^ bits.
Definition wrap_signed (bits z : Z) : Z :=
  (z + 2 ^ (bits - 1)) mod 2 ^ bits - 2 ^ (bits - 1).

(** [a * b] on [uint32]. *)
Definition mul_uint32 (a b : Z) : Z := wrap_unsigned 32 (a * b).

(** [strconv.FormatUint(n, 10)] and [strconv.Itoa(n)]. *)
Definition FormatUint10 (n : Z) : string :=
  NilZero.string_of_uint (N.to_uint (Z.to_N n)).
Definition Itoa (n : Z) : string := NilZero.string_of_int (Z.to_int n).

End Go.

Import Go.

(** ** float64 *)

Module Float64.

Definition t : Type := spec_float.

Definition prec : Z := 53.
Definition emax : Z := 1024.

(** The constant [0] and the comparisons [x >= y], [x < y] of IEEE-754:
    every comparison with NaN is false, and [-0 = +0]. *)
Definition zero : t := S754_zero false.
Definition geb (x y : t) : bool := SFleb y x.
Definition ltb (x y : t) : bool := SFltb x y.

(** [float64(z)] for an integer [z]: rounding to nearest, ties to even. *)
Definition of_int (z : Z) : t := binary_normalize prec emax z 0 false.

(** The exact value of a finite number as a fraction [n / d] with [d > 0]. *)
Definition fraction (x : t) : option (Z * Z) :=
  match x with
  | S754_zero _ => Some (0, 1)
  | S754_finite s m e =>
      let n := if s then Z.neg m else Z.pos m in
      if 0 <=? e then Some (n * 2 ^ e, 1) else Some (n, 2 ^ (- e))
  | S754_infinity _ | S754_nan => None
  end.

(** The value with its fractional part discarded (truncation towards zero). *)
Definition trunc (x : t) : option Z :=
  match fraction x with
  | Some (n, d) => Some (Z.quot n d)
  | None => None
  end.

(** [x] is exactly the integer [z]. *)
Definition is_int (x : t) (z : Z) : Prop :=
  exists n d, fraction x = Some (n, d) /\ n = z * d.

End Float64.

(** What the Go specification leaves to the implementation: the width of
    [int], and the result of converting a floating-point value to an integer
    type that cannot represent it. *)
Class GoPlatform : Type := {
  int_bits : Z;
  int64_unrepresentable : Float64.t -> Z;
  uint64_unrepresentable : Float64.t -> Z
}.

Section Conversions.
Context {platform : GoPlatform}.

(** [int64(x)] for [x] of type [float64]. *)
Definition int64_of_float64 (x : Float64.t) : Z :=
  match Float64.trunc x with
  | Some z =>
      if (- 2 ^ 63 <=? z) && (z <? 2 ^ 63) then z else int64_unrepresentable x
  | None => int64_unrepresentable x
  end.

(** [uint64(x)] for [x] of type [float64]. *)
Definition uint64_of_float64 (x : Float64.t) : Z :=
  match Float64.trunc x with
  | Some z =>
      if (0 <=? z) && (z <? 2 ^ 64) then z else uint64_unrepresentable x
  | None => uint64_unrepresentable x
  end.

(** [int(n)] for [n] of type [uint64]. *)
Definition int_of_uint64 (n : Z) : Z := wrap_signed int_bits n.

End Conversions.

(** ** Canonical rules of the enforcement library

    One module per rule package of the enforcement library the SDK feeds, and
    in it one module per struct, whose record [t] carries the fields the
    translators set. Enumerations whose values the translators choose are
    inductive types; enumerations copied from the payload stay numeric. *)

Module flow.

Module FlowRule.
Record t : Type := {
  ID : Z;
  Resource : string;
  LimitOrigin : string;
  MetricType : Z;
  Count : Float64.t;
  RelationStrategy : Z;
  ControlBehavior : Z;
  RefResource : string;
  WarmUpPeriodSec : Z;
  MaxQueueingTimeMs : Z;
  ClusterMode : bool
}.
End FlowRule.

End flow.

Module system.

(** [MetricType] is a [uint32]; the named metrics are an [iota] enumeration. *)
Definition MetricType : Type := Z.
Definition Load : MetricType := 0.
Definition AvgRT : MetricType := 1.
Definition Concurrency : MetricType := 2.
Definition InboundQPS : MetricType := 3.
Definition CpuUsage : MetricType := 4.

Inductive AdaptiveStrategy : Type := NoAdaptive | BBR.

Module SystemRule.
Record t : Type := {
  ID : Z;
  MetricType : MetricType;
  TriggerCount : Float64.t;
  Strategy : AdaptiveStrategy
}.
End SystemRule.

End system.

Module circuitbreaker.

(** The zero value of [Strategy] is [SlowRequestRatio]. *)
Inductive Strategy : Type := SlowRequestRatio | ErrorRatio | ErrorCount.

Module Rule.
Record t : Type := {
  Id : string;
  Resource : string;
  Strategy : Strategy;
  RetryTimeoutMs : Z;
  MinRequestAmount : Z;
  StatIntervalMs : Z;
  MaxAllowedRtMs : Z;
  Threshold : Float64.t
}.
End Rule.

End circuitbreaker.

Module hotspot.

Inductive ControlBehavior : Type := Reject | Throttling.

Inductive ParamKind : Type := KindInt | KindString | KindBool | KindFloat64.

Module SpecificValue.
Record t : Type := {
  ValKind : ParamKind;
  ValStr : string;
  Threshold : Z
}.
End SpecificValue.

Module Rule.
Record t : Type := {
  ID : string;
  Resource : string;
  MetricType : Z;
  ControlBehavior : ControlBehavior;
  ParamIndex : Z;
  Threshold : Float64.t;
  MaxQueueingTimeMs : Z;
  BurstCount : Z;
  DurationInSec : Z;
  ParamsMaxCapacity : Z;
  SpecificItems : list SpecificValue.t
}.
End Rule.

End hotspot.

(** ** Legacy rules and their translation

    One module per legacy struct: the record [t] has the struct's fields (the
    names are the Go field names, the JSON keys are given alongside), and
    [ToGoRule] is the struct's method. A [ToGoRule] returns a pointer, hence an
    [option]. *)

Module LegacyFlowRule.

Record t : Type := {
  ID : Z;                     (* uint64, "id" *)
  Resource : string;          (* "resource" *)
  LimitOrigin : string;       (* "limitApp" *)
  MetricType : Z;             (* flow.MetricType, "grade" *)
  Count : Float64.t;          (* "count" *)
  Strategy : Z;               (* flow.RelationStrategy, "strategy" *)
  ControlBehavior : Z;        (* flow.ControlBehavior, "controlBehavior" *)
  RefResource : string;       (* "refResource" *)
  WarmUpPeriodSec : Z;        (* uint32, "warmUpPeriodSec" *)
  MaxQueueingTimeMs : Z;      (* uint32, "maxQueueingTimeMs" *)
  ClusterMode : bool          (* "clusterMode" *)
}.

Definition ToGoRule (lr : t) : option flow.FlowRule.t :=
  Some {| flow.FlowRule.ID := ID lr;
          flow.FlowRule.Resource := Resource lr;
          flow.FlowRule.LimitOrigin := LimitOrigin lr;
          flow.FlowRule.MetricType := MetricType lr;
          flow.FlowRule.Count := Count lr;
          flow.FlowRule.RelationStrategy := Strategy lr;
          flow.FlowRule.ControlBehavior := ControlBehavior lr;
          flow.FlowRule.RefResource := RefResource lr;
          flow.FlowRule.WarmUpPeriodSec := WarmUpPeriodSec lr;
          flow.FlowRule.MaxQueueingTimeMs := MaxQueueingTimeMs lr;
          flow.FlowRule.ClusterMode := ClusterMode lr |}.

End LegacyFlowRule.

Module LegacySystemRule.

Record t : Type := {
  ID : Z;                           (* uint64, "id" *)
  Resource : string;                (* "resource" *)
  HighestSystemLoad : Float64.t;    (* "highestSystemLoad" *)
  HighestCpuUsage : Float64.t;      (* "highestCpuUsage" *)
  InboundQps : Float64.t;           (* "qps" *)
  AvgRt : Z;                        (* int64, "avgRt" *)
  MaxConcurrency : Z                (* int64, "maxThread" *)
}.

Definition resolveTypeAndCount (lr : t) : system.MetricType * Float64.t :=
  if AvgRt lr >=? 0 then (system.AvgRT, Float64.of_int (AvgRt lr))
  else if MaxConcurrency lr >=? 0 then
    (system.Concurrency, Float64.of_int (MaxConcurrency lr))
  else if Float64.geb (InboundQps lr) Float64.zero then
    (system.InboundQPS, InboundQps lr)
  else if Float64.geb (HighestCpuUsage lr) Float64.zero then
    (system.CpuUsage, HighestCpuUsage lr)
  else if Float64.geb (HighestSystemLoad lr) Float64.zero then
    (system.Load, HighestSystemLoad lr)
  else (404, Float64.of_int (-1)).

Definition ToGoRule (lr : t) : option system.SystemRule.t :=
  let '(mt, count) := resolveTypeAndCount lr in
  let adaptive :=
    if (mt =? system.Load) || (mt =? system.CpuUsage)
    then system.BBR else system.NoAdaptive in
  Some {| system.SystemRule.ID := ID lr;
          system.SystemRule.TriggerCount := count;
          system.SystemRule.MetricType := mt;
          system.SystemRule.Strategy := adaptive |}.

End LegacySystemRule.

Module LegacyDegradeRule.

Record t : Type := {
  ID : Z;                            (* uint64, "id" *)
  Resource : string;                 (* "resource" *)
  Threshold : Float64.t;             (* "count" *)
  Strategy : Z;                      (* uint32, "grade" *)
  RetryTimeoutSec : Z;               (* uint32, "timeWindow" *)
  MinRequestAmount : Z;              (* uint64, "minRequestAmount" *)
  SlowRatioThreshold : Float64.t;    (* "slowRatioThreshold" *)
  StatIntervalMs : Z                 (* uint32, "statIntervalMs" *)
}.

Section ToGoRule.
Context {platform : GoPlatform}.

(** The rule as the composite literal builds it; the fields the literal
    does not name have their zero value. *)
Definition literal (lr : t) : circuitbreaker.Rule.t :=
  {| circuitbreaker.Rule.Id := FormatUint10 (ID lr);
     circuitbreaker.Rule.Resource := Resource lr;
     circuitbreaker.Rule.Strategy := circuitbreaker.SlowRequestRatio;
     circuitbreaker.Rule.RetryTimeoutMs := mul_uint32 (RetryTimeoutSec lr) 1000;
     circuitbreaker.Rule.MinRequestAmount := MinRequestAmount lr;
     circuitbreaker.Rule.StatIntervalMs := StatIntervalMs lr;
     circuitbreaker.Rule.MaxAllowedRtMs := 0;
     circuitbreaker.Rule.Threshold := Threshold lr |}.

Definition set_Strategy (s : circuitbreaker.Strategy) (r : circuitbreaker.Rule.t)
  : circuitbreaker.Rule.t :=
  {| circuitbreaker.Rule.Id := circuitbreaker.Rule.Id r;
     circuitbreaker.Rule.Resource := circuitbreaker.Rule.Resource r;
     circuitbreaker.Rule.Strategy := s;
     circuitbreaker.Rule.RetryTimeoutMs := circuitbreaker.Rule.RetryTimeoutMs r;
     circuitbreaker.Rule.MinRequestAmount := circuitbreaker.Rule.MinRequestAmount r;
     circuitbreaker.Rule.StatIntervalMs := circuitbreaker.Rule.StatIntervalMs r;
     circuitbreaker.Rule.MaxAllowedRtMs := circuitbreaker.Rule.MaxAllowedRtMs r;
     circuitbreaker.Rule.Threshold := circuitbreaker.Rule.Threshold r |}.

Definition set_Threshold (x : Float64.t) (r : circuitbreaker.Rule.t)
  : circuitbreaker.Rule.t :=
  {| circuitbreaker.Rule.Id := circuitbreaker.Rule.Id r;
     circuitbreaker.Rule.Resource := circuitbreaker.Rule.Resource r;
     circuitbreaker.Rule.Strategy := circuitbreaker.Rule.Strategy r;
     circuitbreaker.Rule.RetryTimeoutMs := circuitbreaker.Rule.RetryTimeoutMs r;
     circuitbreaker.Rule.MinRequestAmount := circuitbreaker.Rule.MinRequestAmount r;
     circuitbreaker.Rule.StatIntervalMs := circuitbreaker.Rule.StatIntervalMs r;
     circuitbreaker.Rule.MaxAllowedRtMs := circuitbreaker.Rule.MaxAllowedRtMs r;
     circuitbreaker.Rule.Threshold := x |}.

Definition set_MaxAllowedRtMs (n : Z) (r : circuitbreaker.Rule.t)
  : circuitbreaker.Rule.t :=
  {| circuitbreaker.Rule.Id := circuitbreaker.Rule.Id r;
     circuitbreaker.Rule.Resource := circuitbreaker.Rule.Resource r;
     circuitbreaker.Rule.Strategy := circuitbreaker.Rule.Strategy r;
     circuitbreaker.Rule.RetryTimeoutMs := circuitbreaker.Rule.RetryTimeoutMs r;
     circuitbreaker.Rule.MinRequestAmount := circuitbreaker.Rule.MinRequestAmount r;
     circuitbreaker.Rule.StatIntervalMs := circuitbreaker.Rule.StatIntervalMs r;
     circuitbreaker.Rule.MaxAllowedRtMs := n;
     circuitbreaker.Rule.Threshold := circuitbreaker.Rule.Threshold r |}.

Definition ToGoRule (lr : t) : option circuitbreaker.Rule.t :=
  let rule := literal lr in
  match Strategy lr with
  | 0 =>
      let rule := set_Strategy circuitbreaker.SlowRequestRatio rule in
      let rule := set_Threshold (SlowRatioThreshold lr) rule in
      let rule := set_MaxAllowedRtMs (uint64_of_float64 (Threshold lr)) rule in
      Some rule
  | 1 => Some (set_Strategy circuitbreaker.ErrorRatio rule)
  | 2 => Some (set_Strategy circuitbreaker.ErrorCount rule)
  | _ => None
  end.

End ToGoRule.

End LegacyDegradeRule.

Module LegacyParamFlowItem.

Record t : Type := {
  Value : string;           (* "object" *)
  Threshold : Float64.t;    (* "count" *)
  ParamType : string        (* "classType" *)
}.

End LegacyParamFlowItem.

Module LegacyParamFlowRule.

Record t : Type := {
  Id : Z;                                            (* uint64, "id" *)
  Resource : string;                                 (* "resource" *)
  MetricType : Z;                                    (* hotspot.MetricType, "grade" *)
  Threshold : Float64.t;                             (* "count" *)
  ParamIndex : Z;                                    (* int32, "paramIdx" *)
  DurationInSec : Z;                                 (* int64, "durationInSec" *)
  ControlBehavior : Z;                               (* uint32, "controlBehavior" *)
  MaxQueueingTimeMs : Z;                             (* int64, "maxQueueingTimeMs" *)
  BurstCount : Z;                                    (* int64, "burstCount" *)
  SpecificItems : list (option LegacyParamFlowItem.t); (* "paramFlowItemList" *)
  ClusterMode : bool                                 (* "clusterMode" *)
}.

Section ToGoRule.
Context {platform : GoPlatform}.

Definition specificValue (k : hotspot.ParamKind) (v : LegacyParamFlowItem.t)
  : hotspot.SpecificValue.t :=
  {| hotspot.SpecificValue.ValKind := k;
     hotspot.SpecificValue.ValStr := LegacyParamFlowItem.Value v;
     hotspot.SpecificValue.Threshold :=
       int64_of_float64 (LegacyParamFlowItem.Threshold v) |}.

(** One iteration of the loop over [SpecificItems], for the element [v]. *)
Definition appendItem (v : LegacyParamFlowItem.t) (items : list hotspot.SpecificValue.t)
  : list hotspot.SpecificValue.t :=
  let ty := LegacyParamFlowItem.ParamType v in
  if (String.length (LegacyParamFlowItem.Value v) =? 0)%nat then items
  else if (ty =? "int")%string || (ty =? "long")%string then
    items ++ [specificValue hotspot.KindInt v]
  else if (ty =? "bool")%string || (ty =? "boolean")%string then
    items ++ [specificValue hotspot.KindBool v]
  else if (ty =? "double")%string || (ty =? "float")%string then
    items ++ [specificValue hotspot.KindFloat64 v]
  else
    items ++ [specificValue hotspot.KindString v].

(** The loop: the elements are pointers, and the first field read of an
    iteration goes through the pointer. *)
Fixpoint rangeItems (src : list (option LegacyParamFlowItem.t))
    (items : list hotspot.SpecificValue.t)
  : Completion (list hotspot.SpecificValue.t) :=
  match src with
  | [] => Returned items
  | p :: rest => bind (deref p) (fun v => rangeItems rest (appendItem v items))
  end.

Definition ToGoRule (lr : t) : Completion (option hotspot.Rule.t) :=
  let cb := if ControlBehavior lr =? 2 then hotspot.Throttling else hotspot.Reject in
  bind (if (0 <? List.length (SpecificItems lr))%nat
        then rangeItems (SpecificItems lr) []
        else Returned [])
    (fun items =>
       Returned (Some
         {| hotspot.Rule.ID := Itoa (int_of_uint64 (Id lr));
            hotspot.Rule.Resource := Resource lr;
            hotspot.Rule.MetricType := MetricType lr;
            hotspot.Rule.Threshold := Threshold lr;
            hotspot.Rule.ControlBehavior := cb;
            hotspot.Rule.ParamIndex := ParamIndex lr;
            hotspot.Rule.MaxQueueingTimeMs := MaxQueueingTimeMs lr;
            hotspot.Rule.BurstCount := BurstCount lr;
            hotspot.Rule.DurationInSec := DurationInSec lr;
            hotspot.Rule.ParamsMaxCapacity := 500;
            hotspot.Rule.SpecificItems := items |})).

End ToGoRule.

End LegacyParamFlowRule.

(** ** Data ids *)

Definition AcmGroupId : string := "ahas-sentinel".

Definition FlowRuleDataIdPrefix : string := "flow-rule-".
Definition SystemRuleDataIdPrefix : string := "system-rule-".
Definition CircuitBreakingRuleDataIdPrefix : string := "degrade-rule-".
Definition ParamFlowRuleDataIdPrefix : string := "param-flow-rule-".

Definition formFlowRuleDataId (userId namespace appName : string) : string :=
  (FlowRuleDataIdPrefix ++ userId ++ "-" ++ namespace ++ "-" ++ appName)%string.

Definition formSystemRuleDataId (userId namespace appName : string) : string :=
  (SystemRuleDataIdPrefix ++ userId ++ "-" ++ namespace ++ "-" ++ appName)%string.

Definition formCircuitBreakingRuleDataId (userId namespace appName : string) : string :=
  (CircuitBreakingRuleDataIdPrefix ++ userId ++ "-" ++ namespace ++ "-" ++ appName)%string.

Definition formParamFlowRuleDataId (userId namespace appName : string) : string :=
  (ParamFlowRuleDataIdPrefix ++ userId ++ "-" ++ namespace ++ "-" ++ appName)%string.

(** ** Change handlers *)

(** The struct a notification payload is decoded into. *)
Module Payload.
Record t (L : Type) : Type := {
  Version : string;
  Data : list (option L)
}.
Arguments Version {L} _.
Arguments Data {L} _.
End Payload.

(** What the handlers call outside this package: the JSON decoder, which
    leaves the decoded struct and an error, and the rule packages' [LoadRules],
    which act on the state of the rule engine and return a flag and an error. *)
Class Collaborators : Type := {
  error : Type;
  Engine : Type;
  json_Unmarshal_flow : string -> Payload.t LegacyFlowRule.t * option error;
  json_Unmarshal_system : string -> Payload.t LegacySystemRule.t * option error;
  json_Unmarshal_degrade : string -> Payload.t LegacyDegradeRule.t * option error;
  json_Unmarshal_paramFlow : string -> Payload.t LegacyParamFlowRule.t * option error;
  flow_LoadRules : list flow.FlowRule.t -> Engine -> (bool * option error) * Engine;
  system_LoadRules : list system.SystemRule.t -> Engine -> (bool * option error) * Engine;
  circuitbreaker_LoadRules :
    list circuitbreaker.Rule.t -> Engine -> (bool * option error) * Engine;
  hotspot_LoadRules : list hotspot.Rule.t -> Engine -> (bool * option error) * Engine
}.

(** The loop of a handler over the decoded [Data]: call [ToGoRule] through
    each pointer and append the rules that are not nil. *)
Fixpoint rangeRules {L R : Type} (ToGoRule : L -> Completion (option R))
    (data : list (option L)) (arr : list R) : Completion (list R) :=
  match data with
  | [] => Returned arr
  | r :: rest =>
      bind (bind (deref r) ToGoRule) (fun rule =>
        match rule with
        | Some rule => rangeRules ToGoRule rest (arr ++ [rule])
        | None => rangeRules ToGoRule rest arr
        end)
  end.

Section Handlers.
Context {platform : GoPlatform} {ext : Collaborators}.

(** What a handler does that can be seen from outside, in order. *)
Inductive Event : Type :=
| Infof (format arg : string)
| Errorf (format : string) (err : error)
| FlowLoadRules (arr : list flow.FlowRule.t)
| SystemLoadRules (arr : list system.SystemRule.t)
| CircuitBreakerLoadRules (arr : list circuitbreaker.Rule.t)
| HotspotLoadRules (arr : list hotspot.Rule.t).

Record World : Type := {
  engine : Engine;
  trace : list Event
}.

(** A handler acts on the world and returns or panics. *)
Definition Handler (A : Type) : Type := World -> Completion A * World.

Definition ret {A} (a : A) : Handler A := fun w => (Returned a, w).

Definition seq {A B} (h : Handler A) (k : A -> Handler B) : Handler B :=
  fun w =>
    match h w with
    | (Returned a, w') => k a w'
    | (Panicked, w') => (Panicked, w')
    end.

Definition lift {A} (c : Completion A) : Handler A := fun w => (c, w).

Definition emit (ev : Event) : Handler unit :=
  fun w => (Returned tt, {| engine := engine w; trace := trace w ++ [ev] |}).

Definition sentinelLogger_Infof (format arg : string) : Handler unit :=
  emit (Infof format arg).

Definition sentinelLogger_Errorf (format : string) (err : error) : Handler unit :=
  emit (Errorf format err).

(** A call of the engine: the call is traced and the engine updated. *)
Definition callEngine {R : Type} (ev : list R -> Event)
    (LoadRules : list R -> Engine -> (bool * option error) * Engine)
    (arr : list R) : Handler (bool * option error) :=
  fun w =>
    let '(res, e) := LoadRules arr (engine w) in
    (Returned res, {| engine := e; trace := trace w ++ [ev arr] |}).

Local Notation "x <- h ;; k" := (seq h (fun x => k))
  (at level 61, h at next level, right associativity).
Local Notation "h ;; k" := (seq h (fun _ => k))
  (at level 61, right associativity).

Definition onFlowRuleChange (data : string) : Handler unit :=
  sentinelLogger_Infof "ACM data received for flow rules: %v" data ;;
  let '(d, err) := json_Unmarshal_flow data in
  match err with
  | Some err => sentinelLogger_Errorf "Failed to parse flow rules: %+v" err
  | None =>
      arr <- lift (rangeRules (fun r => Returned (LegacyFlowRule.ToGoRule r))
                     (Payload.Data d) []) ;;
      res <- callEngine FlowLoadRules flow_LoadRules arr ;;
      match snd res with
      | Some err => sentinelLogger_Errorf "Failed to load flow rules: %+v" err
      | None => ret tt
      end
  end.

Definition onSystemRuleChange (data : string) : Handler unit :=
  sentinelLogger_Infof "ACM data received for system rules: %v" data ;;
  let '(d, err) := json_Unmarshal_system data in
  match err with
  | Some err => sentinelLogger_Errorf "Failed to parse system rules: %+v" err
  | None =>
      arr <- lift (rangeRules (fun r => Returned (LegacySystemRule.ToGoRule r))
                     (Payload.Data d) []) ;;
      res <- callEngine SystemLoadRules system_LoadRules arr ;;
      match snd res with
      | Some err => sentinelLogger_Errorf "Failed to load system rules: %+v" err
      | None => ret tt
      end
  end.

Definition onCircuitBreakingRuleChange (data : string) : Handler unit :=
  sentinelLogger_Infof "ACM data received for circuit breaking rules: %v" data ;;
  let '(d, err) := json_Unmarshal_degrade data in
  match err with
  | Some err => sentinelLogger_Errorf "Failed to parse legacy degrade rules: %+v" err
  | None =>
      arr <- lift (rangeRules (fun r => Returned (LegacyDegradeRule.ToGoRule r))
                     (Payload.Data d) []) ;;
      res <- callEngine CircuitBreakerLoadRules circuitbreaker_LoadRules arr ;;
      match snd res with
      | Some err => sentinelLogger_Errorf "Failed to load flow rules: %+v" err
      | None => ret tt
      end
  end.

Definition onParamFlowRuleChange (data : string) : Handler unit :=
  sentinelLogger_Infof "ACM data received for hot-spot parameter flow rules: %v" data ;;
  let '(d, err) := json_Unmarshal_paramFlow data in
  match err with
  | Some err => sentinelLogger_Errorf "Failed to parse legacy param flow rules: %+v" err
  | None =>
      arr <- lift (rangeRules LegacyParamFlowRule.ToGoRule (Payload.Data d) []) ;;
      res <- callEngine HotspotLoadRules hotspot_LoadRules arr ;;
      match snd res with
      | Some err =>
          sentinelLogger_Errorf "Failed to load hot-spot parameter flow rules: %+v" err
      | None => ret tt
      end
  end.

End Handlers.


(** ** The design document's formulations

    Definitions that follow the words of the design document, to be compared
    with the code above. *)

Module Spec.

(** A legacy numeric field of a system rule: an [int64] or a [float64]. *)
Inductive LegacyField : Type :=
| IntField (v : Z)
| FloatField (v : Float64.t).

(** The field's value is [>= 0], respectively [< 0]. *)
Definition nonneg (f : LegacyField) : bool :=
  match f with
  | IntField v => 0 <=? v
  | FloatField v => Float64.geb v Float64.zero
  end.

Definition negative (f : LegacyField) : bool :=
  match f with
  | IntField v => v <? 0
  | FloatField v => Float64.ltb v Float64.zero
  end.

(** The field's value as a trigger count, which is a [float64]. *)
Definition count (f : LegacyField) : Float64.t :=
  match f with
  | IntField v => Float64.of_int v
  | FloatField v => v
  end.

(** The five fields in the fixed priority order, each with its metric. *)
Definition priority (lr : LegacySystemRule.t) : list (system.MetricType * LegacyField) :=
  [ (system.AvgRT, IntField (LegacySystemRule.AvgRt lr));
    (system.Concurrency, IntField (LegacySystemRule.MaxConcurrency lr));
    (system.InboundQPS, FloatField (LegacySystemRule.InboundQps lr));
    (system.CpuUsage, FloatField (LegacySystemRule.HighestCpuUsage lr));
    (system.Load, FloatField (LegacySystemRule.HighestSystemLoad lr)) ].

(** The batch that is left of the translations once the nil ones are
    filtered out. *)
Definition withoutNil {L R : Type} (ToGoRule : L -> option R) (rules : list L) : list R :=
  flat_map (fun lr => match ToGoRule lr with Some rule => [rule] | None => [] end) rules.

(** Case-insensitive equality of ASCII strings. *)
Definition toLower (c : ascii) : ascii :=
  let n := nat_of_ascii c in
  if ((65 <=? n) && (n <=? 90))%nat then ascii_of_nat (n + 32) else c.

Fixpoint lower (s : string) : string :=
  match s with
  | EmptyString => EmptyString
  | String c s' => String (toLower c) (lower s')
  end.

Definition equalFold (a b : string) : bool := String.eqb (lower a) (lower b).

(** The value kind of a type tag by case-insensitive match. *)
Definition kindByFold (tag : string) : hotspot.ParamKind :=
  if equalFold tag "int" || equalFold tag "long" then hotspot.KindInt
  else if equalFold tag "bool" || equalFold tag "boolean" then hotspot.KindBool
  else if equalFold tag "double" || equalFold tag "float" then hotspot.KindFloat64
  else hotspot.KindString.

(** An override item has a non-empty value string. *)
Definition hasValue (v : LegacyParamFlowItem.t) : bool :=
  negb (LegacyParamFlowItem.Value v =? "")%string.

(** The RT upper bound of a produced circuit-breaking rule equals the legacy
    count. *)
Definition rtBoundIsCount (lr : LegacyDegradeRule.t) (rule : circuitbreaker.Rule.t) : Prop :=
  Float64.is_int (LegacyDegradeRule.Threshold lr) (circuitbreaker.Rule.MaxAllowedRtMs rule).

(** The data id [<prefix>-<tenantId>-<namespace>-<appName>]. *)
Definition dataId (prefix tenantId namespace appName : string) : string :=
  (prefix ++ "-" ++ tenantId ++ "-" ++ namespace ++ "-" ++ appName)%string.

End Spec.

(** ** Notions the properties are stated with *)

(** The override items a hot-spot translation keeps. *)
Definition kept (v : LegacyParamFlowItem.t) : bool :=
  negb (String.length (LegacyParamFlowItem.Value v) =? 0)%nat.

(** The kind the loop over the override items gives an item of type tag
    [ty], and the value it appends for a kept item. *)
Definition chosenKind (ty : string) : hotspot.ParamKind :=
  if (ty =? "int")%string || (ty =? "long")%string then hotspot.KindInt
  else if (ty =? "bool")%string || (ty =? "boolean")%string then hotspot.KindBool
  else if (ty =? "double")%string || (ty =? "float")%string then hotspot.KindFloat64
  else hotspot.KindString.

Definition translateItem {platform : GoPlatform} (v : LegacyParamFlowItem.t)
  : hotspot.SpecificValue.t :=
  LegacyParamFlowRule.specificValue (chosenKind (LegacyParamFlowItem.ParamType v)) v.

(** The grades 0, 1 and 2 of a circuit-breaking rule. *)
Definition supportedGrade (lr : LegacyDegradeRule.t) : bool :=
  (LegacyDegradeRule.Strategy lr =? 0) || (LegacyDegradeRule.Strategy lr =? 1) ||
  (LegacyDegradeRule.Strategy lr =? 2).

Section Observations.
Context {ext : Collaborators}.

(** The line a handler logs when the engine's [LoadRules] returns an error. *)
Definition loadFailure (format : string) (res : bool * option error) : list Event :=
  match snd res with
  | Some err => [Errorf format err]
  | None => []
  end.

(** The rule sets a stretch of trace passes to the system-rule and to the
    circuit-breaking [LoadRules]. *)
Definition systemBatches (tr : list Event) : list (list system.SystemRule.t) :=
  flat_map (fun ev => match ev with SystemLoadRules arr => [arr] | _ => [] end) tr.

Definition circuitBreakerBatches (tr : list Event) : list (list circuitbreaker.Rule.t) :=
  flat_map (fun ev => match ev with CircuitBreakerLoadRules arr => [arr] | _ => [] end) tr.

Definition flowBatches (tr : list Event) : list (list flow.FlowRule.t) :=
  flat_map (fun ev => match ev with FlowLoadRules arr => [arr] | _ => [] end) tr.

(** No system-rule batch of a stretch of trace contains [rule]. *)
Definition excludedFromSystemBatches (rule : system.SystemRule.t) (tr : list Event) : Prop :=
  Forall (fun arr => ~ In rule arr) (systemBatches tr).

(** A stretch of trace makes no call of the engine. *)
Definition noEngineCall (tr : list Event) : Prop :=
  Forall (fun ev => match ev with Infof _ _ | Errorf _ _ => True | _ => False end) tr.

(** A run of a handler from the world [w] that skips the notification: the
    handler returns, the engine is as it was, and what the run adds to the
    trace has no call of the engine. *)
Definition skipsNotification (run : Completion unit * World) (w : World) : Prop :=
  fst run = Returned tt /\
  engine (snd run) = engine w /\
  exists new, trace (snd run) = trace w ++ new /\ noEngineCall new.

End Observations.

(** ** A reference environment

    An engine that stores the four rule sets it is given and accepts every
    batch, a 64-bit platform whose conversions of unrepresentable values are
    those of the gc compiler on amd64, and decoders given by their results.
    On amd64 the conversion to [int64] of a value it cannot hold gives the
    smallest [int64]; the conversion to [uint64] goes through the one to
    [int64] for a value below [2^63], so that a value from [-2^63] up to [-1]
    wraps around, and gives [2^63] for every other value it cannot hold. *)

Module Reference.

Definition platform : GoPlatform :=
  {| int_bits := 64;
     int64_unrepresentable := fun _ => - 2 ^ 63;
     uint64_unrepresentable := fun x =>
       match Float64.trunc x with
       | Some z => if (- 2 ^ 63 <=? z) && (z <? 0) then z + 2 ^ 64 else 2 ^ 63
       | None => 2 ^ 63
       end |}.

Record Installed : Type := {
  flowRules : list flow.FlowRule.t;
  systemRules : list system.SystemRule.t;
  circuitBreakerRules : list circuitbreaker.Rule.t;
  hotspotRules : list hotspot.Rule.t
}.

Definition nothingInstalled : Installed :=
  {| flowRules := []; systemRules := []; circuitBreakerRules := []; hotspotRules := [] |}.

Definition collaborators
    (decodeFlow : string -> Payload.t LegacyFlowRule.t * option string)
    (decodeSystem : string -> Payload.t LegacySystemRule.t * option string)
    (decodeDegrade : string -> Payload.t LegacyDegradeRule.t * option string)
    (decodeParamFlow : string -> Payload.t LegacyParamFlowRule.t * option string)
  : Collaborators :=
  {| error := string;
     Engine := Installed;
     json_Unmarshal_flow := decodeFlow;
     json_Unmarshal_system := decodeSystem;
     json_Unmarshal_degrade := decodeDegrade;
     json_Unmarshal_paramFlow := decodeParamFlow;
     flow_LoadRules := fun arr e =>
       ((true, None),
        {| flowRules := arr; systemRules := systemRules e;
           circuitBreakerRules := circuitBreakerRules e; hotspotRules := hotspotRules e |});
     system_LoadRules := fun arr e =>
       ((true, None),
        {| flowRules := flowRules e; systemRules := arr;
           circuitBreakerRules := circuitBreakerRules e; hotspotRules := hotspotRules e |});
     circuitbreaker_LoadRules := fun arr e =>
       ((true, None),
        {| flowRules := flowRules e; systemRules := systemRules e;
           circuitBreakerRules := arr; hotspotRules := hotspotRules e |});
     hotspot_LoadRules := fun arr e =>
       ((true, None),
        {| flowRules := flowRules e; systemRules := systemRules e;
           circuitBreakerRules := circuitBreakerRules e; hotspotRules := arr |}) |}.

(** Decoders: one that fails on every payload, one that decodes every payload
    to the given [Data]. *)
Definition failing {L : Type} (data : string) : Payload.t L * option string :=
  ({| Payload.Version := ""; Payload.Data := [] |}, Some "unexpected end of JSON input"%string).

Definition decoding {L : Type} (rules : list (option L)) (data : string)
  : Payload.t L * option string :=
  ({| Payload.Version := "1"; Payload.Data := rules |}, None).

End Reference.

(** Legacy rules used as examples. *)
Module Examples.

Definition minusOne : Float64.t := Float64.of_int (-1).
Definition half : Float64.t := binary_normalize Float64.prec Float64.emax 1 (-1) false.
Definition threeQuarters : Float64.t :=
  binary_normalize Float64.prec Float64.emax 3 (-2) false.

(** A system rule whose five numeric fields are all [-1]. *)
Definition allNegative : LegacySystemRule.t :=
  {| LegacySystemRule.ID := 7;
     LegacySystemRule.Resource := "";
     LegacySystemRule.HighestSystemLoad := minusOne;
     LegacySystemRule.HighestCpuUsage := minusOne;
     LegacySystemRule.InboundQps := minusOne;
     LegacySystemRule.AvgRt := -1;
     LegacySystemRule.MaxConcurrency := -1 |}.

(** A system rule that limits the inbound QPS to 100 and the CPU usage to
    0.75, both response time and concurrency being unset. *)
Definition qpsAndCpu : LegacySystemRule.t :=
  {| LegacySystemRule.ID := 8;
     LegacySystemRule.Resource := "";
     LegacySystemRule.HighestSystemLoad := minusOne;
     LegacySystemRule.HighestCpuUsage := threeQuarters;
     LegacySystemRule.InboundQps := Float64.of_int 100;
     LegacySystemRule.AvgRt := -1;
     LegacySystemRule.MaxConcurrency := -1 |}.

(** The flow rule of a minimal payload: resource r1, grade 1, count 10. *)
Definition r1 : LegacyFlowRule.t :=
  {| LegacyFlowRule.ID := 0;
     LegacyFlowRule.Resource := "r1";
     LegacyFlowRule.LimitOrigin := "";
     LegacyFlowRule.MetricType := 1;
     LegacyFlowRule.Count := Float64.of_int 10;
     LegacyFlowRule.Strategy := 0;
     LegacyFlowRule.ControlBehavior := 0;
     LegacyFlowRule.RefResource := "";
     LegacyFlowRule.WarmUpPeriodSec := 0;
     LegacyFlowRule.MaxQueueingTimeMs := 0;
     LegacyFlowRule.ClusterMode := false |}.

(** Override items: an integer item with the threshold 5/2, an item without
    value, a string item, and an item whose type tag is INT in capitals. *)
Definition item (value : string) (threshold : Float64.t) (tag : string)
  : LegacyParamFlowItem.t :=
  {| LegacyParamFlowItem.Value := value;
     LegacyParamFlowItem.Threshold := threshold;
     LegacyParamFlowItem.ParamType := tag |}.

Definition fiveHalves : Float64.t :=
  binary_normalize Float64.prec Float64.emax 5 (-1) false.

Definition items : list LegacyParamFlowItem.t :=
  [ item "1001" fiveHalves "int";
    item "" (Float64.of_int 5) "long";
    item "vip" (Float64.of_int 100) "String";
    item "7" (Float64.of_int 3) "INT" ].

(** A hot-spot rule with the global threshold 3/4 and the given items. *)
Definition hotspotRule (its : list (option LegacyParamFlowItem.t)) : LegacyParamFlowRule.t :=
  {| LegacyParamFlowRule.Id := 12;
     LegacyParamFlowRule.Resource := "query";
     LegacyParamFlowRule.MetricType := 1;
     LegacyParamFlowRule.Threshold := threeQuarters;
     LegacyParamFlowRule.ParamIndex := 0;
     LegacyParamFlowRule.DurationInSec := 1;
     LegacyParamFlowRule.ControlBehavior := 0;
     LegacyParamFlowRule.MaxQueueingTimeMs := 0;
     LegacyParamFlowRule.BurstCount := 0;
     LegacyParamFlowRule.SpecificItems := its;
     LegacyParamFlowRule.ClusterMode := false |}.

(** What [allNegative] translates to. *)
Definition marker : system.SystemRule.t :=
  {| system.SystemRule.ID := 7;
     system.SystemRule.MetricType := 404;
     system.SystemRule.TriggerCount := minusOne;
     system.SystemRule.Strategy := system.NoAdaptive |}.

(** Circuit-breaking rules of grade 0 (RT bound 200 ms, slow ratio 1/2),
    grade 2 and grade 7. *)
Definition degrade (id grade : Z) : LegacyDegradeRule.t :=
  {| LegacyDegradeRule.ID := id;
     LegacyDegradeRule.Resource := "checkout";
     LegacyDegradeRule.Threshold := Float64.of_int 200;
     LegacyDegradeRule.Strategy := grade;
     LegacyDegradeRule.RetryTimeoutSec := 10;
     LegacyDegradeRule.MinRequestAmount := 5;
     LegacyDegradeRule.SlowRatioThreshold := half;
     LegacyDegradeRule.StatIntervalMs := 1000 |}.

(** The float64 nearest to 200.9, and the rule of grade 0 with a given
    count. *)
Definition twoHundredPointNine : Float64.t := S754_finite false 7068540352646349 (-45).

Definition slowCalls (count : Float64.t) : LegacyDegradeRule.t :=
  {| LegacyDegradeRule.ID := 1;
     LegacyDegradeRule.Resource := "checkout";
     LegacyDegradeRule.Threshold := count;
     LegacyDegradeRule.Strategy := 0;
     LegacyDegradeRule.RetryTimeoutSec := 10;
     LegacyDegradeRule.MinRequestAmount := 5;
     LegacyDegradeRule.SlowRatioThreshold := half;
     LegacyDegradeRule.StatIntervalMs := 1000 |}.

(** The environments in which every system-rule, respectively
    circuit-breaking, payload decodes to the given rules, and in which no
    payload decodes. *)
Definition systemPayload (rules : list (option LegacySystemRule.t)) : Collaborators :=
  Reference.collaborators Reference.failing (Reference.decoding rules)
    Reference.failing Reference.failing.

Definition degradePayload (rules : list (option LegacyDegradeRule.t)) : Collaborators :=
  Reference.collaborators Reference.failing Reference.failing
    (Reference.decoding rules) Reference.failing.

(** A system-rule payload with the one rule [allNegative]. *)
Definition invalidOnly : Collaborators := systemPayload [Some allNegative].

(** A flow payload with the rule [r1] twice. *)
Definition twoFlowRules : Collaborators :=
  Reference.collaborators (Reference.decoding [Some r1; Some r1]) Reference.failing
    Reference.failing Reference.failing.

(** A circuit-breaking payload with rules of grade 0, 7 and 2. *)
Definition threeGrades : Collaborators :=
  degradePayload (map Some [degrade 1 0; degrade 2 7; degrade 3 2]).

Definition malformedPayload : Collaborators :=
  Reference.collaborators Reference.failing Reference.failing
    Reference.failing Reference.failing.

(** The world before the first notification. *)
Definition start (ext : Collaborators) (e : @Engine ext) : @World ext :=
  {| engine := e; trace := [] |}.

End Examples.

(** ** Further notions: rule categories, engine calls, hyphens *)

(** The four rule categories. *)
Inductive Category : Type := Flow | System | CircuitBreaking | ParamFlow.

Section EngineCalls.
Context {ext : Collaborators}.

(** The category whose [LoadRules] an event calls, if it is a call. *)
Definition callOf (ev : Event) : option Category :=
  match ev with
  | Infof _ _ | Errorf _ _ => None
  | FlowLoadRules _ => Some Flow
  | SystemLoadRules _ => Some System
  | CircuitBreakerLoadRules _ => Some CircuitBreaking
  | HotspotLoadRules _ => Some ParamFlow
  end.

(** The calls of the engine in a stretch of trace, in order. *)
Definition engineCalls (tr : list Event) : list Category :=
  flat_map (fun ev => match callOf ev with Some c => [c] | None => [] end) tr.

Definition hotspotBatches (tr : list Event) : list (list hotspot.Rule.t) :=
  flat_map (fun ev => match ev with HotspotLoadRules arr => [arr] | _ => [] end) tr.

End EngineCalls.

Section HandlerShape.
Context {ext : Collaborators}.

(** The shape the four change handlers share: log the payload, decode it,
    translate the entries, call the category's [LoadRules], log its error. *)
Definition changeHandler {L R : Type}
    (received parseFailed loadFailed : string)
    (unmarshal : string -> Payload.t L * option error)
    (ToGoRule : L -> Completion (option R))
    (call : list R -> Event)
    (LoadRules : list R -> Engine -> (bool * option error) * Engine)
    (data : string) : Handler unit :=
  seq (sentinelLogger_Infof received data) (fun _ =>
    let '(d, err) := unmarshal data in
    match err with
    | Some err => sentinelLogger_Errorf parseFailed err
    | None =>
        seq (lift (rangeRules ToGoRule (Payload.Data d) [])) (fun arr =>
          seq (callEngine call LoadRules arr) (fun res =>
            match snd res with
            | Some err => sentinelLogger_Errorf loadFailed err
            | None => ret tt
            end))
    end).

(** An entry of [Data] on which the loop of a handler panics: a nil pointer,
    or a rule whose translation panics. *)
Definition panics {L R : Type} (ToGoRule : L -> Completion (option R)) (p : option L)
  : Prop :=
  match p with
  | None => True
  | Some lr => ToGoRule lr = Panicked
  end.

End HandlerShape.

(** A string without the character [-]. *)
Fixpoint hyphenFree (s : string) : bool :=
  match s with
  | EmptyString => true
  | String c s' => negb (Ascii.eqb c "-") && hyphenFree s'
  end.

(** A hot-spot rule entry has no nil override item. *)
Definition itemsPresent (lr : LegacyParamFlowRule.t) : Prop :=
  ~ In None (LegacyParamFlowRule.SpecificItems lr).

Module MoreExamples.

(** A hot-spot rule with the largest uint64 as its id and no override item. *)
Definition largestId : LegacyParamFlowRule.t :=
  {| LegacyParamFlowRule.Id := 2 ^ 64 - 1;
     LegacyParamFlowRule.Resource := "query";
     LegacyParamFlowRule.MetricType := 1;
     LegacyParamFlowRule.Threshold := Examples.threeQuarters;
     LegacyParamFlowRule.ParamIndex := 0;
     LegacyParamFlowRule.DurationInSec := 1;
     LegacyParamFlowRule.ControlBehavior := 2;
     LegacyParamFlowRule.MaxQueueingTimeMs := 0;
     LegacyParamFlowRule.BurstCount := 0;
     LegacyParamFlowRule.SpecificItems := [];
     LegacyParamFlowRule.ClusterMode := false |}.

(** A hot-spot payload with the example rule and the rule [largestId]. *)
Definition twoHotspotRules : Collaborators :=
  Reference.collaborators Reference.failing Reference.failing Reference.failing
    (Reference.decoding
       [Some (Examples.hotspotRule (map Some Examples.items)); Some largestId]).

(** A flow payload with a null entry after a rule. *)
Definition nullEntry : Collaborators :=
  Reference.collaborators (Reference.decoding [Some Examples.r1; None]) Reference.failing
    Reference.failing Reference.failing.

(** An environment whose engine rejects every batch and whose flow payloads
    decode to the rule [r1]. *)
Definition rejecting : Collaborators :=
  {| error := string;
     Engine := Reference.Installed;
     json_Unmarshal_flow := Reference.decoding [Some Examples.r1];
     json_Unmarshal_system := Reference.failing;
     json_Unmarshal_degrade := Reference.failing;
     json_Unmarshal_paramFlow := Reference.failing;
     flow_LoadRules := fun _ e => ((false, Some "rejected"%string), e);
     system_LoadRules := fun _ e => ((false, Some "rejected"%string), e);
     circuitbreaker_LoadRules := fun _ e => ((false, Some "rejected"%string), e);
     hotspot_LoadRules := fun _ e => ((false, Some "rejected"%string), e) |}.

(** A hot-spot payload whose second rule has a nil override item. *)
Definition nilItem : Collaborators :=
  Reference.collaborators Reference.failing Reference.failing Reference.failing
    (Reference.decoding
       [Some largestId; Some (Examples.hotspotRule [Some (Examples.item "a" Examples.half "int"); None])]).

End MoreExamples.

(** * Package meta: the process metadata

    The struct [Meta], its accessors, the package variable [metadata] and
    [InitMetadata] with the functions it calls. The state of the package is
    the value of [metadata]; what the code calls in package [aliyun], in the
    operating system and in package [net] is taken from an environment. *)

Module meta.

Definition CurrentSdkVersion : string := "1.0.3".
Definition GoSDK : string := "GO_SDK".
Definition Host : Z := 0.
Definition Container : Z := 1.

(** A buffered channel of strings: its capacity and the values it holds,
    oldest first. *)
Record Chan : Type := {
  capacity : nat;
  queue : list string
}.

Record Meta : Type := {
  license : string;
  namespace : string;
  deployEnv : string;
  inVpc : bool;
  regionId : string;
  vpcId : string;
  ip : string;
  hostName : string;
  pid : string;
  cid : string;
  tid : string;
  instanceId : string;
  uid : string;
  version : string;
  ahasEndpoint : string;
  tidChan : Chan;
  debugging : bool
}.

(** The assignment [m.f = x], for each field [f] the package assigns. *)
Definition set_license (x : string) (m : Meta) : Meta :=
  {| license := x; namespace := namespace m; deployEnv := deployEnv m; inVpc :=
     inVpc m; regionId := regionId m; vpcId := vpcId m; ip := ip m; hostName :=
     hostName m; pid := pid m; cid := cid m; tid := tid m; instanceId := instanceId
     m; uid := uid m; version := version m; ahasEndpoint := ahasEndpoint m; tidChan
     := tidChan m; debugging := debugging m |}.

Definition set_namespace (x : string) (m : Meta) : Meta :=
  {| license := license m; namespace := x; deployEnv := deployEnv m; inVpc := inVpc
     m; regionId := regionId m; vpcId := vpcId m; ip := ip m; hostName := hostName
     m; pid := pid m; cid := cid m; tid := tid m; instanceId := instanceId m; uid :=
     uid m; version := version m; ahasEndpoint := ahasEndpoint m; tidChan := tidChan
     m; debugging := debugging m |}.

Definition set_deployEnv (x : string) (m : Meta) : Meta :=
  {| license := license m; namespace := namespace m; deployEnv := x; inVpc := inVpc
     m; regionId := regionId m; vpcId := vpcId m; ip := ip m; hostName := hostName
     m; pid := pid m; cid := cid m; tid := tid m; instanceId := instanceId m; uid :=
     uid m; version := version m; ahasEndpoint := ahasEndpoint m; tidChan := tidChan
     m; debugging := debugging m |}.

Definition set_inVpc (x : bool) (m : Meta) : Meta :=
  {| license := license m; namespace := namespace m; deployEnv := deployEnv m; inVpc
     := x; regionId := regionId m; vpcId := vpcId m; ip := ip m; hostName :=
     hostName m; pid := pid m; cid := cid m; tid := tid m; instanceId := instanceId
     m; uid := uid m; version := version m; ahasEndpoint := ahasEndpoint m; tidChan
     := tidChan m; debugging := debugging m |}.

Definition set_regionId (x : string) (m : Meta) : Meta :=
  {| license := license m; namespace := namespace m; deployEnv := deployEnv m; inVpc
     := inVpc m; regionId := x; vpcId := vpcId m; ip := ip m; hostName := hostName
     m; pid := pid m; cid := cid m; tid := tid m; instanceId := instanceId m; uid :=
     uid m; version := version m; ahasEndpoint := ahasEndpoint m; tidChan := tidChan
     m; debugging := debugging m |}.

Definition set_vpcId (x : string) (m : Meta) : Meta :=
  {| license := license m; namespace := namespace m; deployEnv := deployEnv m; inVpc
     := inVpc m; regionId := regionId m; vpcId := x; ip := ip m; hostName :=
     hostName m; pid := pid m; cid := cid m; tid := tid m; instanceId := instanceId
     m; uid := uid m; version := version m; ahasEndpoint := ahasEndpoint m; tidChan
     := tidChan m; debugging := debugging m |}.

Definition set_ip (x : string) (m : Meta) : Meta :=
  {| license := license m; namespace := namespace m; deployEnv := deployEnv m; inVpc
     := inVpc m; regionId := regionId m; vpcId := vpcId m; ip := x; hostName :=
     hostName m; pid := pid m; cid := cid m; tid := tid m; instanceId := instanceId
     m; uid := uid m; version := version m; ahasEndpoint := ahasEndpoint m; tidChan
     := tidChan m; debugging := debugging m |}.

Definition set_hostName (x : string) (m : Meta) : Meta :=
  {| license := license m; namespace := namespace m; deployEnv := deployEnv m; inVpc
     := inVpc m; regionId := regionId m; vpcId := vpcId m; ip := ip m; hostName :=
     x; pid := pid m; cid := cid m; tid := tid m; instanceId := instanceId m; uid :=
     uid m; version := version m; ahasEndpoint := ahasEndpoint m; tidChan := tidChan
     m; debugging := debugging m |}.

Definition set_pid (x : string) (m : Meta) : Meta :=
  {| license := license m; namespace := namespace m; deployEnv := deployEnv m; inVpc
     := inVpc m; regionId := regionId m; vpcId := vpcId m; ip := ip m; hostName :=
     hostName m; pid := x; cid := cid m; tid := tid m; instanceId := instanceId m;
     uid := uid m; version := version m; ahasEndpoint := ahasEndpoint m; tidChan :=
     tidChan m; debugging := debugging m |}.

Definition set_cid (x : string) (m : Meta) : Meta :=
  {| license := license m; namespace := namespace m; deployEnv := deployEnv m; inVpc
     := inVpc m; regionId := regionId m; vpcId := vpcId m; ip := ip m; hostName :=
     hostName m; pid := pid m; cid := x; tid := tid m; instanceId := instanceId m;
     uid := uid m; version := version m; ahasEndpoint := ahasEndpoint m; tidChan :=
     tidChan m; debugging := debugging m |}.

Definition set_tid (x : string) (m : Meta) : Meta :=
  {| license := license m; namespace := namespace m; deployEnv := deployEnv m; inVpc
     := inVpc m; regionId := regionId m; vpcId := vpcId m; ip := ip m; hostName :=
     hostName m; pid := pid m; cid := cid m; tid := x; instanceId := instanceId m;
     uid := uid m; version := version m; ahasEndpoint := ahasEndpoint m; tidChan :=
     tidChan m; debugging := debugging m |}.

Definition set_instanceId (x : string) (m : Meta) : Meta :=
  {| license := license m; namespace := namespace m; deployEnv := deployEnv m; inVpc
     := inVpc m; regionId := regionId m; vpcId := vpcId m; ip := ip m; hostName :=
     hostName m; pid := pid m; cid := cid m; tid := tid m; instanceId := x; uid :=
     uid m; version := version m; ahasEndpoint := ahasEndpoint m; tidChan := tidChan
     m; debugging := debugging m |}.

Definition set_uid (x : string) (m : Meta) : Meta :=
  {| license := license m; namespace := namespace m; deployEnv := deployEnv m; inVpc
     := inVpc m; regionId := regionId m; vpcId := vpcId m; ip := ip m; hostName :=
     hostName m; pid := pid m; cid := cid m; tid := tid m; instanceId := instanceId
     m; uid := x; version := version m; ahasEndpoint := ahasEndpoint m; tidChan :=
     tidChan m; debugging := debugging m |}.

Definition set_version (x : string) (m : Meta) : Meta :=
  {| license := license m; namespace := namespace m; deployEnv := deployEnv m; inVpc
     := inVpc m; regionId := regionId m; vpcId := vpcId m; ip := ip m; hostName :=
     hostName m; pid := pid m; cid := cid m; tid := tid m; instanceId := instanceId
     m; uid := uid m; version := x; ahasEndpoint := ahasEndpoint m; tidChan :=
     tidChan m; debugging := debugging m |}.

Definition set_ahasEndpoint (x : string) (m : Meta) : Meta :=
  {| license := license m; namespace := namespace m; deployEnv := deployEnv m; inVpc
     := inVpc m; regionId := regionId m; vpcId := vpcId m; ip := ip m; hostName :=
     hostName m; pid := pid m; cid := cid m; tid := tid m; instanceId := instanceId
     m; uid := uid m; version := version m; ahasEndpoint := x; tidChan := tidChan m;
     debugging := debugging m |}.

Definition set_tidChan (x : Chan) (m : Meta) : Meta :=
  {| license := license m; namespace := namespace m; deployEnv := deployEnv m; inVpc
     := inVpc m; regionId := regionId m; vpcId := vpcId m; ip := ip m; hostName :=
     hostName m; pid := pid m; cid := cid m; tid := tid m; instanceId := instanceId
     m; uid := uid m; version := version m; ahasEndpoint := ahasEndpoint m; tidChan
     := x; debugging := debugging m |}.

(** The package variable [metadata] as the package initialises it. *)
Definition metadata0 : Meta :=
  {| license := ""; namespace := ""; deployEnv := ""; inVpc := false; regionId := "";
     vpcId := ""; ip := ""; hostName := ""; pid := ""; cid := ""; tid := "";
     instanceId := ""; uid := ""; version := CurrentSdkVersion; ahasEndpoint := "";
     tidChan := {| capacity := 5; queue := [] |}; debugging := false |}.

(** How a call that may wait on a channel ends. *)
Inductive Progress : Type := Done | Blocked.

(** The methods of [*Meta]. *)
Definition TidChan (m : Meta) : Chan := tidChan m.
Definition SetUid (uid : string) (m : Meta) : Meta := set_uid uid m.
Definition SetCid (cid : string) (m : Meta) : Meta := set_cid cid m.

(** [ch <- v]: the value is queued when the buffer has room; otherwise the
    sender waits. *)
Definition send (v : string) (ch : Chan) : Progress * Chan :=
  if (List.length (queue ch) <? capacity ch)%nat
  then (Done, {| capacity := capacity ch; queue := queue ch ++ [v] |})
  else (Blocked, ch).

(** [<-ch] when a value is queued. *)
Definition receive (ch : Chan) : option (string * Chan) :=
  match queue ch with
  | [] => None
  | v :: rest => Some (v, {| capacity := capacity ch; queue := rest |})
  end.

Definition SetTid (tid : string) (m : Meta) : Progress * Meta :=
  let m := set_tid tid m in
  let '(progress, ch) := send tid (tidChan m) in
  (progress, set_tidChan ch m).

Definition Cid (m : Meta) : string := cid m.
Definition Version (m : Meta) : string := version m.
Definition InstanceId (m : Meta) : string := instanceId m.
Definition Tid (m : Meta) : string := tid m.
Definition Uid (m : Meta) : string := uid m.
Definition Pid (m : Meta) : string := pid m.
Definition AhasEndpoint (m : Meta) : string := ahasEndpoint m.
Definition HostName (m : Meta) : string := hostName m.
Definition Ip (m : Meta) : string := ip m.
Definition VpcId (m : Meta) : string := vpcId m.
Definition RegionId (m : Meta) : string := regionId m.
Definition InVpc (m : Meta) : bool := inVpc m.

(** The functions of the package that read [metadata]. The package functions
    [RegionId], [VpcId], [Pid] and [Cid] are the methods of the same name at
    [metadata]. *)
Definition License (metadata : Meta) : string := license metadata.
Definition Namespace (metadata : Meta) : string := namespace metadata.
Definition DeployEnv (metadata : Meta) : string := deployEnv metadata.
Definition IsPrivate (metadata : Meta) : bool := inVpc metadata.
Definition CurrentVersion (metadata : Meta) : string := version metadata.
Definition LocalIp (metadata : Meta) : string := ip metadata.
Definition DebugEnabled (metadata : Meta) : bool := debugging metadata.

(** Errors: those the package makes with [errors.New] and [errors.Wrap], and
    those it gets from outside. *)
Inductive error : Type :=
| errors_New (msg : string)
| errors_Wrap (cause : error) (msg : string)
| foreign (text : string).

(** Lines of the package logger. *)
Inductive Arg : Type := ArgString (s : string) | ArgError (e : error).

Inductive LogLine : Type :=
| Warn (msg : string)
| Warnf (format : string) (args : list Arg).

(** What [aliyun.RetrieveVpcMetadata] returns, with the fields the code
    reads. *)
Record VpcEcs : Type := {
  Vpc_Uid : string;
  Vpc_RegionId : string;
  Vpc_VpcId : string;
  Vpc_Ip : string;
  Vpc_HostName : string;
  Vpc_InstanceId : string
}.

(** Addresses of package [net]: the type [IP] with the three methods the code
    calls. *)
Class Net : Type := {
  IP : Type;
  IsLoopback : IP -> bool;
  To4 : IP -> option IP;
  IP_String : IP -> string
}.

Definition FlagUp : Z := 1.
Definition FlagLoopback : Z := 4.

Section Interfaces.
Context {net : Net}.

(** An address as the type switch sees it: a [*net.IPNet] or a [*net.IPAddr]
    with its [IP], which may be nil, or an address of another type. *)
Inductive Addr : Type :=
| IPNet (ip : option IP)
| IPAddr (ip : option IP)
| OtherAddr.

(** An interface with its name, its flags and what [Addrs()] returns. *)
Record Interface : Type := {
  Name : string;
  Flags : Z;
  Addrs : list Addr * option error
}.

End Interfaces.

(** The environment of [InitMetadata]. *)
Class Env : Type := {
  net :: Net;
  aliyun_RetrieveVpcMetadata : VpcEcs * option error;
  aliyun_CnPublic : string;
  aliyun_GetAhasProxyTlsEndpoint : string -> string * bool;
  aliyun_GetAhasProxyEndpoint : string -> string * bool;
  os_Getpid : Z;
  os_Hostname : string * option error;
  net_Interfaces : list Interface * option error
}.

Section Init.
Context {env : Env}.

Definition resolveProcessId : string := Itoa os_Getpid.

Definition resolveHostName (log : list LogLine) : string * list LogLine :=
  let '(name, err) := os_Hostname in
  match err with
  | Some err => (""%string, log ++ [Warnf "Failed to get hostname: %v" [ArgError err]])
  | None => (name, log)
  end.

(** The loop over the addresses of one interface: the first address that is
    not nil, not a loopback address and has a 4-byte form, as a string. *)
Fixpoint rangeAddrs (addrs : list Addr) : option string :=
  match addrs with
  | [] => None
  | addr :: rest =>
      let ip := match addr with
                | IPNet ip => ip
                | IPAddr ip => ip
                | OtherAddr => None
                end in
      match ip with
      | None => rangeAddrs rest
      | Some ip =>
          if IsLoopback ip then rangeAddrs rest
          else match To4 ip with
               | None => rangeAddrs rest
               | Some ip4 => Some (IP_String ip4)
               end
      end
  end.

(** The loop over the interfaces. *)
Fixpoint rangeInterfaces (ifs : list Interface) (log : list LogLine)
  : (string * option error) * list LogLine :=
  match ifs with
  | [] => ((""%string, Some (errors_New "Cannot get host ip address")), log)
  | i :: rest =>
      if Z.land (Flags i) FlagUp =? 0 then rangeInterfaces rest log
      else if negb (Z.land (Flags i) FlagLoopback =? 0) then rangeInterfaces rest log
      else
        let '(addrs, err) := Addrs i in
        match err with
        | Some err =>
            rangeInterfaces rest
              (log ++ [Warnf "Failed to list addresses of the interface <%s>: %v"
                         [ArgString (Name i); ArgError err]])
        | None =>
            match rangeAddrs addrs with
            | Some s => ((s, None), log)
            | None => rangeInterfaces rest log
            end
        end
  end.

Definition resolvePrivateIp (log : list LogLine) : (string * option error) * list LogLine :=
  let '(ifs, err) := net_Interfaces in
  match err with
  | Some err => ((""%string, Some err), log)
  | None => rangeInterfaces ifs log
  end.

(** The end of [InitMetadata], from the computation of the endpoint key on. *)
Definition selectEndpoint (env_ : string) (secureTransport : bool)
    (metadata : Meta) (log : list LogLine) : option error * Meta * list LogLine :=
  let envKey := (env_ ++ "-" ++ regionId metadata)%string in
  let '(endpoint, envSupported) :=
    if secureTransport then aliyun_GetAhasProxyTlsEndpoint envKey
    else aliyun_GetAhasProxyEndpoint envKey in
  if negb envSupported || (endpoint =? "")%string then
    (Some (errors_New ("No available AHAS endpoint, env not supported: " ++ envKey)%string),
     metadata,
     log ++ [Warn ("No available AHAS endpoint, env not supported: " ++ envKey)%string])
  else
    (None, set_version CurrentSdkVersion (set_ahasEndpoint endpoint metadata), log).

(** [InitMetadata]: the error it returns ([None] when it returns the pointer
    to [metadata]), the value of [metadata] and the log afterwards. *)
Definition InitMetadata (license_ namespace_ env_ : string) (secureTransport : bool)
    (metadata : Meta) (log : list LogLine) : option error * Meta * list LogLine :=
  let metadata := set_license license_ metadata in
  let metadata := set_namespace namespace_ metadata in
  let metadata := set_deployEnv env_ metadata in
  if (license_ =? "")%string then
    let '(vpcEcs, err) := aliyun_RetrieveVpcMetadata in
    if (match err with Some _ => true | None => false end)
       || (Vpc_Uid vpcEcs =? "")%string
    then (Some (errors_New "cannot find AHAS license"), metadata, log)
    else
      let metadata := set_regionId (Vpc_RegionId vpcEcs) metadata in
      let metadata := set_inVpc true metadata in
      let metadata := set_vpcId (Vpc_VpcId vpcEcs) metadata in
      let metadata := set_ip (Vpc_Ip vpcEcs) metadata in
      let metadata := set_hostName (Vpc_HostName vpcEcs) metadata in
      let metadata := set_pid resolveProcessId metadata in
      let metadata := set_instanceId (Vpc_InstanceId vpcEcs) metadata in
      let metadata := set_uid (Vpc_Uid vpcEcs) metadata in
      selectEndpoint env_ secureTransport metadata log
  else
    let metadata := set_regionId aliyun_CnPublic metadata in
    let metadata := set_inVpc false metadata in
    let metadata := set_vpcId license_ metadata in
    let '((ip_, err), log) := resolvePrivateIp log in
    match err with
    | Some err => (Some (errors_Wrap err "cannot resolve private IP"), metadata, log)
    | None =>
        let metadata := set_ip ip_ metadata in
        let '(name, log) := resolveHostName log in
        let metadata := set_hostName name metadata in
        let metadata := set_pid resolveProcessId metadata in
        let '(name, log) := resolveHostName log in
        let metadata := set_instanceId name metadata in
        let metadata := set_uid "" metadata in
        selectEndpoint env_ secureTransport metadata log
    end.

End Init.

End meta.

(** * Start of the synchronisation: InitAcm

    [InitAcm] waits for the session token on the channel of the metadata,
    creates a configuration client and registers the four change handlers.
    The configuration service is taken from an environment: the creation of a
    client and [ListenConfig] act on a state of the service and may fail. *)

(** The fields of the package's [Config] that [InitAcm] reads. *)
Record Config : Type := {
  TimeoutMs : Z;
  ListenIntervalMs : Z
}.

Module constant.
Record ClientConfig : Type := {
  TimeoutMs : Z;
  ListenInterval : Z;
  NamespaceId : string;
  Endpoint : string
}.
End constant.

Module vo.
Section ConfigParam.
Context {ext : Collaborators}.
Record ConfigParam : Type := {
  Group : string;
  DataId : string;
  OnChange : string -> string -> string -> string -> Handler unit
}.
End ConfigParam.
End vo.

Class ConfigService {ext : Collaborators} : Type := {
  Service : Type;
  ConfigClient : Type;
  errors_New : string -> error;
  sentinelConf_AppName : string;
  clients_CreateConfigClient :
    constant.ClientConfig -> Service -> (ConfigClient * option error) * Service;
  ListenConfig : ConfigClient -> vo.ConfigParam -> Service -> option error * Service
}.

Section InitAcm.
Context {platform : GoPlatform} {ext : Collaborators} {service : ConfigService}.

(** What [InitAcm] does that can be seen from outside, in order. *)
Inductive StartEvent : Type :=
| Created (clientConfig : constant.ClientConfig)
| Listening (param : vo.ConfigParam)
| SentinelInfo (msg : string)
| LoggerInfof (format arg : string).

Record Startup : Type := {
  state : Service;
  events : list StartEvent
}.

(** One [ListenConfig] call followed, when it succeeds, by the rest. *)
Definition listen (client : ConfigClient) (param : vo.ConfigParam)
    (rest : Startup -> option error * Startup) (s : Startup) : option error * Startup :=
  let '(err, st) := ListenConfig client param (state s) in
  let s := {| state := st; events := events s ++ [Listening param] |} in
  match err with
  | Some err => (Some err, s)
  | None => rest s
  end.

(** [InitAcm], for the metadata [m] it is given and the package variable
    [metadata] of package meta. The [select] takes the token when one is
    queued on the channel and times out when none arrives. Returns the error,
    the metadata [m] and the state afterwards. *)
Definition InitAcm (acmHost : string) (conf : Config) (m metadata : meta.Meta)
    (s : Startup) : option error * meta.Meta * Startup :=
  let ch := meta.TidChan m in
  match meta.receive ch with
  | None => (Some (errors_New "wait AHAS transport timeout"), m, s)
  | Some (_, ch) =>
      let m := meta.set_tidChan ch m in
      let clientConfig :=
        {| constant.TimeoutMs := TimeoutMs conf;
           constant.ListenInterval := ListenIntervalMs conf;
           constant.NamespaceId := meta.Tid m;
           constant.Endpoint := (acmHost ++ ":8080")%string |} in
      let '((configClient, err), st) := clients_CreateConfigClient clientConfig (state s) in
      let s := {| state := st; events := events s ++ [Created clientConfig] |} in
      match err with
      | Some err => (Some err, m, s)
      | None =>
          let flowRuleDataId :=
            formFlowRuleDataId (meta.Uid m) (meta.Namespace metadata) sentinelConf_AppName in
          let '(err, s) :=
            listen configClient
              {| vo.Group := AcmGroupId;
                 vo.DataId := flowRuleDataId;
                 vo.OnChange := fun namespace group dataId data => onFlowRuleChange data |}
              (listen configClient
                 {| vo.Group := AcmGroupId;
                    vo.DataId := formSystemRuleDataId (meta.Uid m) (meta.Namespace metadata)
                                   sentinelConf_AppName;
                    vo.OnChange := fun namespace group dataId data =>
                                     onSystemRuleChange data |}
                 (listen configClient
                    {| vo.Group := AcmGroupId;
                       vo.DataId := formCircuitBreakingRuleDataId (meta.Uid m)
                                      (meta.Namespace metadata) sentinelConf_AppName;
                       vo.OnChange := fun namespace group dataId data =>
                                        onCircuitBreakingRuleChange data |}
                    (listen configClient
                       {| vo.Group := AcmGroupId;
                          vo.DataId := formParamFlowRuleDataId (meta.Uid m)
                                         (meta.Namespace metadata) sentinelConf_AppName;
                          vo.OnChange := fun namespace group dataId data =>
                                           onParamFlowRuleChange data |}
                       (fun s =>
                          (None,
                           {| state := state s;
                              events := events s ++
                                [SentinelInfo "ACM data source initialized successfully";
                                 LoggerInfof
                                   "ACM data source initialized successfully, flow dataId: %s"
                                   flowRuleDataId] |})))))
              s in
          (err, m, s)
      end
  end.

(** The four registrations of a run that registers all of them. *)
Definition registrations (m metadata : meta.Meta) : list vo.ConfigParam :=
  [ {| vo.Group := AcmGroupId;
       vo.DataId := formFlowRuleDataId (meta.Uid m) (meta.Namespace metadata)
                      sentinelConf_AppName;
       vo.OnChange := fun namespace group dataId data => onFlowRuleChange data |};
    {| vo.Group := AcmGroupId;
       vo.DataId := formSystemRuleDataId (meta.Uid m) (meta.Namespace metadata)
                      sentinelConf_AppName;
       vo.OnChange := fun namespace group dataId data => onSystemRuleChange data |};
    {| vo.Group := AcmGroupId;
       vo.DataId := formCircuitBreakingRuleDataId (meta.Uid m) (meta.Namespace metadata)
                      sentinelConf_AppName;
       vo.OnChange := fun namespace group dataId data => onCircuitBreakingRuleChange data |};
    {| vo.Group := AcmGroupId;
       vo.DataId := formParamFlowRuleDataId (meta.Uid m) (meta.Namespace metadata)
                      sentinelConf_AppName;
       vo.OnChange := fun namespace group dataId data => onParamFlowRuleChange data |} ].

(** The registrations attempted in a stretch of events, and the clients
    created. *)
Definition listened (evs : list StartEvent) : list vo.ConfigParam :=
  flat_map (fun ev => match ev with Listening param => [param] | _ => [] end) evs.

Definition created (evs : list StartEvent) : list constant.ClientConfig :=
  flat_map (fun ev => match ev with Created c => [c] | _ => [] end) evs.

(** The state of the service after the registrations [params], one after the
    other, whatever they return. *)
Definition registered (client : ConfigClient) (params : list vo.ConfigParam)
    (st : Service) : Service :=
  fold_left (fun st param => snd (ListenConfig client param st)) params st.

(** The client configuration [InitAcm] asks for. *)
Definition clientConfigOf (acmHost : string) (conf : Config) (m : meta.Meta)
  : constant.ClientConfig :=
  {| constant.TimeoutMs := TimeoutMs conf;
     constant.ListenInterval := ListenIntervalMs conf;
     constant.NamespaceId := meta.Tid m;
     constant.Endpoint := (acmHost ++ ":8080")%string |}.

End InitAcm.

(** ** Notions for the properties of the metadata and of the start *)

Section Routable.
Context {net : meta.Net}.

(** An interface the search for the private address looks into: it is up
    (flag bit 0), not a loopback interface (flag bit 2), and its addresses can
    be listed. *)
Definition usable (i : meta.Interface) : bool :=
  Z.testbit (meta.Flags i) 0 && negb (Z.testbit (meta.Flags i) 2) &&
  match snd (meta.Addrs i) with
  | None => true
  | Some _ => false
  end.

(** The addresses of the usable interfaces, in the order of the interfaces
    and of their addresses. *)
Definition candidates (ifs : list meta.Interface) : list meta.Addr :=
  flat_map (fun i => if usable i then fst (meta.Addrs i) else []) ifs.

(** The 4-byte form of an address that is an IP address, not nil and not a
    loopback address. *)
Definition routable (a : meta.Addr) : option meta.IP :=
  match a with
  | meta.IPNet (Some ip) | meta.IPAddr (Some ip) =>
      if meta.IsLoopback ip then None else meta.To4 ip
  | _ => None
  end.

End Routable.

(** Calls of [SetTid] one after the other, by one caller: a call that waits
    keeps the caller from the calls after it. *)
Fixpoint SetTids (tids : list string) (m : meta.Meta) : meta.Progress * meta.Meta :=
  match tids with
  | [] => (meta.Done, m)
  | tid :: rest =>
      match meta.SetTid tid m with
      | (meta.Done, m') => SetTids rest m'
      | (meta.Blocked, m') => (meta.Blocked, m')
      end
  end.

(** The table [InitMetadata] looks the endpoint up in. *)
Definition endpointTable {env : meta.Env} (secureTransport : bool)
  : string -> string * bool :=
  if secureTransport then meta.aliyun_GetAhasProxyTlsEndpoint
  else meta.aliyun_GetAhasProxyEndpoint.

Module StartExamples.

(** Addresses as lists of bytes, with the methods of package net on them. *)
Definition bytesNet : meta.Net :=
  {| meta.IP := list Z;
     meta.IsLoopback := fun ip =>
       match ip with
       | [127; _; _; _] => true
       | _ => false
       end;
     meta.To4 := fun ip =>
       match ip with
       | [_; _; _; _] => Some ip
       | _ => None
       end;
     meta.IP_String := fun ip =>
       String.concat "." (map Itoa ip) |}.

Definition ipnet (bytes : list Z) : @meta.Addr bytesNet :=
  @meta.IPNet bytesNet (Some bytes).

Definition interface (name : string) (flags : Z) (addrs : list (@meta.Addr bytesNet))
  : @meta.Interface bytesNet :=
  {| meta.Name := name; meta.Flags := flags; meta.Addrs := (addrs, None) |}.

(** A loopback interface, an interface that is down, and an interface with an
    IPv6 address and the address 10.0.0.5. *)
Definition interfaces : list (@meta.Interface bytesNet) :=
  [ interface "lo" (1 + 4) [ipnet [127; 0; 0; 1]];
    interface "eth1" 2 [ipnet [10; 0; 0; 9]];
    interface "eth0" (1 + 2 + 16)
      [ipnet [254; 128; 0; 0; 0; 0; 0; 0; 0; 0; 0; 0; 0; 0; 0; 1]; ipnet [10; 0; 0; 5]] ].

(** A host outside the private network, in an environment whose endpoint
    tables know the key prod-cn-public. *)
Definition publicHost (ifs : list (@meta.Interface bytesNet)) : meta.Env :=
  {| meta.net := bytesNet;
     meta.aliyun_RetrieveVpcMetadata :=
       ({| meta.Vpc_Uid := ""; meta.Vpc_RegionId := ""; meta.Vpc_VpcId := "";
           meta.Vpc_Ip := ""; meta.Vpc_HostName := ""; meta.Vpc_InstanceId := "" |},
        Some (meta.foreign "no metadata service"));
     meta.aliyun_CnPublic := "cn-public";
     meta.aliyun_GetAhasProxyTlsEndpoint := fun key =>
       if (key =? "prod-cn-public")%string then ("ahas-proxy.example:9528"%string, true)
       else (""%string, false);
     meta.aliyun_GetAhasProxyEndpoint := fun key =>
       if (key =? "prod-cn-public")%string then ("ahas-proxy.example:8848"%string, true)
       else (""%string, false);
     meta.os_Getpid := 4242;
     meta.os_Hostname := ("web-1"%string, None);
     meta.net_Interfaces := (ifs, None) |}.

(** A configuration service that accepts every client and every registration
    but the ones whose data id is in [refused]; its state is the list of the
    data ids it listens to. The application is called shop. *)
Definition service (refused : list string) : @ConfigService Examples.malformedPayload :=
  {| Service := list string;
     ConfigClient := constant.ClientConfig;
     errors_New := fun msg => (msg : @error Examples.malformedPayload);
     sentinelConf_AppName := "shop";
     clients_CreateConfigClient := fun clientConfig st => ((clientConfig, None), st);
     ListenConfig := fun client param st =>
       if existsb (String.eqb (vo.DataId param)) refused
       then (Some ("refused"%string : @error Examples.malformedPayload), st)
       else (None, st ++ [vo.DataId param]) |}.

(** The metadata of user 1001 in the namespace default, before and after the
    session token t-7 is set. *)
Definition waiting : meta.Meta :=
  meta.set_namespace "default" (meta.set_uid "1001" meta.metadata0).

Definition ready : meta.Meta := snd (meta.SetTid "t-7" waiting).

(** The metadata once [InitAcm] has taken the token from the channel. *)
Definition waiting_with_token : meta.Meta :=
  meta.set_tidChan {| meta.capacity := 5; meta.queue := [] |} ready.

Definition conf : Config := {| TimeoutMs := 3000; ListenIntervalMs := 10000 |}.

(** The service before the start. *)
Definition idle (refused : list string) : @Startup _ (service refused) :=
  {| state := ([] : @Service _ (service refused)); events := [] |}.

(** The registration of the flow handler for this user, namespace and
    application. *)
Definition flowRegistration : @vo.ConfigParam Examples.malformedPayload :=
  {| vo.Group := AcmGroupId;
     vo.DataId := formFlowRuleDataId "1001" "default" "shop";
     vo.OnChange := fun namespace group dataId data => onFlowRuleChange data |}.

End StartExamples.

(** * Properties *)

(** ** The translators on the examples *)

Example degrade_grade_0 :
  LegacyDegradeRule.ToGoRule (platform := Reference.platform) (Examples.degrade 1 0) =
  Some {| circuitbreaker.Rule.Id := "1";
          circuitbreaker.Rule.Resource := "checkout";
          circuitbreaker.Rule.Strategy := circuitbreaker.SlowRequestRatio;
          circuitbreaker.Rule.RetryTimeoutMs := 10000;
          circuitbreaker.Rule.MinRequestAmount := 5;
          circuitbreaker.Rule.StatIntervalMs := 1000;
          circuitbreaker.Rule.MaxAllowedRtMs := 200;
          circuitbreaker.Rule.Threshold := Examples.half |}.
Proof. reflexivity. Qed.

(** On the reference platform a count of -1 gives the largest uint64 as RT
    bound. *)
Example degrade_negative_count :
  option_map circuitbreaker.Rule.MaxAllowedRtMs
    (LegacyDegradeRule.ToGoRule (platform := Reference.platform)
       (Examples.slowCalls Examples.minusOne))
  = Some (2 ^ 64 - 1).
Proof. reflexivity. Qed.

Example degrade_grade_2 :
  LegacyDegradeRule.ToGoRule (platform := Reference.platform) (Examples.degrade 3 2) =
  Some {| circuitbreaker.Rule.Id := "3";
          circuitbreaker.Rule.Resource := "checkout";
          circuitbreaker.Rule.Strategy := circuitbreaker.ErrorCount;
          circuitbreaker.Rule.RetryTimeoutMs := 10000;
          circuitbreaker.Rule.MinRequestAmount := 5;
          circuitbreaker.Rule.StatIntervalMs := 1000;
          circuitbreaker.Rule.MaxAllowedRtMs := 0;
          circuitbreaker.Rule.Threshold := Float64.of_int 200 |}.
Proof. reflexivity. Qed.

Example system_qps_before_cpu :
  LegacySystemRule.ToGoRule Examples.qpsAndCpu =
  Some {| system.SystemRule.ID := 8;
          system.SystemRule.MetricType := system.InboundQPS;
          system.SystemRule.TriggerCount := Float64.of_int 100;
          system.SystemRule.Strategy := system.NoAdaptive |}.
Proof. reflexivity. Qed.

Example hotspot_items :
  LegacyParamFlowRule.ToGoRule (platform := Reference.platform)
    (Examples.hotspotRule (map Some Examples.items)) =
  Returned (Some
    {| hotspot.Rule.ID := "12";
       hotspot.Rule.Resource := "query";
       hotspot.Rule.MetricType := 1;
       hotspot.Rule.ControlBehavior := hotspot.Reject;
       hotspot.Rule.ParamIndex := 0;
       hotspot.Rule.Threshold := Examples.threeQuarters;
       hotspot.Rule.MaxQueueingTimeMs := 0;
       hotspot.Rule.BurstCount := 0;
       hotspot.Rule.DurationInSec := 1;
       hotspot.Rule.ParamsMaxCapacity := 500;
       hotspot.Rule.SpecificItems :=
         [ {| hotspot.SpecificValue.ValKind := hotspot.KindInt;
              hotspot.SpecificValue.ValStr := "1001";
              hotspot.SpecificValue.Threshold := 2 |};
           {| hotspot.SpecificValue.ValKind := hotspot.KindString;
              hotspot.SpecificValue.ValStr := "vip";
              hotspot.SpecificValue.Threshold := 100 |};
           {| hotspot.SpecificValue.ValKind := hotspot.KindString;
              hotspot.SpecificValue.ValStr := "7";
              hotspot.SpecificValue.Threshold := 3 |} ] |}).
Proof. reflexivity. Qed.

(** A nil override item: the translation panics. *)
Example hotspot_nil_item :
  LegacyParamFlowRule.ToGoRule (platform := Reference.platform)
    (Examples.hotspotRule [Some (Examples.item "a" Examples.half "int"); None]) = Panicked.
Proof. reflexivity. Qed.

(** The retry timeout in milliseconds wraps around at [2^32]. *)
Example degrade_retry_timeout_wraps :
  mul_uint32 4294968 1000 = 704.
Proof. reflexivity. Qed.

(** ** Go primitives *)

(** A value that is [< 0] is not [>= 0]; NaN is neither. *)
Lemma Float64_ltb_not_geb (x : Float64.t) :
  Float64.ltb x Float64.zero = true -> Float64.geb x Float64.zero = false.
Proof.
  unfold Float64.ltb, Float64.geb, Float64.zero, SFltb, SFleb.
  destruct x as [s | s | | s m e]; simpl; try discriminate; destruct s; simpl;
    congruence.
Qed.

Lemma negative_not_nonneg (f : Spec.LegacyField) :
  Spec.negative f = true -> Spec.nonneg f = false.
Proof.
  destruct f as [v | v]; simpl.
  - intros H. apply Z.ltb_lt in H. apply Z.leb_gt. exact H.
  - apply Float64_ltb_not_geb.
Qed.

(** *** float64 of an integer

    An integer below [2^53] in absolute value has at most 53 binary digits, so
    that rounding it to a float64 changes nothing. *)

Lemma digits2_pos_lower (p : positive) :
  2 ^ (Z.pos (digits2_pos p) - 1) <= Z.pos p.
Proof.
  assert (Hstep : forall q : positive,
             2 ^ (Z.pos (Pos.succ q) - 1) = 2 * 2 ^ (Z.pos q - 1)).
  { intros q. rewrite Pos2Z.inj_succ.
    replace (Z.succ (Z.pos q) - 1) with (Z.succ (Z.pos q - 1)) by lia.
    apply Z.pow_succ_r. lia. }
  induction p as [p IH | p IH |]; simpl digits2_pos.
  - rewrite Hstep. lia.
  - rewrite Hstep. lia.
  - simpl. lia.
Qed.

Lemma iter_xO_mul (p k : positive) : Z.pos (Pos.iter xO p k) = Z.pos p * 2 ^ Z.pos k.
Proof.
  revert p. induction k as [| k IH] using Pos.peano_ind; intros p.
  - simpl. lia.
  - rewrite Pos.iter_succ, Pos2Z.inj_succ, Z.pow_succ_r by lia.
    rewrite Pos2Z.inj_xO, IH. lia.
Qed.

Lemma digits2_pos_iter_xO (p k : positive) :
  Z.pos (digits2_pos (Pos.iter xO p k)) = Z.pos (digits2_pos p) + Z.pos k.
Proof.
  revert p. induction k as [| k IH] using Pos.peano_ind; intros p.
  - simpl. lia.
  - rewrite Pos.iter_succ. simpl digits2_pos. rewrite Pos2Z.inj_succ, IH. lia.
Qed.

Lemma binary_round_aux_canonical (s : bool) (m : positive) (e : Z) :
  Z.pos (digits2_pos m) = 53 -> -1074 <= e <= 971 ->
  binary_round_aux Float64.prec Float64.emax s (Z.pos m) e loc_Exact = S754_finite s m e.
Proof.
  intros Hd He. unfold Float64.prec, Float64.emax.
  assert (Hshift : fexp 53 1024 (Z.pos (digits2_pos m) + e) - e = 0).
  { unfold fexp, emin. rewrite Hd. lia. }
  unfold binary_round_aux, shr_fexp. cbn [Zdigits2 shr_record_of_loc].
  rewrite Hshift.
  cbn [shr round_nearest_even shr_m shr_r shr_s loc_of_shr_record Zdigits2 shr_record_of_loc].
  rewrite Hshift. cbn [shr shr_m].
  replace (e <=? 1024 - 53) with true by (symmetry; apply Z.leb_le; lia). reflexivity.
Qed.

Lemma binary_round_small (s : bool) (p : positive) :
  Z.pos p < 2 ^ 53 ->
  exists m e, binary_round Float64.prec Float64.emax s p 0 = S754_finite s m e /\ e <= 0 /\ Z.pos m = Z.pos p * 2 ^ (- e).
Proof.
  intros Hp. pose proof (digits2_pos_lower p) as Hlo.
  assert (Hd : Z.pos (digits2_pos p) <= 53).
  { destruct (Z_le_gt_dec (Z.pos (digits2_pos p)) 53) as [H | H]; [exact H | exfalso].
    assert (2 ^ 53 <= 2 ^ (Z.pos (digits2_pos p) - 1)) by (apply Z.pow_le_mono_r; lia). lia. }
  unfold binary_round, Float64.prec, Float64.emax.
  replace (fexp 53 1024 (Z.pos (digits2_pos p) + 0)) with (Z.pos (digits2_pos p) - 53)
    by (unfold fexp, emin; lia).
  unfold shl_align.
  destruct (Z.pos (digits2_pos p) - 53 - 0) as [| k | k] eqn:Hk; try lia.
  - exists p, 0. split; [apply binary_round_aux_canonical; lia |]. simpl. lia.
  - exists (Pos.iter xO p k), (Z.pos (digits2_pos p) - 53).
    split; [apply binary_round_aux_canonical |].
    + rewrite digits2_pos_iter_xO. lia.
    + lia.
    + split; [lia |]. rewrite iter_xO_mul. f_equal. f_equal. lia.
Qed.

Lemma of_int_exact (z : Z) :
  Z.abs z < 2 ^ 53 -> Float64.is_int (Float64.of_int z) z.
Proof.
  intros Hz. unfold Float64.is_int, Float64.of_int, binary_normalize.
  destruct z as [| p | p].
  - exists 0, 1. split; reflexivity.
  - destruct (binary_round_small false p) as (m & e & Hround & He & Hm); [lia |].
    rewrite Hround. simpl Float64.fraction.
    destruct (0 <=? e) eqn:Hsign.
    + apply Z.leb_le in Hsign. assert (e = 0) by lia. subst e.
      eexists _, _. split; [reflexivity |].
      change (- 0) with 0 in Hm. rewrite Z.pow_0_r in *. lia.
    + eexists _, _. split; [reflexivity |]. exact Hm.
  - destruct (binary_round_small true p) as (m & e & Hround & He & Hm); [lia |].
    rewrite Hround. simpl Float64.fraction.
    destruct (0 <=? e) eqn:Hsign.
    + apply Z.leb_le in Hsign. assert (e = 0) by lia. subst e.
      eexists _, _. split; [reflexivity |].
      change (- 0) with 0 in Hm. rewrite Z.pow_0_r in *. lia.
    + eexists _, _. split; [reflexivity |].
      rewrite <- !Pos2Z.opp_pos, Hm. lia.
Qed.

(** ** System rules *)

Section SystemRules.

(** [find] returns the first element that satisfies the test. *)
Lemma find_first {A} (P : A -> bool) (pre : list A) (x : A) (post : list A) :
  Forall (fun a => P a = false) pre -> P x = true ->
  find P (pre ++ x :: post) = Some x.
Proof.
  intros Hpre Hx. induction Hpre as [| a pre Ha _ IH]; simpl.
  - now rewrite Hx.
  - now rewrite Ha.
Qed.

Lemma find_none_all {A} (P : A -> bool) (l : list A) :
  Forall (fun a => P a = false) l -> find P l = None.
Proof.
  induction 1 as [| a l Ha _ IH]; simpl; [reflexivity | now rewrite Ha].
Qed.

(** The if-chain of [resolveTypeAndCount] is a search through the priority
    list. *)
Lemma resolveTypeAndCount_find (lr : LegacySystemRule.t) :
  LegacySystemRule.resolveTypeAndCount lr =
  match find (fun p => Spec.nonneg (snd p)) (Spec.priority lr) with
  | Some (mt, f) => (mt, Spec.count f)
  | None => (404, Float64.of_int (-1))
  end.
Proof.
  unfold LegacySystemRule.resolveTypeAndCount, Spec.priority. simpl.
  rewrite !Z.geb_leb.
  destruct (0 <=? LegacySystemRule.AvgRt lr); [reflexivity |].
  destruct (0 <=? LegacySystemRule.MaxConcurrency lr); [reflexivity |].
  destruct (Float64.geb (LegacySystemRule.InboundQps lr) Float64.zero); [reflexivity |].
  destruct (Float64.geb (LegacySystemRule.HighestCpuUsage lr) Float64.zero);
    [reflexivity |].
  destruct (Float64.geb (LegacySystemRule.HighestSystemLoad lr) Float64.zero);
    reflexivity.
Qed.

(** [ToGoRule] always returns a rule, whose metric and count are the resolved
    ones. *)
Lemma system_ToGoRule_resolved (lr : LegacySystemRule.t) :
  exists rule,
    LegacySystemRule.ToGoRule lr = Some rule /\
    system.SystemRule.ID rule = LegacySystemRule.ID lr /\
    (system.SystemRule.MetricType rule, system.SystemRule.TriggerCount rule) =
      LegacySystemRule.resolveTypeAndCount lr.
Proof.
  unfold LegacySystemRule.ToGoRule.
  destruct (LegacySystemRule.resolveTypeAndCount lr) as [mt count].
  eexists. split; [reflexivity |]. split; reflexivity.
Qed.

(** C1. The translator looks at avgRt, maxConcurrency, inboundQps, cpuUsage,
    highestSystemLoad in this order, and the canonical rule's MetricType and
    TriggerCount are the metric and the value of the first of them that is
    [>= 0]: whenever the priority list splits into fields that are not
    [>= 0], a field [f] of metric [mt] that is [>= 0], and the rest, the rule
    has metric [mt] and the count of [f]. The count of a float64 field is the
    field; the count of an int64 field is the field converted to float64,
    which is the same number for every value below [2^53]. *)
Theorem system_rule_first_nonnegative_field
    (lr : LegacySystemRule.t)
    (pre : list (system.MetricType * Spec.LegacyField))
    (mt : system.MetricType) (f : Spec.LegacyField)
    (post : list (system.MetricType * Spec.LegacyField)) :
  Spec.priority lr = pre ++ (mt, f) :: post ->
  Forall (fun p => Spec.nonneg (snd p) = false) pre ->
  Spec.nonneg f = true ->
  LegacySystemRule.resolveTypeAndCount lr = (mt, Spec.count f) /\
  exists rule,
    LegacySystemRule.ToGoRule lr = Some rule /\
    system.SystemRule.MetricType rule = mt /\
    system.SystemRule.TriggerCount rule = Spec.count f /\
    (forall x, f = Spec.FloatField x -> system.SystemRule.TriggerCount rule = x) /\
    (forall v, f = Spec.IntField v -> Z.abs v < 2 ^ 53 ->
               Float64.is_int (system.SystemRule.TriggerCount rule) v).
Proof.
  intros Hsplit Hpre Hf.
  assert (Hres : LegacySystemRule.resolveTypeAndCount lr = (mt, Spec.count f)).
  { rewrite resolveTypeAndCount_find, Hsplit.
    rewrite (find_first (fun p => Spec.nonneg (snd p)) pre (mt, f) post Hpre Hf).
    reflexivity. }
  split; [exact Hres |].
  destruct (system_ToGoRule_resolved lr) as (rule & Hrule & _ & Hpair).
  exists rule. split; [exact Hrule |].
  rewrite Hres in Hpair. injection Hpair as Hmt Hcount.
  split; [exact Hmt |]. split; [exact Hcount |]. split.
  - intros x ->. exact Hcount.
  - intros v -> Hv. rewrite Hcount. now apply of_int_exact.
Qed.

(** The example rule sets neither response time nor concurrency, so its
    metric is the inbound QPS, ahead of the CPU usage it sets as well. *)
Lemma system_rule_first_nonnegative_field_witness :
  LegacySystemRule.resolveTypeAndCount Examples.qpsAndCpu =
    (system.InboundQPS, Float64.of_int 100) /\
  exists rule,
    LegacySystemRule.ToGoRule Examples.qpsAndCpu = Some rule /\
    system.SystemRule.MetricType rule = system.InboundQPS /\
    system.SystemRule.TriggerCount rule = Float64.of_int 100.
Proof.
  destruct (system_rule_first_nonnegative_field Examples.qpsAndCpu
              [(system.AvgRT, Spec.IntField (-1)); (system.Concurrency, Spec.IntField (-1))]
              system.InboundQPS (Spec.FloatField (Float64.of_int 100))
              [(system.CpuUsage, Spec.FloatField Examples.threeQuarters);
               (system.Load, Spec.FloatField Examples.minusOne)])
    as (Hres & rule & Hrule & Hmt & Hcount & _).
  - reflexivity.
  - repeat constructor.
  - reflexivity.
  - split; [exact Hres |]. exists rule. repeat split; assumption.
Defined.

End SystemRules.

(** ** The loop of the handlers *)

Section Loop.
Context {L R : Type}.

(** On pointers that are all non-nil and a translator that does not panic,
    the loop appends the translations that are not nil, in order. *)
Lemma rangeRules_present (ToGoRule : L -> option R) (rules : list L) (arr : list R) :
  rangeRules (fun r => Returned (ToGoRule r)) (map Some rules) arr =
  Returned (arr ++ Spec.withoutNil ToGoRule rules).
Proof.
  revert arr. induction rules as [| lr rules IH]; intros arr; simpl.
  - now rewrite app_nil_r.
  - destruct (ToGoRule lr) as [rule |]; simpl.
    + rewrite IH, <- app_assoc. reflexivity.
    + apply IH.
Qed.

(** A nil pointer in [Data] makes the loop panic. *)
Lemma rangeRules_nil (ToGoRule : L -> option R) (data : list (option L)) (arr : list R) :
  In None data -> rangeRules (fun r => Returned (ToGoRule r)) data arr = Panicked.
Proof.
  revert arr. induction data as [| p data IH]; intros arr Hin; [contradiction |].
  destruct p as [lr |]; simpl; [| reflexivity].
  destruct Hin as [Heq | Hin]; [discriminate |].
  destruct (ToGoRule lr); now apply IH.
Qed.

(** A translator without nil results loses no rule. *)
Lemma withoutNil_total (ToGoRule : L -> option R) (f : L -> R) (rules : list L) :
  (forall lr, ToGoRule lr = Some (f lr)) ->
  Spec.withoutNil ToGoRule rules = map f rules.
Proof.
  intros Hf. induction rules as [| lr rules IH]; simpl; [reflexivity |].
  now rewrite Hf, IH.
Qed.

Lemma withoutNil_In (ToGoRule : L -> option R) (rules : list L) (lr : L) (rule : R) :
  In lr rules -> ToGoRule lr = Some rule -> In rule (Spec.withoutNil ToGoRule rules).
Proof.
  intros Hin Hrule. unfold Spec.withoutNil. apply in_flat_map.
  exists lr. split; [exact Hin |]. rewrite Hrule. now left.
Qed.

Lemma withoutNil_filter (ToGoRule : L -> option R) (rules : list L) :
  List.length (Spec.withoutNil ToGoRule rules) =
  List.length
    (filter (fun lr => match ToGoRule lr with Some _ => true | None => false end) rules).
Proof.
  induction rules as [| lr rules IH]; simpl; [reflexivity |].
  destruct (ToGoRule lr); simpl; now rewrite IH.
Qed.

End Loop.

(** ** The handlers on a decoded payload *)

Section DecodedPayload.
Context {platform : GoPlatform} {ext : Collaborators}.

Ltac run_handler Hdec Hdata :=
  unfold seq, lift, sentinelLogger_Infof, sentinelLogger_Errorf, emit, callEngine, ret,
    loadFailure; simpl;
  rewrite Hdec; simpl; rewrite Hdata, rangeRules_present; simpl;
  match goal with
  | |- context [?load ?arr (engine ?w)] =>
      destruct (load arr (engine w)) as [[ok [err |]] e]; simpl;
      rewrite <- ?app_assoc; reflexivity
  end.

Lemma onFlowRuleChange_decoded data d rules w :
  json_Unmarshal_flow data = (d, None) ->
  Payload.Data d = map Some rules ->
  let arr := Spec.withoutNil LegacyFlowRule.ToGoRule rules in
  let res := flow_LoadRules arr (engine w) in
  onFlowRuleChange data w =
  (Returned tt,
   {| engine := snd res;
      trace := trace w ++
        [Infof "ACM data received for flow rules: %v" data; FlowLoadRules arr] ++
        loadFailure "Failed to load flow rules: %+v" (fst res) |}).
Proof. intros Hdec Hdata. unfold onFlowRuleChange. run_handler Hdec Hdata. Qed.

Lemma onSystemRuleChange_decoded data d rules w :
  json_Unmarshal_system data = (d, None) ->
  Payload.Data d = map Some rules ->
  let arr := Spec.withoutNil LegacySystemRule.ToGoRule rules in
  let res := system_LoadRules arr (engine w) in
  onSystemRuleChange data w =
  (Returned tt,
   {| engine := snd res;
      trace := trace w ++
        [Infof "ACM data received for system rules: %v" data; SystemLoadRules arr] ++
        loadFailure "Failed to load system rules: %+v" (fst res) |}).
Proof. intros Hdec Hdata. unfold onSystemRuleChange. run_handler Hdec Hdata. Qed.

Lemma onCircuitBreakingRuleChange_decoded data d rules w :
  json_Unmarshal_degrade data = (d, None) ->
  Payload.Data d = map Some rules ->
  let arr := Spec.withoutNil LegacyDegradeRule.ToGoRule rules in
  let res := circuitbreaker_LoadRules arr (engine w) in
  onCircuitBreakingRuleChange data w =
  (Returned tt,
   {| engine := snd res;
      trace := trace w ++
        [Infof "ACM data received for circuit breaking rules: %v" data;
         CircuitBreakerLoadRules arr] ++
        loadFailure "Failed to load flow rules: %+v" (fst res) |}).
Proof. intros Hdec Hdata. unfold onCircuitBreakingRuleChange. run_handler Hdec Hdata. Qed.

Lemma systemBatches_loadFailure format res :
  systemBatches (loadFailure format res) = [].
Proof. unfold loadFailure. now destruct (snd res). Qed.

Lemma circuitBreakerBatches_loadFailure format res :
  circuitBreakerBatches (loadFailure format res) = [].
Proof. unfold loadFailure. now destruct (snd res). Qed.

Lemma flowBatches_loadFailure format res :
  flowBatches (loadFailure format res) = [].
Proof. unfold loadFailure. now destruct (snd res). Qed.

End DecodedPayload.

(** ** System rules without a usable field *)

Section InvalidSystemRule.

(** A rule whose five fields are all [< 0] resolves to the invalid marker. *)
Lemma resolveTypeAndCount_all_negative (lr : LegacySystemRule.t) :
  Forall (fun p => Spec.negative (snd p) = true) (Spec.priority lr) ->
  LegacySystemRule.resolveTypeAndCount lr = (404, Float64.of_int (-1)).
Proof.
  intros Hneg. rewrite resolveTypeAndCount_find, find_none_all; [reflexivity |].
  eapply Forall_impl; [| exact Hneg].
  intros p Hp. now apply negative_not_nonneg.
Qed.

(** C2, as the code has it. For a legacy system rule whose five numeric
    fields are all [< 0] the translator returns a rule, not nil, that carries
    the invalid marker: metric type 404, count -1 (and the non-adaptive
    strategy). The system-rule change handler filters nil rules only, so it
    does not drop this rule: on a payload that decodes to non-nil entries
    among which the rule occurs, the handler returns normally after one call
    of the system-rule replacement, and the batch of that call contains the
    marker rule and has as many rules as the payload. *)
Theorem system_rule_invalid_marker_passed_on (lr : LegacySystemRule.t) :
  Forall (fun p => Spec.negative (snd p) = true) (Spec.priority lr) ->
  exists marker,
    LegacySystemRule.ToGoRule lr = Some marker /\
    system.SystemRule.MetricType marker = 404 /\
    system.SystemRule.TriggerCount marker = Float64.of_int (-1) /\
    system.SystemRule.Strategy marker = system.NoAdaptive /\
    forall (ext : Collaborators) (data : string) (d : Payload.t LegacySystemRule.t)
           (rules : list LegacySystemRule.t) (w : World),
      json_Unmarshal_system data = (d, None) ->
      Payload.Data d = map Some rules ->
      In lr rules ->
      exists w' new arr,
        onSystemRuleChange data w = (Returned tt, w') /\
        trace w' = trace w ++ new /\
        systemBatches new = [arr] /\
        In marker arr /\
        List.length arr = List.length rules.
Proof.
  intros Hneg.
  destruct (system_ToGoRule_resolved lr) as (marker & Hrule & _ & Hpair).
  rewrite (resolveTypeAndCount_all_negative lr Hneg) in Hpair.
  inversion Hpair as [[Hmt Hcount]].
  exists marker. repeat split; try assumption.
  - unfold LegacySystemRule.ToGoRule in Hrule.
    rewrite (resolveTypeAndCount_all_negative lr Hneg) in Hrule.
    inversion Hrule. reflexivity.
  - intros ext data d rules w Hdec Hdata Hin.
    eexists _, _, _. split; [apply (onSystemRuleChange_decoded data d rules w Hdec Hdata) |].
    simpl. split; [reflexivity |]. split; [| split].
    + unfold systemBatches. simpl. f_equal. apply systemBatches_loadFailure.
    + now apply withoutNil_In with (lr := lr).
    + rewrite withoutNil_total with (f := fun r =>
        match LegacySystemRule.ToGoRule r with Some rule => rule | None => marker end).
      * apply length_map.
      * intros r. destruct (system_ToGoRule_resolved r) as (rule & Hr & _). now rewrite Hr.
Qed.

End InvalidSystemRule.

(** The witness of the theorem: the rule with five fields of -1, alone in a
    payload. *)
Lemma system_rule_invalid_marker_passed_on_witness :
  exists marker w' new arr,
    LegacySystemRule.ToGoRule Examples.allNegative = Some marker /\
    system.SystemRule.MetricType marker = 404 /\
    onSystemRuleChange (ext := Examples.invalidOnly)
      "payload" (Examples.start Examples.invalidOnly Reference.nothingInstalled) = (Returned tt, w') /\
    trace w' = new /\
    systemBatches new = [arr] /\
    In marker arr.
Proof.
  destruct (system_rule_invalid_marker_passed_on Examples.allNegative)
    as (marker & Hrule & Hmt & _ & _ & Hrun).
  - repeat constructor.
  - destruct (Hrun Examples.invalidOnly "payload"%string
                {| Payload.Version := "1"; Payload.Data := [Some Examples.allNegative] |}
                [Examples.allNegative]
                (Examples.start Examples.invalidOnly Reference.nothingInstalled)
                eq_refl eq_refl (or_introl eq_refl))
      as (w' & new & arr & Hw' & Htrace & Hbatch & Hin & _).
    exists marker, w', new, arr. repeat split; assumption.
Defined.

(** The handler does not drop the rule with five fields of -1: its
    translation is the one rule of the batch the handler passes to the
    system-rule replacement. What the engine does with the batch is the
    engine's. *)
Lemma system_rule_invalid_marker_dropped_counterexample :
  Forall (fun p => Spec.negative (snd p) = true) (Spec.priority Examples.allNegative) /\
  LegacySystemRule.ToGoRule Examples.allNegative = Some Examples.marker /\
  let run :=
    onSystemRuleChange (ext := Examples.invalidOnly)
      "payload" (Examples.start Examples.invalidOnly Reference.nothingInstalled) in
  fst run = Returned tt /\
  trace (snd run) =
    [Infof "ACM data received for system rules: %v" "payload";
     SystemLoadRules [Examples.marker]] /\
  ~ excludedFromSystemBatches Examples.marker (trace (snd run)).
Proof.
  split; [repeat constructor |]. split; [reflexivity |].
  cbv zeta. split; [reflexivity |]. split; [reflexivity |].
  intros Hexcl. inversion Hexcl as [| arr batches Hnotin _ Heq]. apply Hnotin.
  left. reflexivity.
Qed.

(** ** Conversions from float64 *)

Lemma fraction_den_pos (x : Float64.t) (n d : Z) :
  Float64.fraction x = Some (n, d) -> 0 < d.
Proof.
  destruct x as [s | s | | s m e]; simpl; try discriminate.
  - intros H. inversion H. lia.
  - destruct (0 <=? e) eqn:He; intros H; inversion H; subst; [lia |].
    apply Z.leb_gt in He. apply Z.pow_pos_nonneg; lia.
Qed.

(** Truncation leaves an integer as it is. *)
Lemma trunc_is_int (x : Float64.t) (z : Z) :
  Float64.is_int x z -> Float64.trunc x = Some z.
Proof.
  intros (n & d & Hfrac & Hn). unfold Float64.trunc. rewrite Hfrac.
  pose proof (fraction_den_pos x n d Hfrac) as Hd.
  subst n. rewrite Z.quot_mul by lia. reflexivity.
Qed.

(** Truncation discards a fraction [r / d] that is smaller than one and has
    the sign of the value. *)
Lemma trunc_discards_fraction (x : Float64.t) (n d z : Z) :
  Float64.fraction x = Some (n, d) -> Float64.trunc x = Some z ->
  exists r, n = d * z + r /\ Z.abs r < d /\ 0 <= r * n.
Proof.
  intros Hfrac Htrunc. unfold Float64.trunc in Htrunc. rewrite Hfrac in Htrunc.
  inversion Htrunc as [Hz]. pose proof (fraction_den_pos x n d Hfrac) as Hd.
  exists (Z.rem n d). split; [apply Z.quot_rem'; lia |]. split.
  - pose proof (Z.rem_bound_abs n d ltac:(lia)) as Hb. lia.
  - apply Z.rem_sign_mul. lia.
Qed.

Section ConversionFacts.
Context {platform : GoPlatform}.

Lemma int64_of_float64_in_range (x : Float64.t) (z : Z) :
  Float64.trunc x = Some z -> - 2 ^ 63 <= z < 2 ^ 63 -> int64_of_float64 x = z.
Proof.
  intros Htrunc [Hlo Hhi]. unfold int64_of_float64. rewrite Htrunc.
  apply Z.leb_le in Hlo. apply Z.ltb_lt in Hhi. now rewrite Hlo, Hhi.
Qed.

Lemma uint64_of_float64_in_range (x : Float64.t) (z : Z) :
  Float64.trunc x = Some z -> 0 <= z < 2 ^ 64 -> uint64_of_float64 x = z.
Proof.
  intros Htrunc [Hlo Hhi]. unfold uint64_of_float64. rewrite Htrunc.
  apply Z.leb_le in Hlo. apply Z.ltb_lt in Hhi. now rewrite Hlo, Hhi.
Qed.

End ConversionFacts.

(** ** Circuit-breaking rules *)

Section DegradeRules.
Context {platform : GoPlatform}.

Lemma degrade_ToGoRule_unsupported (lr : LegacyDegradeRule.t) :
  LegacyDegradeRule.Strategy lr <> 0 ->
  LegacyDegradeRule.Strategy lr <> 1 ->
  LegacyDegradeRule.Strategy lr <> 2 ->
  LegacyDegradeRule.ToGoRule lr = None.
Proof.
  unfold LegacyDegradeRule.ToGoRule. intros H0 H1 H2.
  destruct (LegacyDegradeRule.Strategy lr) as [| [p | p |] | p]; try reflexivity;
    try contradiction; destruct p; try reflexivity; contradiction.
Qed.

Lemma degrade_ToGoRule_supported (lr : LegacyDegradeRule.t) :
  match LegacyDegradeRule.ToGoRule lr with
  | Some _ => true
  | None => false
  end = supportedGrade lr.
Proof.
  unfold LegacyDegradeRule.ToGoRule, supportedGrade.
  destruct (LegacyDegradeRule.Strategy lr) as [| [[p | p |] | [p | p |] |] | p];
    reflexivity.
Qed.

(** Truncation gives the integer a value is exactly when the division of
    its fraction leaves no remainder. *)
Lemma is_int_trunc_iff (x : Float64.t) (n d : Z) :
  Float64.fraction x = Some (n, d) ->
  (Float64.is_int x (Z.quot n d) <-> Z.rem n d = 0).
Proof.
  intros Hfrac. pose proof (fraction_den_pos x n d Hfrac) as Hd.
  pose proof (Z.quot_rem' n d) as Hdiv. split.
  - intros (n' & d' & Hfrac' & Hn). rewrite Hfrac in Hfrac'.
    injection Hfrac' as <- <-. lia.
  - intros Hrem. exists n, d. split; [exact Hfrac | lia].
Qed.

(** C3, as the code has it. A legacy circuit-breaking rule of grade 0 becomes
    a slow-request-ratio rule whose Threshold, the ratio, is the legacy
    slowRatioThreshold and whose MaxAllowedRtMs, the RT upper bound, is the
    legacy count converted to uint64. When the count without its fraction
    lies in [0, 2^64), the bound is the count truncated towards zero: the
    fraction is discarded, and the bound equals the count exactly when the
    count is an integer. For every other count (NaN, infinite, [<= -1] or
    [>= 2^64]) the bound is what the platform's conversion gives. It is not
    the reverse: the rule's Threshold is the legacy count only if the two
    legacy fields are equal. *)
Theorem degrade_slow_ratio_cross_assignment (lr : LegacyDegradeRule.t) :
  LegacyDegradeRule.Strategy lr = 0 ->
  exists rule,
    LegacyDegradeRule.ToGoRule lr = Some rule /\
    circuitbreaker.Rule.Strategy rule = circuitbreaker.SlowRequestRatio /\
    circuitbreaker.Rule.Threshold rule = LegacyDegradeRule.SlowRatioThreshold lr /\
    circuitbreaker.Rule.MaxAllowedRtMs rule =
      uint64_of_float64 (LegacyDegradeRule.Threshold lr) /\
    (forall n d,
       Float64.fraction (LegacyDegradeRule.Threshold lr) = Some (n, d) ->
       0 <= Z.quot n d < 2 ^ 64 ->
       circuitbreaker.Rule.MaxAllowedRtMs rule = Z.quot n d /\
       (exists r, n = d * circuitbreaker.Rule.MaxAllowedRtMs rule + r /\
                  Z.abs r < d /\ 0 <= r * n) /\
       (Spec.rtBoundIsCount lr rule <-> Z.rem n d = 0)) /\
    (forall z, 0 <= z < 2 ^ 64 -> Float64.is_int (LegacyDegradeRule.Threshold lr) z ->
               circuitbreaker.Rule.MaxAllowedRtMs rule = z) /\
    ((forall z, Float64.trunc (LegacyDegradeRule.Threshold lr) = Some z ->
                z < 0 \/ 2 ^ 64 <= z) ->
     circuitbreaker.Rule.MaxAllowedRtMs rule =
       uint64_unrepresentable (LegacyDegradeRule.Threshold lr)) /\
    (circuitbreaker.Rule.Threshold rule = LegacyDegradeRule.Threshold lr ->
     LegacyDegradeRule.SlowRatioThreshold lr = LegacyDegradeRule.Threshold lr).
Proof.
  intros Hgrade. unfold LegacyDegradeRule.ToGoRule. rewrite Hgrade.
  eexists. split; [reflexivity |]. unfold Spec.rtBoundIsCount.
  cbn [circuitbreaker.Rule.Strategy circuitbreaker.Rule.Threshold
       circuitbreaker.Rule.MaxAllowedRtMs LegacyDegradeRule.set_Strategy
       LegacyDegradeRule.set_Threshold LegacyDegradeRule.set_MaxAllowedRtMs].
  split; [reflexivity |]. split; [reflexivity |]. split; [reflexivity |].
  split; [| split; [| split]].
  - intros n d Hfrac Hrange.
    assert (Htrunc : Float64.trunc (LegacyDegradeRule.Threshold lr) = Some (Z.quot n d))
      by (unfold Float64.trunc; now rewrite Hfrac).
    rewrite (uint64_of_float64_in_range _ _ Htrunc Hrange).
    split; [reflexivity |]. split.
    + exact (trunc_discards_fraction _ n d _ Hfrac Htrunc).
    + now apply is_int_trunc_iff.
  - intros z Hz Hint. apply uint64_of_float64_in_range; [| exact Hz].
    now apply trunc_is_int.
  - intros Hout. unfold uint64_of_float64.
    destruct (Float64.trunc (LegacyDegradeRule.Threshold lr)) as [z |]; [| reflexivity].
    destruct (Hout z eq_refl) as [Hneg | Hbig].
    + apply Z.leb_gt in Hneg. now rewrite Hneg.
    + apply Z.ltb_ge in Hbig. rewrite Hbig. now rewrite andb_false_r.
  - intros H. exact H.
Qed.

End DegradeRules.

(** The rule of grade 0 with count 200 and slow ratio 1/2: the ratio
    threshold is 1/2 and the RT bound is 200. *)
Lemma degrade_slow_ratio_cross_assignment_witness :
  exists rule,
    LegacyDegradeRule.ToGoRule (platform := Reference.platform) (Examples.degrade 1 0)
      = Some rule /\
    circuitbreaker.Rule.Strategy rule = circuitbreaker.SlowRequestRatio /\
    circuitbreaker.Rule.Threshold rule = Examples.half /\
    circuitbreaker.Rule.MaxAllowedRtMs rule = 200.
Proof.
  destruct (degrade_slow_ratio_cross_assignment (platform := Reference.platform)
              (Examples.degrade 1 0) eq_refl)
    as (rule & Hrule & Hstrategy & Hratio & _ & _ & Hrt & _).
  exists rule. repeat split; try assumption.
  apply Hrt; [lia |].
  exists 7036874417766400, (2 ^ 45). split; reflexivity.
Defined.

(** The RT bound does not equal every legacy count: for the rule of grade 0
    with count 200.9 it is 200. *)
Lemma degrade_slow_ratio_count_truncated_counterexample :
  LegacyDegradeRule.Strategy (Examples.slowCalls Examples.twoHundredPointNine) = 0 /\
  exists rule,
    LegacyDegradeRule.ToGoRule (platform := Reference.platform)
      (Examples.slowCalls Examples.twoHundredPointNine) = Some rule /\
    circuitbreaker.Rule.MaxAllowedRtMs rule = 200 /\
    ~ Spec.rtBoundIsCount (Examples.slowCalls Examples.twoHundredPointNine) rule.
Proof.
  split; [reflexivity |]. eexists. split; [reflexivity |]. split; [reflexivity |].
  intros (n & d & Hfrac & Hn). injection Hfrac as <- <-. discriminate Hn.
Qed.

Section DegradeHandler.
Context {platform : GoPlatform}.

Lemma filter_length_lt {A} (f : A -> bool) (l : list A) (x : A) :
  In x l -> f x = false -> (List.length (filter f l) < List.length l)%nat.
Proof.
  induction l as [| a l IH]; intros Hin Hx; [contradiction |].
  simpl. pose proof (filter_length_le f l) as Hle.
  destruct Hin as [-> | Hin].
  - rewrite Hx. lia.
  - specialize (IH Hin Hx). destruct (f a); simpl; lia.
Qed.

(** C4. Grades 0, 1 and 2 translate to a slow-request-ratio, an error-ratio
    and an error-count rule. For any other grade the translator returns nil,
    and the circuit-breaking change handler filters it out without an error:
    on a payload that decodes to non-nil entries among which the rule occurs,
    the handler returns normally after one call of the circuit-breaking
    replacement, whose batch holds the translations of the rules of grade 0, 1
    or 2 only, and so fewer rules than the payload. *)
Theorem degrade_unsupported_grade_filtered (lr : LegacyDegradeRule.t) :
  (LegacyDegradeRule.Strategy lr = 0 ->
   exists rule, LegacyDegradeRule.ToGoRule lr = Some rule /\
                circuitbreaker.Rule.Strategy rule = circuitbreaker.SlowRequestRatio) /\
  (LegacyDegradeRule.Strategy lr = 1 ->
   exists rule, LegacyDegradeRule.ToGoRule lr = Some rule /\
                circuitbreaker.Rule.Strategy rule = circuitbreaker.ErrorRatio) /\
  (LegacyDegradeRule.Strategy lr = 2 ->
   exists rule, LegacyDegradeRule.ToGoRule lr = Some rule /\
                circuitbreaker.Rule.Strategy rule = circuitbreaker.ErrorCount) /\
  (LegacyDegradeRule.Strategy lr <> 0 ->
   LegacyDegradeRule.Strategy lr <> 1 ->
   LegacyDegradeRule.Strategy lr <> 2 ->
   LegacyDegradeRule.ToGoRule lr = None /\
   forall (ext : Collaborators) (data : string) (d : Payload.t LegacyDegradeRule.t)
          (rules : list LegacyDegradeRule.t) (w : World),
     json_Unmarshal_degrade data = (d, None) ->
     Payload.Data d = map Some rules ->
     In lr rules ->
     exists w' new arr,
       onCircuitBreakingRuleChange data w = (Returned tt, w') /\
       trace w' = trace w ++ new /\
       circuitBreakerBatches new = [arr] /\
       arr = Spec.withoutNil LegacyDegradeRule.ToGoRule (filter supportedGrade rules) /\
       List.length arr = List.length (filter supportedGrade rules) /\
       (List.length arr < List.length rules)%nat).
Proof.
  split; [| split; [| split]].
  - intros H. unfold LegacyDegradeRule.ToGoRule. rewrite H. eexists. split; reflexivity.
  - intros H. unfold LegacyDegradeRule.ToGoRule. rewrite H. eexists. split; reflexivity.
  - intros H. unfold LegacyDegradeRule.ToGoRule. rewrite H. eexists. split; reflexivity.
  - intros H0 H1 H2.
    pose proof (degrade_ToGoRule_unsupported lr H0 H1 H2) as Hnil.
    split; [exact Hnil |].
    intros ext data d rules w Hdec Hdata Hin.
    assert (Hlen : List.length (Spec.withoutNil LegacyDegradeRule.ToGoRule rules) =
                   List.length (filter supportedGrade rules)).
    { rewrite withoutNil_filter. f_equal. apply filter_ext.
      intros r. apply degrade_ToGoRule_supported. }
    assert (Hsame : Spec.withoutNil LegacyDegradeRule.ToGoRule rules =
                    Spec.withoutNil LegacyDegradeRule.ToGoRule
                      (filter supportedGrade rules)).
    { clear. induction rules as [| r rules IH]; simpl; [reflexivity |].
      pose proof (degrade_ToGoRule_supported r) as Hr.
      destruct (LegacyDegradeRule.ToGoRule r) as [rule |] eqn:Hrule;
        rewrite <- Hr; simpl.
      - rewrite Hrule. simpl. now rewrite IH.
      - exact IH. }
    eexists _, _, _.
    split; [apply (onCircuitBreakingRuleChange_decoded data d rules w Hdec Hdata) |].
    simpl. split; [reflexivity |]. split; [| split; [| split]].
    + unfold circuitBreakerBatches. simpl. f_equal.
      apply circuitBreakerBatches_loadFailure.
    + exact Hsame.
    + exact Hlen.
    + rewrite Hlen. apply filter_length_lt with (x := lr); [exact Hin |].
      rewrite <- degrade_ToGoRule_supported, Hnil. reflexivity.
Qed.

End DegradeHandler.

(** A payload with rules of grade 0, 7 and 2: the rule of grade 7 has no
    translation, and the batch has the two others. *)
Lemma degrade_unsupported_grade_filtered_witness :
  LegacyDegradeRule.ToGoRule (platform := Reference.platform) (Examples.degrade 2 7) = None /\
  exists w' arr,
    onCircuitBreakingRuleChange (platform := Reference.platform)
      (ext := Examples.threeGrades) "payload"
      (Examples.start Examples.threeGrades Reference.nothingInstalled) = (Returned tt, w') /\
    circuitBreakerBatches (trace w') = [arr] /\
    List.length arr = 2%nat.
Proof.
  destruct (degrade_unsupported_grade_filtered (platform := Reference.platform)
              (Examples.degrade 2 7)) as (_ & _ & _ & Hother).
  destruct Hother as (Hnil & Hrun); try discriminate.
  split; [exact Hnil |].
  destruct (Hrun Examples.threeGrades "payload"%string
              {| Payload.Version := "1";
                 Payload.Data := map Some [Examples.degrade 1 0; Examples.degrade 2 7;
                                           Examples.degrade 3 2] |}
              [Examples.degrade 1 0; Examples.degrade 2 7; Examples.degrade 3 2]
              (Examples.start Examples.threeGrades Reference.nothingInstalled)
              eq_refl eq_refl (or_intror (or_introl eq_refl)))
    as (w' & new & arr & Hw' & Htrace & Hbatch & _ & Hlen & _).
  exists w', arr. simpl in Htrace. rewrite Htrace. repeat split; assumption.
Defined.

(** ** Flow rules *)

Section FlowRules.

(** C9. The flow translator is total and lossless: it returns a rule, not
    nil, for every legacy flow rule, and each field of the rule is the legacy
    field. Hence the nil filter of the flow change handler removes nothing: on
    a payload that decodes to legacy flow rules (non-nil entries), the handler
    returns normally after one call of the flow replacement, the batch of that
    call holds the translation of every rule in order, and it is as long as
    the decoded Data. *)
Theorem flow_translation_total_lossless :
  (forall lr : LegacyFlowRule.t,
     exists rule,
       LegacyFlowRule.ToGoRule lr = Some rule /\
       flow.FlowRule.ID rule = LegacyFlowRule.ID lr /\
       flow.FlowRule.Resource rule = LegacyFlowRule.Resource lr /\
       flow.FlowRule.LimitOrigin rule = LegacyFlowRule.LimitOrigin lr /\
       flow.FlowRule.MetricType rule = LegacyFlowRule.MetricType lr /\
       flow.FlowRule.Count rule = LegacyFlowRule.Count lr /\
       flow.FlowRule.RelationStrategy rule = LegacyFlowRule.Strategy lr /\
       flow.FlowRule.ControlBehavior rule = LegacyFlowRule.ControlBehavior lr /\
       flow.FlowRule.RefResource rule = LegacyFlowRule.RefResource lr /\
       flow.FlowRule.WarmUpPeriodSec rule = LegacyFlowRule.WarmUpPeriodSec lr /\
       flow.FlowRule.MaxQueueingTimeMs rule = LegacyFlowRule.MaxQueueingTimeMs lr /\
       flow.FlowRule.ClusterMode rule = LegacyFlowRule.ClusterMode lr) /\
  (forall (ext : Collaborators) (data : string) (d : Payload.t LegacyFlowRule.t)
          (rules : list LegacyFlowRule.t) (w : World),
     json_Unmarshal_flow data = (d, None) ->
     Payload.Data d = map Some rules ->
     exists w' new arr,
       onFlowRuleChange data w = (Returned tt, w') /\
       trace w' = trace w ++ new /\
       flowBatches new = [arr] /\
       map Some arr = map LegacyFlowRule.ToGoRule rules /\
       List.length arr = List.length (Payload.Data d)).
Proof.
  split.
  - intros lr. eexists. split; [reflexivity |]. repeat split.
  - intros ext data d rules w Hdec Hdata.
    eexists _, _, _.
    split; [apply (onFlowRuleChange_decoded data d rules w Hdec Hdata) |].
    simpl. split; [reflexivity |]. split; [| split].
    + unfold flowBatches. simpl. f_equal. apply flowBatches_loadFailure.
    + clear. induction rules as [| lr rules IH]; simpl; [reflexivity |].
      now rewrite IH.
    + rewrite Hdata, length_map. clear.
      induction rules as [| lr rules IH]; simpl; [reflexivity |]. now rewrite IH.
Qed.

(** A nil entry in the decoded [Data] makes the flow handler panic before it
    calls the engine. *)
Lemma onFlowRuleChange_nil_entry {ext : Collaborators} data d w :
  json_Unmarshal_flow data = (d, None) ->
  In None (Payload.Data d) ->
  onFlowRuleChange data w =
  (Panicked,
   {| engine := engine w;
      trace := trace w ++ [Infof "ACM data received for flow rules: %v" data] |}).
Proof.
  intros Hdec Hnil. unfold onFlowRuleChange, seq, lift, sentinelLogger_Infof, emit. simpl.
  rewrite Hdec. simpl. now rewrite rangeRules_nil.
Qed.

End FlowRules.

(** A payload with two flow rules gives a batch of two rules. *)
Lemma flow_translation_total_lossless_witness :
  exists w' arr,
    onFlowRuleChange (ext := Examples.twoFlowRules) "payload"
      (Examples.start Examples.twoFlowRules Reference.nothingInstalled) = (Returned tt, w') /\
    flowBatches (trace w') = [arr] /\
    List.length arr = 2%nat.
Proof.
  destruct flow_translation_total_lossless as [_ Hrun].
  destruct (Hrun Examples.twoFlowRules "payload"%string
              {| Payload.Version := "1"; Payload.Data := [Some Examples.r1; Some Examples.r1] |}
              [Examples.r1; Examples.r1]
              (Examples.start Examples.twoFlowRules Reference.nothingInstalled)
              eq_refl eq_refl)
    as (w' & new & arr & Hw' & Htrace & Hbatch & _ & Hlen).
  exists w', arr. simpl in Htrace. rewrite Htrace. repeat split; assumption.
Defined.

(** ** Payloads that fail to decode *)

Section DecodeFailure.
Context {platform : GoPlatform} {ext : Collaborators}.

Ltac skip_notification Hdec :=
  unfold skipsNotification, seq, sentinelLogger_Infof, sentinelLogger_Errorf, emit;
  simpl; rewrite Hdec; simpl;
  split; [reflexivity |]; split; [reflexivity |];
  eexists; split; [rewrite <- app_assoc; reflexivity |]; repeat constructor.

(** C8. When the payload of a notification fails to decode, the change
    handler of each of the four rule categories logs and returns: it makes no
    call of the rule engine, whose state, and so the installed rule sets, is
    as before, and it ends by returning, without a panic and, being a
    function without results, without an error for the subscription layer. *)
Theorem decode_failure_skips_notification (data : string) (w : World) :
  (forall d err, json_Unmarshal_flow data = (d, Some err) ->
                 skipsNotification (onFlowRuleChange data w) w) /\
  (forall d err, json_Unmarshal_system data = (d, Some err) ->
                 skipsNotification (onSystemRuleChange data w) w) /\
  (forall d err, json_Unmarshal_degrade data = (d, Some err) ->
                 skipsNotification (onCircuitBreakingRuleChange data w) w) /\
  (forall d err, json_Unmarshal_paramFlow data = (d, Some err) ->
                 skipsNotification (onParamFlowRuleChange data w) w).
Proof.
  split; [| split; [| split]]; intros d err Hdec.
  - unfold onFlowRuleChange. skip_notification Hdec.
  - unfold onSystemRuleChange. skip_notification Hdec.
  - unfold onCircuitBreakingRuleChange. skip_notification Hdec.
  - unfold onParamFlowRuleChange. skip_notification Hdec.
Qed.

End DecodeFailure.

(** The payload that is an opening brace alone decodes in no category. *)
Lemma decode_failure_skips_notification_witness :
  skipsNotification
    (onFlowRuleChange (ext := Examples.malformedPayload) "{"
       (Examples.start Examples.malformedPayload Reference.nothingInstalled))
    (Examples.start Examples.malformedPayload Reference.nothingInstalled) /\
  skipsNotification
    (onSystemRuleChange (ext := Examples.malformedPayload) "{"
       (Examples.start Examples.malformedPayload Reference.nothingInstalled))
    (Examples.start Examples.malformedPayload Reference.nothingInstalled) /\
  skipsNotification
    (onCircuitBreakingRuleChange (platform := Reference.platform)
       (ext := Examples.malformedPayload) "{"
       (Examples.start Examples.malformedPayload Reference.nothingInstalled))
    (Examples.start Examples.malformedPayload Reference.nothingInstalled) /\
  skipsNotification
    (onParamFlowRuleChange (platform := Reference.platform)
       (ext := Examples.malformedPayload) "{"
       (Examples.start Examples.malformedPayload Reference.nothingInstalled))
    (Examples.start Examples.malformedPayload Reference.nothingInstalled).
Proof.
  destruct (decode_failure_skips_notification (platform := Reference.platform)
              (ext := Examples.malformedPayload) "{"
              (Examples.start Examples.malformedPayload Reference.nothingInstalled))
    as (Hflow & Hsystem & Hdegrade & HparamFlow).
  split; [exact (Hflow _ _ eq_refl) |].
  split; [exact (Hsystem _ _ eq_refl) |].
  split; [exact (Hdegrade _ _ eq_refl) |].
  exact (HparamFlow _ _ eq_refl).
Defined.

(** ** Data ids *)

Section DataIds.

(** C7, as the code has it. The data id of a rule category is the category's
    prefix, which ends in a hyphen, followed at once by the user id, a hyphen,
    the namespace, a hyphen and the application name; there is no further
    hyphen between the prefix and the user id. *)
Theorem data_id_prefix_then_names (userId namespace appName : string) :
  formFlowRuleDataId userId namespace appName =
    ("flow-rule-" ++ userId ++ "-" ++ namespace ++ "-" ++ appName)%string /\
  formSystemRuleDataId userId namespace appName =
    ("system-rule-" ++ userId ++ "-" ++ namespace ++ "-" ++ appName)%string /\
  formCircuitBreakingRuleDataId userId namespace appName =
    ("degrade-rule-" ++ userId ++ "-" ++ namespace ++ "-" ++ appName)%string /\
  formParamFlowRuleDataId userId namespace appName =
    ("param-flow-rule-" ++ userId ++ "-" ++ namespace ++ "-" ++ appName)%string.
Proof. repeat split. Qed.

(** The data id after the pattern [<prefix>-<tenantId>-<namespace>-<appName>]
    with the prefix flow-rule- has two hyphens before the tenant id; the data
    id the code forms has one. *)
Lemma data_id_pattern_counterexample :
  formFlowRuleDataId "1001" "default" "shop" = "flow-rule-1001-default-shop"%string /\
  Spec.dataId "flow-rule-" "1001" "default" "shop" = "flow-rule--1001-default-shop"%string /\
  formFlowRuleDataId "1001" "default" "shop" <>
    Spec.dataId "flow-rule-" "1001" "default" "shop".
Proof. repeat split. discriminate. Qed.

End DataIds.

(** ** Hot-spot rules *)

Section HotspotRules.
Context {platform : GoPlatform}.

Lemma length_zero_empty (s : string) : (String.length s =? 0)%nat = (s =? "")%string.
Proof. destruct s; reflexivity. Qed.

Lemma kept_hasValue (v : LegacyParamFlowItem.t) : kept v = Spec.hasValue v.
Proof. unfold kept, Spec.hasValue. now rewrite length_zero_empty. Qed.

(** One iteration skips an item without value and appends the translation of
    any other item. *)
Lemma appendItem_kept (v : LegacyParamFlowItem.t) (items : list hotspot.SpecificValue.t) :
  LegacyParamFlowRule.appendItem v items =
  if kept v then items ++ [translateItem v] else items.
Proof.
  unfold LegacyParamFlowRule.appendItem, kept, translateItem, chosenKind.
  destruct (String.length (LegacyParamFlowItem.Value v) =? 0)%nat; simpl; [reflexivity |].
  destruct ((LegacyParamFlowItem.ParamType v =? "int")%string
            || (LegacyParamFlowItem.ParamType v =? "long")%string); [reflexivity |].
  destruct ((LegacyParamFlowItem.ParamType v =? "bool")%string
            || (LegacyParamFlowItem.ParamType v =? "boolean")%string); [reflexivity |].
  destruct ((LegacyParamFlowItem.ParamType v =? "double")%string
            || (LegacyParamFlowItem.ParamType v =? "float")%string); reflexivity.
Qed.

Lemma rangeItems_present (vs : list LegacyParamFlowItem.t)
    (items : list hotspot.SpecificValue.t) :
  LegacyParamFlowRule.rangeItems (map Some vs) items =
  Returned (items ++ map translateItem (filter kept vs)).
Proof.
  revert items. induction vs as [| v vs IH]; intros items; simpl.
  - now rewrite app_nil_r.
  - rewrite IH, appendItem_kept. destruct (kept v); simpl; [| reflexivity].
    now rewrite <- app_assoc.
Qed.

(** A nil override item makes the translation panic. *)
Lemma rangeItems_nil (src : list (option LegacyParamFlowItem.t))
    (items : list hotspot.SpecificValue.t) :
  In None src -> LegacyParamFlowRule.rangeItems src items = Panicked.
Proof.
  revert items. induction src as [| p src IH]; intros items Hin; [contradiction |].
  destruct p as [v |]; simpl; [| reflexivity].
  destruct Hin as [Heq | Hin]; [discriminate | now apply IH].
Qed.

(** The translation of a rule whose override items are all non-nil. *)
Lemma paramFlow_ToGoRule_present (lr : LegacyParamFlowRule.t)
    (vs : list LegacyParamFlowItem.t) :
  LegacyParamFlowRule.SpecificItems lr = map Some vs ->
  exists rule,
    LegacyParamFlowRule.ToGoRule lr = Returned (Some rule) /\
    hotspot.Rule.SpecificItems rule = map translateItem (filter kept vs) /\
    hotspot.Rule.Threshold rule = LegacyParamFlowRule.Threshold lr /\
    hotspot.Rule.ParamsMaxCapacity rule = 500.
Proof.
  intros Hitems. unfold LegacyParamFlowRule.ToGoRule. rewrite Hitems.
  destruct vs as [| v vs].
  - simpl. eexists. split; [reflexivity |]. repeat split.
  - replace (0 <? List.length (map Some (v :: vs)))%nat with true by reflexivity.
    rewrite rangeItems_present. simpl. eexists. split; [reflexivity |]. repeat split.
Qed.

(** The type tags the loop knows, as equations. *)
Lemma chosenKind_cases (ty : string) :
  (ty = "int"%string \/ ty = "long"%string -> chosenKind ty = hotspot.KindInt) /\
  (ty = "bool"%string \/ ty = "boolean"%string -> chosenKind ty = hotspot.KindBool) /\
  (ty = "double"%string \/ ty = "float"%string -> chosenKind ty = hotspot.KindFloat64) /\
  (ty <> "int"%string -> ty <> "long"%string ->
   ty <> "bool"%string -> ty <> "boolean"%string ->
   ty <> "double"%string -> ty <> "float"%string ->
   chosenKind ty = hotspot.KindString).
Proof.
  repeat split.
  - intros [-> | ->]; reflexivity.
  - intros [-> | ->]; reflexivity.
  - intros [-> | ->]; reflexivity.
  - intros H1 H2 H3 H4 H5 H6. unfold chosenKind.
    apply String.eqb_neq in H1, H2, H3, H4, H5, H6.
    now rewrite H1, H2, H3, H4, H5, H6.
Qed.

(** C5, as the code has it. The value kind of an override item with a
    non-empty value is decided by comparing its type tag for equality, letter
    case included: the tag int or long gives the integer kind, bool or boolean
    the boolean kind, double or float the float kind, and every other tag,
    such as Int or LONG, the string kind. The items that are kept appear in
    the translated list in their order. *)
Theorem hotspot_item_kind_by_exact_tag (lr : LegacyParamFlowRule.t)
    (vs : list LegacyParamFlowItem.t) :
  LegacyParamFlowRule.SpecificItems lr = map Some vs ->
  exists rule,
    LegacyParamFlowRule.ToGoRule lr = Returned (Some rule) /\
    forall (i : nat) (v : LegacyParamFlowItem.t),
      nth_error (filter Spec.hasValue vs) i = Some v ->
      exists sv,
        nth_error (hotspot.Rule.SpecificItems rule) i = Some sv /\
        hotspot.SpecificValue.ValStr sv = LegacyParamFlowItem.Value v /\
        let ty := LegacyParamFlowItem.ParamType v in
        (ty = "int"%string \/ ty = "long"%string ->
         hotspot.SpecificValue.ValKind sv = hotspot.KindInt) /\
        (ty = "bool"%string \/ ty = "boolean"%string ->
         hotspot.SpecificValue.ValKind sv = hotspot.KindBool) /\
        (ty = "double"%string \/ ty = "float"%string ->
         hotspot.SpecificValue.ValKind sv = hotspot.KindFloat64) /\
        (ty <> "int"%string -> ty <> "long"%string ->
         ty <> "bool"%string -> ty <> "boolean"%string ->
         ty <> "double"%string -> ty <> "float"%string ->
         hotspot.SpecificValue.ValKind sv = hotspot.KindString).
Proof.
  intros Hitems.
  destruct (paramFlow_ToGoRule_present lr vs Hitems) as (rule & Hrule & Hsv & _).
  exists rule. split; [exact Hrule |].
  intros i v Hnth. exists (translateItem v). split.
  - rewrite Hsv, (filter_ext kept Spec.hasValue kept_hasValue).
    now apply map_nth_error.
  - split; [reflexivity |]. apply chosenKind_cases.
Qed.

End HotspotRules.

(** The first kept item of the example rule has the tag int. *)
Lemma hotspot_item_kind_by_exact_tag_witness :
  exists rule sv,
    LegacyParamFlowRule.ToGoRule (platform := Reference.platform)
      (Examples.hotspotRule (map Some Examples.items)) = Returned (Some rule) /\
    nth_error (hotspot.Rule.SpecificItems rule) 0 = Some sv /\
    hotspot.SpecificValue.ValStr sv = "1001"%string /\
    hotspot.SpecificValue.ValKind sv = hotspot.KindInt.
Proof.
  destruct (hotspot_item_kind_by_exact_tag (platform := Reference.platform)
              (Examples.hotspotRule (map Some Examples.items)) Examples.items eq_refl)
    as (rule & Hrule & Hkinds).
  destruct (Hkinds 0%nat (Examples.item "1001" Examples.fiveHalves "int") eq_refl)
    as (sv & Hnth & Hstr & Hint & _).
  exists rule, sv. repeat split; try assumption.
  apply Hint. left. reflexivity.
Defined.

(** The tag INT matches int when letter case is ignored, so that a
    case-insensitive match gives the integer kind; the translation gives the
    item the string kind. *)
Lemma hotspot_item_kind_case_insensitive_counterexample :
  Spec.hasValue (Examples.item "7" (Float64.of_int 3) "INT") = true /\
  Spec.equalFold "INT" "int" = true /\
  Spec.kindByFold "INT" = hotspot.KindInt /\
  exists rule,
    LegacyParamFlowRule.ToGoRule (platform := Reference.platform)
      (Examples.hotspotRule [Some (Examples.item "7" (Float64.of_int 3) "INT")])
      = Returned (Some rule) /\
    map hotspot.SpecificValue.ValKind (hotspot.Rule.SpecificItems rule)
      = [hotspot.KindString] /\
    map hotspot.SpecificValue.ValKind (hotspot.Rule.SpecificItems rule)
      <> [Spec.kindByFold "INT"].
Proof.
  split; [reflexivity |]. split; [reflexivity |]. split; [reflexivity |].
  eexists. split; [reflexivity |]. split; [reflexivity |]. discriminate.
Qed.

Section HotspotItems.
Context {platform : GoPlatform}.

(** C6. The translation of a hot-spot rule leaves out every override item
    whose value string is empty: the translated SpecificItems are the items
    with a non-empty value string, in their order, none has an empty value,
    and their number is the number of input items with a non-empty value
    string. *)
Theorem hotspot_empty_value_items_skipped (lr : LegacyParamFlowRule.t)
    (vs : list LegacyParamFlowItem.t) :
  LegacyParamFlowRule.SpecificItems lr = map Some vs ->
  exists rule,
    LegacyParamFlowRule.ToGoRule lr = Returned (Some rule) /\
    map hotspot.SpecificValue.ValStr (hotspot.Rule.SpecificItems rule) =
      map LegacyParamFlowItem.Value (filter Spec.hasValue vs) /\
    Forall (fun sv => hotspot.SpecificValue.ValStr sv <> ""%string)
      (hotspot.Rule.SpecificItems rule) /\
    List.length (hotspot.Rule.SpecificItems rule) =
      List.length (filter Spec.hasValue vs) /\
    (List.length (hotspot.Rule.SpecificItems rule) +
     List.length (filter (fun v => (LegacyParamFlowItem.Value v =? "")%string) vs)
     = List.length vs)%nat.
Proof.
  intros Hitems.
  destruct (paramFlow_ToGoRule_present lr vs Hitems) as (rule & Hrule & Hsv & _).
  rewrite (filter_ext kept Spec.hasValue kept_hasValue) in Hsv.
  exists rule. split; [exact Hrule |]. rewrite Hsv. split; [| split; [| split]].
  - rewrite map_map. reflexivity.
  - apply Forall_map. apply Forall_forall. intros v Hv.
    apply filter_In in Hv. destruct Hv as [_ Hv]. unfold Spec.hasValue in Hv.
    apply negb_true_iff, String.eqb_neq in Hv. exact Hv.
  - apply length_map.
  - rewrite length_map. clear. induction vs as [| v vs IH]; simpl; [reflexivity |].
    unfold Spec.hasValue at 1.
    destruct (LegacyParamFlowItem.Value v =? "")%string; simpl; lia.
Qed.

(** C10. In the translation of a hot-spot rule the threshold of each kept
    override item is the legacy float64 count converted to int64: for a count
    [n / d] whose integer part an int64 holds, the threshold is that integer
    part, the count less a fraction [r / d] smaller than one. The threshold of
    the rule itself stays the legacy float64 count. *)
Theorem hotspot_item_threshold_truncated (lr : LegacyParamFlowRule.t)
    (vs : list LegacyParamFlowItem.t) :
  LegacyParamFlowRule.SpecificItems lr = map Some vs ->
  exists rule,
    LegacyParamFlowRule.ToGoRule lr = Returned (Some rule) /\
    hotspot.Rule.Threshold rule = LegacyParamFlowRule.Threshold lr /\
    forall (i : nat) (v : LegacyParamFlowItem.t),
      nth_error (filter Spec.hasValue vs) i = Some v ->
      exists sv,
        nth_error (hotspot.Rule.SpecificItems rule) i = Some sv /\
        hotspot.SpecificValue.ValStr sv = LegacyParamFlowItem.Value v /\
        hotspot.SpecificValue.Threshold sv =
          int64_of_float64 (LegacyParamFlowItem.Threshold v) /\
        forall n d : Z,
          Float64.fraction (LegacyParamFlowItem.Threshold v) = Some (n, d) ->
          - 2 ^ 63 <= Z.quot n d < 2 ^ 63 ->
          hotspot.SpecificValue.Threshold sv = Z.quot n d /\
          exists r, n = d * hotspot.SpecificValue.Threshold sv + r /\
                    Z.abs r < d /\ 0 <= r * n.
Proof.
  intros Hitems.
  destruct (paramFlow_ToGoRule_present lr vs Hitems) as (rule & Hrule & Hsv & Hthr & _).
  exists rule. split; [exact Hrule |]. split; [exact Hthr |].
  intros i v Hnth. exists (translateItem v). split.
  - rewrite Hsv, (filter_ext kept Spec.hasValue kept_hasValue).
    now apply map_nth_error.
  - split; [reflexivity |]. split; [reflexivity |].
    intros n d Hfrac Hrange.
    assert (Htrunc : Float64.trunc (LegacyParamFlowItem.Threshold v) = Some (Z.quot n d)).
    { unfold Float64.trunc. now rewrite Hfrac. }
    simpl. rewrite (int64_of_float64_in_range _ _ Htrunc Hrange).
    split; [reflexivity |].
    exact (trunc_discards_fraction _ n d _ Hfrac Htrunc).
Qed.

End HotspotItems.

(** Of the four example items the one without value is left out. *)
Lemma hotspot_empty_value_items_skipped_witness :
  exists rule,
    LegacyParamFlowRule.ToGoRule (platform := Reference.platform)
      (Examples.hotspotRule (map Some Examples.items)) = Returned (Some rule) /\
    map hotspot.SpecificValue.ValStr (hotspot.Rule.SpecificItems rule) =
      ["1001"; "vip"; "7"]%string /\
    List.length (hotspot.Rule.SpecificItems rule) = 3%nat.
Proof.
  destruct (hotspot_empty_value_items_skipped (platform := Reference.platform)
              (Examples.hotspotRule (map Some Examples.items)) Examples.items eq_refl)
    as (rule & Hrule & Hvalues & _ & Hlen & _).
  exists rule. repeat split; assumption.
Defined.

(** The item with the count 5/2 gets the threshold 2, and the rule keeps its
    count 3/4. *)
Lemma hotspot_item_threshold_truncated_witness :
  exists rule sv,
    LegacyParamFlowRule.ToGoRule (platform := Reference.platform)
      (Examples.hotspotRule (map Some Examples.items)) = Returned (Some rule) /\
    hotspot.Rule.Threshold rule = Examples.threeQuarters /\
    nth_error (hotspot.Rule.SpecificItems rule) 0 = Some sv /\
    hotspot.SpecificValue.Threshold sv = 2.
Proof.
  destruct (hotspot_item_threshold_truncated (platform := Reference.platform)
              (Examples.hotspotRule (map Some Examples.items)) Examples.items eq_refl)
    as (rule & Hrule & Hthr & Hitems).
  destruct (Hitems 0%nat (Examples.item "1001" Examples.fiveHalves "int") eq_refl)
    as (sv & Hnth & _ & _ & Htrunc).
  exists rule, sv. repeat split; try assumption.
  destruct (Htrunc 5629499534213120 (2 ^ 51) eq_refl) as [Hsv _].
  - vm_compute. split; [discriminate | reflexivity].
  - exact Hsv.
Defined.

(** * Further properties of the translators *)

(** ** System rules: the strategy *)

Section SystemStrategy.

(** X1. The translation of a system rule carries the legacy id, and its
    strategy is BBR exactly when the resolved metric is the CPU usage or the
    system load, that is, when response time and concurrency are negative,
    the inbound QPS is not [>= 0] and the CPU usage or the load is [>= 0]; in
    every other case, the invalid marker included, it is the non-adaptive
    strategy. *)
Theorem system_rule_adaptive_strategy (lr : LegacySystemRule.t) :
  exists rule,
    LegacySystemRule.ToGoRule lr = Some rule /\
    system.SystemRule.ID rule = LegacySystemRule.ID lr /\
    (system.SystemRule.Strategy rule = system.BBR <->
     system.SystemRule.MetricType rule = system.CpuUsage \/
     system.SystemRule.MetricType rule = system.Load) /\
    (system.SystemRule.Strategy rule = system.BBR <->
     LegacySystemRule.AvgRt lr < 0 /\
     LegacySystemRule.MaxConcurrency lr < 0 /\
     Float64.geb (LegacySystemRule.InboundQps lr) Float64.zero = false /\
     (Float64.geb (LegacySystemRule.HighestCpuUsage lr) Float64.zero = true \/
      Float64.geb (LegacySystemRule.HighestSystemLoad lr) Float64.zero = true)) /\
    (system.SystemRule.Strategy rule <> system.BBR ->
     system.SystemRule.Strategy rule = system.NoAdaptive).
Proof.
  unfold LegacySystemRule.ToGoRule, LegacySystemRule.resolveTypeAndCount.
  destruct (LegacySystemRule.AvgRt lr >=? 0) eqn:Hrt;
    [| destruct (LegacySystemRule.MaxConcurrency lr >=? 0) eqn:Hconc;
       [| destruct (Float64.geb (LegacySystemRule.InboundQps lr) Float64.zero) eqn:Hqps;
          [| destruct (Float64.geb (LegacySystemRule.HighestCpuUsage lr) Float64.zero)
               eqn:Hcpu;
             [| destruct (Float64.geb (LegacySystemRule.HighestSystemLoad lr)
                            Float64.zero) eqn:Hload]]]];
    rewrite ?Z.geb_leb in *; rewrite ?Z.leb_le, ?Z.leb_gt in *;
    eexists; (split; [reflexivity |]); simpl;
    (split; [reflexivity |]); unfold system.CpuUsage, system.Load;
    repeat split; intros; try discriminate; try lia; try congruence;
    try (now left); try (now right); intuition (try discriminate; try lia; try congruence).
Qed.

End SystemStrategy.

(** ** Circuit-breaking rules: the fields beside the strategy *)

Section DegradeFields.
Context {platform : GoPlatform}.

Lemma degrade_ToGoRule_common (lr : LegacyDegradeRule.t) (rule : circuitbreaker.Rule.t) :
  LegacyDegradeRule.ToGoRule lr = Some rule ->
  circuitbreaker.Rule.Id rule = FormatUint10 (LegacyDegradeRule.ID lr) /\
  circuitbreaker.Rule.Resource rule = LegacyDegradeRule.Resource lr /\
  circuitbreaker.Rule.StatIntervalMs rule = LegacyDegradeRule.StatIntervalMs lr /\
  circuitbreaker.Rule.MinRequestAmount rule = LegacyDegradeRule.MinRequestAmount lr /\
  circuitbreaker.Rule.RetryTimeoutMs rule =
    (LegacyDegradeRule.RetryTimeoutSec lr * 1000) mod 2 ^ 32.
Proof.
  unfold LegacyDegradeRule.ToGoRule.
  destruct (LegacyDegradeRule.Strategy lr) as [| [[p | p |] | [p | p |] |] | p];
    intros H; inversion H; subst; repeat split.
Qed.

(** X2. The retry timeout of a translated circuit-breaking rule is the legacy
    time window in seconds times 1000 computed on uint32: it is a uint32, it
    is the number of milliseconds when the window is at most 4294967 seconds,
    and for every longer window the product wraps around and the timeout is
    less than the number of milliseconds. *)
Theorem degrade_retry_timeout_ms (lr : LegacyDegradeRule.t) (rule : circuitbreaker.Rule.t) :
  LegacyDegradeRule.ToGoRule lr = Some rule ->
  0 <= LegacyDegradeRule.RetryTimeoutSec lr < 2 ^ 32 ->
  0 <= circuitbreaker.Rule.RetryTimeoutMs rule < 2 ^ 32 /\
  (LegacyDegradeRule.RetryTimeoutSec lr <= 4294967 ->
   circuitbreaker.Rule.RetryTimeoutMs rule = LegacyDegradeRule.RetryTimeoutSec lr * 1000) /\
  (4294967 < LegacyDegradeRule.RetryTimeoutSec lr ->
   circuitbreaker.Rule.RetryTimeoutMs rule < LegacyDegradeRule.RetryTimeoutSec lr * 1000).
Proof.
  intros Hrule Hsec.
  destruct (degrade_ToGoRule_common lr rule Hrule) as (_ & _ & _ & _ & Hms).
  rewrite Hms. split; [apply Z.mod_pos_bound; lia |]. split.
  - intros Hsmall. apply Z.mod_small. lia.
  - intros Hlarge.
    pose proof (Z.mod_pos_bound (LegacyDegradeRule.RetryTimeoutSec lr * 1000) (2 ^ 32)
                  ltac:(lia)) as Hbound.
    lia.
Qed.

(** X3. A circuit-breaking rule of grade 1 or 2 keeps the legacy count as its
    Threshold and has no RT bound (MaxAllowedRtMs is 0); the legacy
    slowRatioThreshold is not used. Resource, statistic interval and minimum
    request amount are the legacy ones. *)
Theorem degrade_error_grades_keep_count (lr : LegacyDegradeRule.t) :
  LegacyDegradeRule.Strategy lr = 1 \/ LegacyDegradeRule.Strategy lr = 2 ->
  exists rule,
    LegacyDegradeRule.ToGoRule lr = Some rule /\
    circuitbreaker.Rule.Threshold rule = LegacyDegradeRule.Threshold lr /\
    circuitbreaker.Rule.MaxAllowedRtMs rule = 0 /\
    circuitbreaker.Rule.Resource rule = LegacyDegradeRule.Resource lr /\
    circuitbreaker.Rule.StatIntervalMs rule = LegacyDegradeRule.StatIntervalMs lr /\
    circuitbreaker.Rule.MinRequestAmount rule = LegacyDegradeRule.MinRequestAmount lr /\
    forall ratio : Float64.t,
      LegacyDegradeRule.ToGoRule
        {| LegacyDegradeRule.ID := LegacyDegradeRule.ID lr;
           LegacyDegradeRule.Resource := LegacyDegradeRule.Resource lr;
           LegacyDegradeRule.Threshold := LegacyDegradeRule.Threshold lr;
           LegacyDegradeRule.Strategy := LegacyDegradeRule.Strategy lr;
           LegacyDegradeRule.RetryTimeoutSec := LegacyDegradeRule.RetryTimeoutSec lr;
           LegacyDegradeRule.MinRequestAmount := LegacyDegradeRule.MinRequestAmount lr;
           LegacyDegradeRule.SlowRatioThreshold := ratio;
           LegacyDegradeRule.StatIntervalMs := LegacyDegradeRule.StatIntervalMs lr |}
      = Some rule.
Proof.
  intros [Hgrade | Hgrade]; unfold LegacyDegradeRule.ToGoRule; simpl; rewrite Hgrade;
    eexists; (split; [reflexivity |]); repeat split.
Qed.

End DegradeFields.

Lemma degrade_retry_timeout_ms_witness :
  exists rule,
    LegacyDegradeRule.ToGoRule (platform := Reference.platform) (Examples.degrade 1 0)
      = Some rule /\
    circuitbreaker.Rule.RetryTimeoutMs rule = 10000.
Proof.
  eexists. split; [reflexivity |].
  destruct (degrade_retry_timeout_ms (platform := Reference.platform)
              (Examples.degrade 1 0) _ eq_refl) as (_ & Hexact & _).
  - simpl. lia.
  - rewrite Hexact; [reflexivity | simpl; lia].
Defined.

Lemma degrade_error_grades_keep_count_witness :
  exists rule,
    LegacyDegradeRule.ToGoRule (platform := Reference.platform) (Examples.degrade 3 2)
      = Some rule /\
    circuitbreaker.Rule.Threshold rule = Float64.of_int 200 /\
    circuitbreaker.Rule.MaxAllowedRtMs rule = 0.
Proof.
  destruct (degrade_error_grades_keep_count (platform := Reference.platform)
              (Examples.degrade 3 2) (or_intror eq_refl))
    as (rule & Hrule & Hthr & Hrt & _).
  exists rule. repeat split; assumption.
Defined.

(** ** Rule ids *)

Section RuleIds.
Context {platform : GoPlatform}.

(** Reading a decimal string back, with the standard library's readers. *)
Lemma FormatUint10_read (n : Z) :
  0 <= n ->
  option_map (fun d => Z.of_N (N.of_uint d)) (NilZero.uint_of_string (FormatUint10 n))
  = Some n.
Proof.
  intros Hn. unfold FormatUint10. rewrite NilZero.usu.
  - simpl. rewrite DecimalN.Unsigned.of_to. now rewrite Z2N.id.
  - destruct (Z.to_N n) as [| p]; [discriminate |].
    apply DecimalPos.Unsigned.to_uint_nonnil.
Qed.

Lemma Itoa_read (n : Z) :
  option_map Z.of_int (NilZero.int_of_string (Itoa n)) = Some n.
Proof.
  unfold Itoa. rewrite NilZero.isi.
  - simpl. now rewrite DecimalZ.of_to.
  - destruct n as [| p | p]; try discriminate.
    simpl. intros H. injection H as H. now apply DecimalPos.Unsigned.to_uint_nonnil in H.
  - destruct n as [| p | p]; try discriminate.
    simpl. intros H. injection H as H. now apply DecimalPos.Unsigned.to_uint_nonnil in H.
Qed.

Lemma wrap_signed_64 (n : Z) :
  0 <= n < 2 ^ 64 ->
  wrap_signed 64 n = if n <? 2 ^ 63 then n else n - 2 ^ 64.
Proof.
  intros Hn. unfold wrap_signed. change (64 - 1) with 63.
  destruct (n <? 2 ^ 63) eqn:Hhalf.
  - apply Z.ltb_lt in Hhalf. rewrite Z.mod_small by lia. lia.
  - apply Z.ltb_ge in Hhalf.
    replace (n + 2 ^ 63) with (n - 2 ^ 63 + 1 * 2 ^ 64) by lia.
    rewrite Z.mod_add by lia. rewrite Z.mod_small by lia. lia.
Qed.

(** X4. The Id of a translated circuit-breaking rule is the legacy id written
    in decimal: read back as a decimal number it is the legacy id, so that
    rules with different legacy ids get different Ids. *)
Theorem degrade_rule_id_decimal
    (lr lr' : LegacyDegradeRule.t) (rule rule' : circuitbreaker.Rule.t) :
  LegacyDegradeRule.ToGoRule lr = Some rule ->
  LegacyDegradeRule.ToGoRule lr' = Some rule' ->
  0 <= LegacyDegradeRule.ID lr ->
  0 <= LegacyDegradeRule.ID lr' ->
  option_map (fun d => Z.of_N (N.of_uint d))
    (NilZero.uint_of_string (circuitbreaker.Rule.Id rule))
  = Some (LegacyDegradeRule.ID lr) /\
  (circuitbreaker.Rule.Id rule = circuitbreaker.Rule.Id rule' ->
   LegacyDegradeRule.ID lr = LegacyDegradeRule.ID lr').
Proof.
  intros Hrule Hrule' Hid Hid'.
  destruct (degrade_ToGoRule_common lr rule Hrule) as (Hstr & _).
  destruct (degrade_ToGoRule_common lr' rule' Hrule') as (Hstr' & _).
  rewrite Hstr, Hstr'. split; [now apply FormatUint10_read |].
  intros Heq.
  pose proof (FormatUint10_read _ Hid) as Hread.
  rewrite Heq, (FormatUint10_read _ Hid') in Hread. now injection Hread.
Qed.

(** X5. The ID of a translated hot-spot rule is the legacy id converted to
    int and written in decimal. Where int has 64 bits, a legacy id below
    [2^63] is written as it is, and a legacy id from [2^63] on is written as
    the negative number [id - 2^64]; different legacy ids get different
    IDs. *)
Theorem hotspot_rule_id_signed_decimal
    (lr lr' : LegacyParamFlowRule.t) (rule rule' : hotspot.Rule.t) :
  int_bits = 64 ->
  LegacyParamFlowRule.ToGoRule lr = Returned (Some rule) ->
  LegacyParamFlowRule.ToGoRule lr' = Returned (Some rule') ->
  0 <= LegacyParamFlowRule.Id lr < 2 ^ 64 ->
  0 <= LegacyParamFlowRule.Id lr' < 2 ^ 64 ->
  option_map Z.of_int (NilZero.int_of_string (hotspot.Rule.ID rule))
  = Some (if LegacyParamFlowRule.Id lr <? 2 ^ 63
          then LegacyParamFlowRule.Id lr
          else LegacyParamFlowRule.Id lr - 2 ^ 64) /\
  (hotspot.Rule.ID rule = hotspot.Rule.ID rule' ->
   LegacyParamFlowRule.Id lr = LegacyParamFlowRule.Id lr').
Proof.
  intros Hbits Hrule Hrule' Hid Hid'.
  assert (Hstr : forall l r, LegacyParamFlowRule.ToGoRule l = Returned (Some r) ->
                 hotspot.Rule.ID r = Itoa (wrap_signed 64 (LegacyParamFlowRule.Id l))).
  { intros l r. unfold LegacyParamFlowRule.ToGoRule, int_of_uint64. rewrite Hbits.
    destruct (if (0 <? List.length (LegacyParamFlowRule.SpecificItems l))%nat
              then LegacyParamFlowRule.rangeItems (LegacyParamFlowRule.SpecificItems l) []
              else Returned []) as [items |]; simpl; [| discriminate].
    intros H. inversion H. reflexivity. }
  rewrite (Hstr lr rule Hrule), (Hstr lr' rule' Hrule').
  split.
  - rewrite Itoa_read, wrap_signed_64 by exact Hid. reflexivity.
  - intros Heq.
    pose proof (Itoa_read (wrap_signed 64 (LegacyParamFlowRule.Id lr))) as Hread.
    rewrite Heq, Itoa_read in Hread. injection Hread as Hwrap.
    rewrite !wrap_signed_64 in Hwrap by assumption.
    destruct (LegacyParamFlowRule.Id lr <? 2 ^ 63) eqn:H1;
      destruct (LegacyParamFlowRule.Id lr' <? 2 ^ 63) eqn:H2;
      rewrite ?Z.ltb_lt, ?Z.ltb_ge in *; lia.
Qed.

End RuleIds.

Lemma degrade_rule_id_decimal_witness :
  exists rule rule',
    LegacyDegradeRule.ToGoRule (platform := Reference.platform) (Examples.degrade 1 0)
      = Some rule /\
    LegacyDegradeRule.ToGoRule (platform := Reference.platform) (Examples.degrade 3 2)
      = Some rule' /\
    option_map (fun d => Z.of_N (N.of_uint d))
      (NilZero.uint_of_string (circuitbreaker.Rule.Id rule)) = Some 1.
Proof.
  eexists _, _. split; [reflexivity |]. split; [reflexivity |].
  destruct (degrade_rule_id_decimal (platform := Reference.platform)
              (Examples.degrade 1 0) (Examples.degrade 3 2) _ _ eq_refl eq_refl)
    as [Hread _].
  - simpl. lia.
  - simpl. lia.
  - exact Hread.
Defined.

(** The largest uint64 as a hot-spot rule id is written as -1. *)
Lemma hotspot_rule_id_signed_decimal_witness :
  exists rule,
    LegacyParamFlowRule.ToGoRule (platform := Reference.platform) MoreExamples.largestId
      = Returned (Some rule) /\
    option_map Z.of_int (NilZero.int_of_string (hotspot.Rule.ID rule)) = Some (-1).
Proof.
  eexists. split; [reflexivity |].
  destruct (hotspot_rule_id_signed_decimal (platform := Reference.platform)
              MoreExamples.largestId MoreExamples.largestId _ _
              eq_refl eq_refl eq_refl)
    as [Hread _].
  - simpl. lia.
  - simpl. lia.
  - exact Hread.
Defined.

(** ** Hot-spot rules: nil items, control behaviour, capacity *)

Section HotspotTotality.
Context {platform : GoPlatform}.

Lemma rangeItems_returns (src : list (option LegacyParamFlowItem.t))
    (items : list hotspot.SpecificValue.t) :
  ~ In None src -> exists items', LegacyParamFlowRule.rangeItems src items = Returned items'.
Proof.
  revert items. induction src as [| p src IH]; intros items Hnil; simpl.
  - now eexists.
  - destruct p as [v |]; [| exfalso; apply Hnil; now left].
    simpl. apply IH. intros Hin. apply Hnil. now right.
Qed.

Lemma nil_in_dec {A} (src : list (option A)) : In None src \/ ~ In None src.
Proof.
  induction src as [| p src IH]; [right; intros [] |].
  destruct p as [a |]; [| left; now left].
  destruct IH as [Hin | Hnotin]; [left; now right |].
  right. intros [Heq | Hin]; [discriminate | contradiction].
Qed.

Lemma paramFlow_ToGoRule_outcome (lr : LegacyParamFlowRule.t) :
  (LegacyParamFlowRule.ToGoRule lr = Panicked <->
   In None (LegacyParamFlowRule.SpecificItems lr)) /\
  (~ In None (LegacyParamFlowRule.SpecificItems lr) ->
   exists rule, LegacyParamFlowRule.ToGoRule lr = Returned (Some rule)) /\
  LegacyParamFlowRule.ToGoRule lr <> Returned None.
Proof.
  assert (Hloop : (if (0 <? List.length (LegacyParamFlowRule.SpecificItems lr))%nat
                   then LegacyParamFlowRule.rangeItems
                          (LegacyParamFlowRule.SpecificItems lr) []
                   else Returned []) =
                  LegacyParamFlowRule.rangeItems (LegacyParamFlowRule.SpecificItems lr) []).
  { now destruct (LegacyParamFlowRule.SpecificItems lr). }
  unfold LegacyParamFlowRule.ToGoRule. rewrite Hloop.
  destruct (nil_in_dec (LegacyParamFlowRule.SpecificItems lr)) as [Hin | Hnotin].
  - rewrite (rangeItems_nil _ [] Hin). simpl.
    split; [split; [intros _; exact Hin | reflexivity] |].
    split; [contradiction | discriminate].
  - destruct (rangeItems_returns _ [] Hnotin) as (items & Hitems). rewrite Hitems. simpl.
    split; [split; [discriminate | contradiction] |].
    split; [intros _; now eexists | discriminate].
Qed.

(** X6. The hot-spot translation panics exactly when one of the rule's
    override items is a nil pointer; in every other case it returns a rule,
    never nil. *)
Theorem hotspot_translation_panics_on_nil_item (lr : LegacyParamFlowRule.t) :
  (LegacyParamFlowRule.ToGoRule lr = Panicked <->
   In None (LegacyParamFlowRule.SpecificItems lr)) /\
  (~ In None (LegacyParamFlowRule.SpecificItems lr) ->
   exists rule, LegacyParamFlowRule.ToGoRule lr = Returned (Some rule)) /\
  LegacyParamFlowRule.ToGoRule lr <> Returned None.
Proof. exact (paramFlow_ToGoRule_outcome lr). Qed.

(** X7. Whenever the hot-spot translation returns a rule, its control
    behaviour is throttling exactly when the legacy controlBehavior is 2 and
    rejection for every other value, its capacity of distinct parameter values
    is 500, and resource, metric type, parameter index, queueing time, burst
    count, duration and global threshold are the legacy ones. *)
Theorem hotspot_rule_control_behavior_and_capacity
    (lr : LegacyParamFlowRule.t) (rule : hotspot.Rule.t) :
  LegacyParamFlowRule.ToGoRule lr = Returned (Some rule) ->
  (hotspot.Rule.ControlBehavior rule = hotspot.Throttling <->
   LegacyParamFlowRule.ControlBehavior lr = 2) /\
  (LegacyParamFlowRule.ControlBehavior lr <> 2 ->
   hotspot.Rule.ControlBehavior rule = hotspot.Reject) /\
  hotspot.Rule.ParamsMaxCapacity rule = 500 /\
  hotspot.Rule.Resource rule = LegacyParamFlowRule.Resource lr /\
  hotspot.Rule.MetricType rule = LegacyParamFlowRule.MetricType lr /\
  hotspot.Rule.ParamIndex rule = LegacyParamFlowRule.ParamIndex lr /\
  hotspot.Rule.MaxQueueingTimeMs rule = LegacyParamFlowRule.MaxQueueingTimeMs lr /\
  hotspot.Rule.BurstCount rule = LegacyParamFlowRule.BurstCount lr /\
  hotspot.Rule.DurationInSec rule = LegacyParamFlowRule.DurationInSec lr /\
  hotspot.Rule.Threshold rule = LegacyParamFlowRule.Threshold lr.
Proof.
  unfold LegacyParamFlowRule.ToGoRule.
  destruct (if (0 <? List.length (LegacyParamFlowRule.SpecificItems lr))%nat
            then LegacyParamFlowRule.rangeItems (LegacyParamFlowRule.SpecificItems lr) []
            else Returned []) as [items |]; simpl; [| discriminate].
  intros H. injection H as <-. simpl.
  destruct (LegacyParamFlowRule.ControlBehavior lr =? 2) eqn:Hcb.
  - apply Z.eqb_eq in Hcb.
    repeat split; intros; try reflexivity; try assumption; contradiction.
  - apply Z.eqb_neq in Hcb.
    repeat split; intros; try reflexivity; try discriminate; contradiction.
Qed.

End HotspotTotality.

Lemma hotspot_rule_control_behavior_and_capacity_witness :
  exists rule,
    LegacyParamFlowRule.ToGoRule (platform := Reference.platform) MoreExamples.largestId
      = Returned (Some rule) /\
    hotspot.Rule.ControlBehavior rule = hotspot.Throttling /\
    hotspot.Rule.ParamsMaxCapacity rule = 500.
Proof.
  eexists. split; [reflexivity |].
  destruct (hotspot_rule_control_behavior_and_capacity (platform := Reference.platform)
              MoreExamples.largestId _ eq_refl) as (Hcb & _ & Hcap & _).
  split; [apply Hcb; reflexivity | exact Hcap].
Defined.

(** * Further properties of the change handlers *)

Section HandlerRuns.
Context {platform : GoPlatform} {ext : Collaborators}.

Lemma onFlowRuleChange_shape :
  onFlowRuleChange =
  changeHandler "ACM data received for flow rules: %v" "Failed to parse flow rules: %+v"
    "Failed to load flow rules: %+v" json_Unmarshal_flow
    (fun r => Returned (LegacyFlowRule.ToGoRule r)) FlowLoadRules flow_LoadRules.
Proof. reflexivity. Qed.

Lemma onSystemRuleChange_shape :
  onSystemRuleChange =
  changeHandler "ACM data received for system rules: %v"
    "Failed to parse system rules: %+v" "Failed to load system rules: %+v"
    json_Unmarshal_system (fun r => Returned (LegacySystemRule.ToGoRule r))
    SystemLoadRules system_LoadRules.
Proof. reflexivity. Qed.

Lemma onCircuitBreakingRuleChange_shape :
  onCircuitBreakingRuleChange =
  changeHandler "ACM data received for circuit breaking rules: %v"
    "Failed to parse legacy degrade rules: %+v" "Failed to load flow rules: %+v"
    json_Unmarshal_degrade (fun r => Returned (LegacyDegradeRule.ToGoRule r))
    CircuitBreakerLoadRules circuitbreaker_LoadRules.
Proof. reflexivity. Qed.

Lemma onParamFlowRuleChange_shape :
  onParamFlowRuleChange =
  changeHandler "ACM data received for hot-spot parameter flow rules: %v"
    "Failed to parse legacy param flow rules: %+v"
    "Failed to load hot-spot parameter flow rules: %+v"
    json_Unmarshal_paramFlow LegacyParamFlowRule.ToGoRule
    HotspotLoadRules hotspot_LoadRules.
Proof. reflexivity. Qed.

Section Shape.
Context {L R : Type}.
Variables (received parseFailed loadFailed : string).
Variable unmarshal : string -> Payload.t L * option error.
Variable ToGoRule : L -> Completion (option R).
Variable call : list R -> Event.
Variable LoadRules : list R -> Engine -> (bool * option error) * Engine.

Local Abbreviation handler :=
  (changeHandler received parseFailed loadFailed unmarshal ToGoRule call LoadRules).

(** The three ways a handler runs. *)
Lemma changeHandler_decode_error data d err w :
  unmarshal data = (d, Some err) ->
  handler data w =
  (Returned tt,
   {| engine := engine w;
      trace := trace w ++ [Infof received data; Errorf parseFailed err] |}).
Proof.
  intros Hdec. unfold handler, changeHandler, seq, sentinelLogger_Infof,
    sentinelLogger_Errorf, emit. simpl. rewrite Hdec. simpl.
  now rewrite <- app_assoc.
Qed.

Lemma changeHandler_panic data d w :
  unmarshal data = (d, None) ->
  rangeRules ToGoRule (Payload.Data d) [] = Panicked ->
  handler data w =
  (Panicked, {| engine := engine w; trace := trace w ++ [Infof received data] |}).
Proof.
  intros Hdec Hloop. unfold handler, changeHandler, seq, lift, sentinelLogger_Infof, emit.
  simpl. rewrite Hdec. simpl. now rewrite Hloop.
Qed.

Lemma changeHandler_load data d arr w :
  unmarshal data = (d, None) ->
  rangeRules ToGoRule (Payload.Data d) [] = Returned arr ->
  handler data w =
  (Returned tt,
   {| engine := snd (LoadRules arr (engine w));
      trace := trace w ++ [Infof received data; call arr] ++
               loadFailure loadFailed (fst (LoadRules arr (engine w))) |}).
Proof.
  intros Hdec Hloop. unfold handler, changeHandler, seq, lift, sentinelLogger_Infof,
    sentinelLogger_Errorf, emit, callEngine, ret, loadFailure.
  simpl. rewrite Hdec. simpl. rewrite Hloop. simpl.
  destruct (LoadRules arr (engine w)) as [[ok [err |]] e]; simpl;
    now rewrite <- ?app_assoc.
Qed.

(** The loop panics exactly when it meets an entry on which it panics. *)
Lemma rangeRules_panics (data : list (option L)) (arr : list R) :
  rangeRules ToGoRule data arr = Panicked <-> Exists (panics ToGoRule) data.
Proof.
  revert arr. induction data as [| p data IH]; intros arr; simpl.
  - split; [discriminate | intros H; inversion H].
  - destruct p as [lr |]; simpl.
    + destruct (ToGoRule lr) as [[rule |] |] eqn:Hlr; simpl.
      * rewrite IH. split; [intros H; now right |].
        intros H. inversion H as [? ? Hbad | ? ? Hrest]; [| exact Hrest].
        simpl in Hbad. congruence.
      * rewrite IH. split; [intros H; now right |].
        intros H. inversion H as [? ? Hbad | ? ? Hrest]; [| exact Hrest].
        simpl in Hbad. congruence.
      * split; [intros _; left; exact Hlr | reflexivity].
    + split; [intros _; left; exact I | reflexivity].
Qed.

(** Without such an entry the loop returns a batch that is at most as long as
    [Data]. *)
Lemma rangeRules_returns (data : list (option L)) (arr : list R) :
  ~ Exists (panics ToGoRule) data ->
  exists batch,
    rangeRules ToGoRule data arr = Returned (arr ++ batch) /\
    (List.length batch <= List.length data)%nat.
Proof.
  revert arr. induction data as [| p data IH]; intros arr Hok; simpl.
  - exists []. split; [now rewrite app_nil_r | simpl; lia].
  - assert (Hrest : ~ Exists (panics ToGoRule) data) by (intros H; apply Hok; now right).
    destruct p as [lr |]; [| exfalso; apply Hok; left; exact I].
    simpl. destruct (ToGoRule lr) as [[rule |] |] eqn:Hlr; simpl.
    + destruct (IH (arr ++ [rule]) Hrest) as (batch & Hrun & Hlen).
      exists (rule :: batch). rewrite Hrun, <- app_assoc. split; [reflexivity | simpl; lia].
    + destruct (IH arr Hrest) as (batch & Hrun & Hlen).
      exists batch. split; [exact Hrun | lia].
    + exfalso. apply Hok. left. exact Hlr.
Qed.

Lemma engineCalls_loadFailure format res : engineCalls (loadFailure format res) = [].
Proof. unfold loadFailure. now destruct (snd res). Qed.

(** A handler panics exactly when the payload decodes and the loop meets an
    entry on which it panics. *)
Lemma changeHandler_panics_iff data w :
  fst (handler data w) = Panicked <->
  exists d, unmarshal data = (d, None) /\ Exists (panics ToGoRule) (Payload.Data d).
Proof.
  destruct (unmarshal data) as [d [err |]] eqn:Hdec.
  - rewrite (changeHandler_decode_error data d err w Hdec). simpl.
    split; [discriminate | intros (d' & Hd' & _); discriminate].
  - destruct (rangeRules ToGoRule (Payload.Data d) []) as [arr |] eqn:Hloop.
    + rewrite (changeHandler_load data d arr w Hdec Hloop). simpl.
      split; [discriminate |]. intros (d' & Hd' & Hbad). injection Hd' as <-.
      apply (rangeRules_panics _ []) in Hbad. congruence.
    + rewrite (changeHandler_panic data d w Hdec Hloop). simpl.
      split; [| reflexivity]. intros _. exists d. split; [reflexivity |].
      now apply (rangeRules_panics _ []).
Qed.

(** What a run adds to the trace holds at most one call of the engine, the
    call of the handler's own category [c]; the engine is as before when
    there is none and as the call leaves it when there is one, after which the
    handler returns. *)
Lemma changeHandler_one_call (c : Category) data w :
  (forall arr, callOf (call arr) = Some c) ->
  exists new,
    trace (snd (handler data w)) = trace w ++ new /\
    ((engineCalls new = [] /\ engine (snd (handler data w)) = engine w) \/
     (engineCalls new = [c] /\ fst (handler data w) = Returned tt /\
      exists arr, In (call arr) new /\
                  engine (snd (handler data w)) = snd (LoadRules arr (engine w)))).
Proof.
  intros Hcall. destruct (unmarshal data) as [d [err |]] eqn:Hdec.
  - rewrite (changeHandler_decode_error data d err w Hdec). simpl.
    eexists. split; [reflexivity |]. left. split; reflexivity.
  - destruct (rangeRules ToGoRule (Payload.Data d) []) as [arr |] eqn:Hloop.
    + rewrite (changeHandler_load data d arr w Hdec Hloop). simpl.
      eexists. split; [reflexivity |]. right. split; [| split; [reflexivity |]].
      * unfold engineCalls. simpl. rewrite Hcall. simpl. f_equal.
        apply engineCalls_loadFailure.
      * exists arr. split; [right; now left | reflexivity].
    + rewrite (changeHandler_panic data d w Hdec Hloop). simpl.
      eexists. split; [reflexivity |]. left. split; reflexivity.
Qed.

End Shape.

(** The entries on which the loops of the four handlers panic. *)
Lemma panics_pure {L R} (f : L -> option R) (data : list (option L)) :
  Exists (panics (fun r => Returned (f r))) data <-> In None data.
Proof.
  rewrite Exists_exists. split.
  - intros ([lr |] & Hin & Hbad); [simpl in Hbad; discriminate | exact Hin].
  - intros Hin. exists None. split; [exact Hin | exact I].
Qed.

Lemma panics_paramFlow (data : list (option LegacyParamFlowRule.t)) :
  Exists (panics LegacyParamFlowRule.ToGoRule) data <->
  In None data \/
  exists lr, In (Some lr) data /\ In None (LegacyParamFlowRule.SpecificItems lr).
Proof.
  rewrite Exists_exists. split.
  - intros ([lr |] & Hin & Hbad); [| now left].
    right. exists lr. split; [exact Hin |].
    now apply (proj1 (paramFlow_ToGoRule_outcome lr)).
  - intros [Hin | (lr & Hin & Hitem)].
    + exists None. split; [exact Hin | exact I].
    + exists (Some lr). split; [exact Hin |].
      now apply (proj1 (paramFlow_ToGoRule_outcome lr)).
Qed.

End HandlerRuns.

Lemma hotspot_translation_panics_on_nil_item_witness :
  LegacyParamFlowRule.ToGoRule (platform := Reference.platform)
    (Examples.hotspotRule [Some (Examples.item "a" Examples.half "int"); None]) = Panicked /\
  exists rule,
    LegacyParamFlowRule.ToGoRule (platform := Reference.platform)
      (Examples.hotspotRule (map Some Examples.items)) = Returned (Some rule).
Proof.
  split.
  - apply (proj1 (hotspot_translation_panics_on_nil_item (platform := Reference.platform)
                    (Examples.hotspotRule
                       [Some (Examples.item "a" Examples.half "int"); None]))).
    right. left. reflexivity.
  - apply (proj1 (proj2 (hotspot_translation_panics_on_nil_item
                           (platform := Reference.platform)
                           (Examples.hotspotRule (map Some Examples.items))))).
    simpl. intuition discriminate.
Defined.

Section HandlerProperties.
Context {platform : GoPlatform} {ext : Collaborators}.

(** X8. A change handler panics exactly when the payload decodes and the
    decoded Data holds a nil entry or, for the hot-spot handler, a rule with a
    nil override item. *)
Theorem handlers_panic_exactly_on_nil_entries (data : string) (w : World) :
  (fst (onFlowRuleChange data w) = Panicked <->
   exists d, json_Unmarshal_flow data = (d, None) /\ In None (Payload.Data d)) /\
  (fst (onSystemRuleChange data w) = Panicked <->
   exists d, json_Unmarshal_system data = (d, None) /\ In None (Payload.Data d)) /\
  (fst (onCircuitBreakingRuleChange data w) = Panicked <->
   exists d, json_Unmarshal_degrade data = (d, None) /\ In None (Payload.Data d)) /\
  (fst (onParamFlowRuleChange data w) = Panicked <->
   exists d, json_Unmarshal_paramFlow data = (d, None) /\
     (In None (Payload.Data d) \/
      exists lr, In (Some lr) (Payload.Data d) /\
                 In None (LegacyParamFlowRule.SpecificItems lr))).
Proof.
  rewrite onFlowRuleChange_shape, onSystemRuleChange_shape,
    onCircuitBreakingRuleChange_shape, onParamFlowRuleChange_shape.
  rewrite !changeHandler_panics_iff.
  repeat split; intros (d & Hdec & Hbad); exists d; (split; [exact Hdec |]);
    first [ apply panics_pure in Hbad; exact Hbad
          | apply panics_paramFlow in Hbad; exact Hbad
          | apply panics_pure; exact Hbad
          | apply panics_paramFlow; exact Hbad ].
Qed.

(** X9. Whatever the payload, what a change handler adds to the trace holds
    at most one call of the rule engine, and that call is the [LoadRules] of
    the handler's own category. When there is no call the state of the engine
    is unchanged; when there is one the handler returns normally and the state
    of the engine is what the call left. In particular a panic comes before
    any call. *)
Theorem handlers_call_only_their_engine_once (data : string) (w : World) :
  (exists new,
     trace (snd (onFlowRuleChange data w)) = trace w ++ new /\
     ((engineCalls new = [] /\ engine (snd (onFlowRuleChange data w)) = engine w) \/
      (engineCalls new = [Flow] /\ fst (onFlowRuleChange data w) = Returned tt /\
       exists arr, In (FlowLoadRules arr) new /\
                   engine (snd (onFlowRuleChange data w)) =
                   snd (flow_LoadRules arr (engine w))))) /\
  (exists new,
     trace (snd (onSystemRuleChange data w)) = trace w ++ new /\
     ((engineCalls new = [] /\ engine (snd (onSystemRuleChange data w)) = engine w) \/
      (engineCalls new = [System] /\ fst (onSystemRuleChange data w) = Returned tt /\
       exists arr, In (SystemLoadRules arr) new /\
                   engine (snd (onSystemRuleChange data w)) =
                   snd (system_LoadRules arr (engine w))))) /\
  (exists new,
     trace (snd (onCircuitBreakingRuleChange data w)) = trace w ++ new /\
     ((engineCalls new = [] /\
       engine (snd (onCircuitBreakingRuleChange data w)) = engine w) \/
      (engineCalls new = [CircuitBreaking] /\
       fst (onCircuitBreakingRuleChange data w) = Returned tt /\
       exists arr, In (CircuitBreakerLoadRules arr) new /\
                   engine (snd (onCircuitBreakingRuleChange data w)) =
                   snd (circuitbreaker_LoadRules arr (engine w))))) /\
  (exists new,
     trace (snd (onParamFlowRuleChange data w)) = trace w ++ new /\
     ((engineCalls new = [] /\ engine (snd (onParamFlowRuleChange data w)) = engine w) \/
      (engineCalls new = [ParamFlow] /\ fst (onParamFlowRuleChange data w) = Returned tt /\
       exists arr, In (HotspotLoadRules arr) new /\
                   engine (snd (onParamFlowRuleChange data w)) =
                   snd (hotspot_LoadRules arr (engine w))))).
Proof.
  rewrite onFlowRuleChange_shape, onSystemRuleChange_shape,
    onCircuitBreakingRuleChange_shape, onParamFlowRuleChange_shape.
  repeat split; apply changeHandler_one_call; reflexivity.
Qed.

End HandlerProperties.

Section LosslessHandlers.
Context {platform : GoPlatform} {ext : Collaborators}.

Lemma rangeRules_paramFlow_present (rules : list LegacyParamFlowRule.t)
    (acc : list hotspot.Rule.t) :
  Forall itemsPresent rules ->
  exists arr,
    rangeRules LegacyParamFlowRule.ToGoRule (map Some rules) acc = Returned (acc ++ arr) /\
    map (fun rule => Returned (Some rule)) arr = map LegacyParamFlowRule.ToGoRule rules.
Proof.
  intros Hpresent. revert acc.
  induction Hpresent as [| lr rules Hlr _ IH]; intros acc; simpl.
  - exists []. split; [now rewrite app_nil_r | reflexivity].
  - destruct (proj1 (proj2 (paramFlow_ToGoRule_outcome lr)) Hlr) as (rule & Hrule).
    rewrite Hrule. simpl. destruct (IH (acc ++ [rule])) as (arr & Hrun & Hmap).
    exists (rule :: arr). rewrite Hrun, <- app_assoc. split; [reflexivity |].
    simpl. now rewrite Hmap.
Qed.

(** X10. The system-rule and the hot-spot change handlers lose no rule. On a
    payload that decodes to non-nil entries (whose override items are non-nil
    as well), the handler returns normally after one call of its category's
    replacement, and the batch of that call holds the translation of every
    decoded rule, in the order of the payload. *)
Theorem system_and_hotspot_batches_lossless (data : string) (w : World) :
  (forall d rules,
     json_Unmarshal_system data = (d, None) ->
     Payload.Data d = map Some rules ->
     exists new arr,
       fst (onSystemRuleChange data w) = Returned tt /\
       trace (snd (onSystemRuleChange data w)) = trace w ++ new /\
       systemBatches new = [arr] /\
       map Some arr = map LegacySystemRule.ToGoRule rules /\
       List.length arr = List.length rules) /\
  (forall d rules,
     json_Unmarshal_paramFlow data = (d, None) ->
     Payload.Data d = map Some rules ->
     Forall itemsPresent rules ->
     exists new arr,
       fst (onParamFlowRuleChange data w) = Returned tt /\
       trace (snd (onParamFlowRuleChange data w)) = trace w ++ new /\
       hotspotBatches new = [arr] /\
       map (fun rule => Returned (Some rule)) arr =
         map LegacyParamFlowRule.ToGoRule rules /\
       List.length arr = List.length rules).
Proof.
  split.
  - intros d rules Hdec Hdata.
    assert (Hmap : map Some (Spec.withoutNil LegacySystemRule.ToGoRule rules) =
                   map LegacySystemRule.ToGoRule rules).
    { clear. induction rules as [| lr rules IH]; simpl; [reflexivity |].
      destruct (system_ToGoRule_resolved lr) as (rule & Hrule & _).
      rewrite Hrule. simpl. now rewrite IH. }
    rewrite (onSystemRuleChange_decoded data d rules w Hdec Hdata). simpl.
    eexists _, _. split; [reflexivity |]. split; [reflexivity |].
    split; [| split; [exact Hmap |]].
    + unfold systemBatches. simpl. f_equal. apply systemBatches_loadFailure.
    + rewrite <- (length_map Some), Hmap. apply length_map.
  - intros d rules Hdec Hdata Hpresent.
    destruct (rangeRules_paramFlow_present rules [] Hpresent) as (arr & Hrun & Hmap).
    rewrite <- Hdata in Hrun. simpl in Hrun.
    rewrite onParamFlowRuleChange_shape.
    rewrite (changeHandler_load _ _ _ _ _ _ _ data d arr w Hdec Hrun). simpl.
    eexists _, arr. split; [reflexivity |]. split; [reflexivity |].
    split; [| split; [exact Hmap |]].
    + unfold hotspotBatches. simpl. f_equal. unfold loadFailure.
      now destruct (snd (fst (hotspot_LoadRules arr (engine w)))).
    + rewrite <- (length_map (fun rule => Returned (Some rule))), Hmap. apply length_map.
Qed.

(** X11. When the rule engine answers a replacement call with an error, the
    handler logs the error and returns normally: on a payload that decodes
    without a nil entry, the handler of each category returns, and what it
    adds to the trace is the line for the payload, one call of the category's
    [LoadRules], and the error line exactly when the call returned an
    error. *)
Theorem handlers_log_and_swallow_engine_errors (data : string) (w : World) :
  (forall d, json_Unmarshal_flow data = (d, None) -> ~ In None (Payload.Data d) ->
     exists arr,
       fst (onFlowRuleChange data w) = Returned tt /\
       trace (snd (onFlowRuleChange data w)) =
         trace w ++
         [Infof "ACM data received for flow rules: %v" data; FlowLoadRules arr] ++
         match snd (fst (flow_LoadRules arr (engine w))) with
         | Some err => [Errorf "Failed to load flow rules: %+v" err]
         | None => []
         end) /\
  (forall d, json_Unmarshal_system data = (d, None) -> ~ In None (Payload.Data d) ->
     exists arr,
       fst (onSystemRuleChange data w) = Returned tt /\
       trace (snd (onSystemRuleChange data w)) =
         trace w ++
         [Infof "ACM data received for system rules: %v" data; SystemLoadRules arr] ++
         match snd (fst (system_LoadRules arr (engine w))) with
         | Some err => [Errorf "Failed to load system rules: %+v" err]
         | None => []
         end) /\
  (forall d, json_Unmarshal_degrade data = (d, None) -> ~ In None (Payload.Data d) ->
     exists arr,
       fst (onCircuitBreakingRuleChange data w) = Returned tt /\
       trace (snd (onCircuitBreakingRuleChange data w)) =
         trace w ++
         [Infof "ACM data received for circuit breaking rules: %v" data;
          CircuitBreakerLoadRules arr] ++
         match snd (fst (circuitbreaker_LoadRules arr (engine w))) with
         | Some err => [Errorf "Failed to load flow rules: %+v" err]
         | None => []
         end) /\
  (forall d, json_Unmarshal_paramFlow data = (d, None) ->
     ~ In None (Payload.Data d) ->
     (forall lr, In (Some lr) (Payload.Data d) -> itemsPresent lr) ->
     exists arr,
       fst (onParamFlowRuleChange data w) = Returned tt /\
       trace (snd (onParamFlowRuleChange data w)) =
         trace w ++
         [Infof "ACM data received for hot-spot parameter flow rules: %v" data;
          HotspotLoadRules arr] ++
         match snd (fst (hotspot_LoadRules arr (engine w))) with
         | Some err => [Errorf "Failed to load hot-spot parameter flow rules: %+v" err]
         | None => []
         end).
Proof.
  rewrite onFlowRuleChange_shape, onSystemRuleChange_shape,
    onCircuitBreakingRuleChange_shape, onParamFlowRuleChange_shape.
  split; [| split; [| split]].
  - intros d Hdec Hnil.
    destruct (rangeRules_returns (fun r => Returned (LegacyFlowRule.ToGoRule r))
                (Payload.Data d) []) as (arr & Hrun & _).
    { intros Hbad. apply Hnil. now apply panics_pure in Hbad. }
    exists arr. now rewrite (changeHandler_load _ _ _ _ _ _ _ data d arr w Hdec Hrun).
  - intros d Hdec Hnil.
    destruct (rangeRules_returns (fun r => Returned (LegacySystemRule.ToGoRule r))
                (Payload.Data d) []) as (arr & Hrun & _).
    { intros Hbad. apply Hnil. now apply panics_pure in Hbad. }
    exists arr. now rewrite (changeHandler_load _ _ _ _ _ _ _ data d arr w Hdec Hrun).
  - intros d Hdec Hnil.
    destruct (rangeRules_returns (fun r => Returned (LegacyDegradeRule.ToGoRule r))
                (Payload.Data d) []) as (arr & Hrun & _).
    { intros Hbad. apply Hnil. now apply panics_pure in Hbad. }
    exists arr. now rewrite (changeHandler_load _ _ _ _ _ _ _ data d arr w Hdec Hrun).
  - intros d Hdec Hnil Hitems.
    destruct (rangeRules_returns LegacyParamFlowRule.ToGoRule (Payload.Data d) [])
      as (arr & Hrun & _).
    { intros Hbad. apply panics_paramFlow in Hbad.
      destruct Hbad as [Hin | (lr & Hin & Hitem)]; [now apply Hnil |].
      exact (Hitems lr Hin Hitem). }
    exists arr. now rewrite (changeHandler_load _ _ _ _ _ _ _ data d arr w Hdec Hrun).
Qed.

End LosslessHandlers.

(** A flow payload with a null entry makes the flow handler panic. *)
Lemma handlers_panic_exactly_on_nil_entries_witness :
  fst (onFlowRuleChange (ext := MoreExamples.nullEntry) "payload"
         (Examples.start MoreExamples.nullEntry Reference.nothingInstalled)) = Panicked /\
  fst (onParamFlowRuleChange (platform := Reference.platform)
         (ext := MoreExamples.nilItem) "payload"
         (Examples.start MoreExamples.nilItem Reference.nothingInstalled)) = Panicked.
Proof.
  split.
  - apply (proj1 (handlers_panic_exactly_on_nil_entries
                    (platform := Reference.platform) (ext := MoreExamples.nullEntry)
                    "payload"
                    (Examples.start MoreExamples.nullEntry Reference.nothingInstalled))).
    eexists. split; [reflexivity |]. right. left. reflexivity.
  - apply (proj2 (proj2 (proj2 (handlers_panic_exactly_on_nil_entries
                    (platform := Reference.platform) (ext := MoreExamples.nilItem)
                    "payload"
                    (Examples.start MoreExamples.nilItem Reference.nothingInstalled))))).
    eexists. split; [reflexivity |]. right. eexists. split.
    + right. left. reflexivity.
    + right. left. reflexivity.
Defined.

(** A hot-spot payload with two rules gives a batch of two rules. *)
Lemma system_and_hotspot_batches_lossless_witness :
  exists new arr,
    fst (onParamFlowRuleChange (platform := Reference.platform)
           (ext := MoreExamples.twoHotspotRules) "payload"
           (Examples.start MoreExamples.twoHotspotRules Reference.nothingInstalled))
      = Returned tt /\
    trace (snd (onParamFlowRuleChange (platform := Reference.platform)
                  (ext := MoreExamples.twoHotspotRules) "payload"
                  (Examples.start MoreExamples.twoHotspotRules
                     Reference.nothingInstalled))) = new /\
    hotspotBatches new = [arr] /\
    List.length arr = 2%nat.
Proof.
  destruct (system_and_hotspot_batches_lossless (platform := Reference.platform)
              (ext := MoreExamples.twoHotspotRules) "payload"
              (Examples.start MoreExamples.twoHotspotRules Reference.nothingInstalled))
    as [_ Hhotspot].
  destruct (Hhotspot
              {| Payload.Version := "1";
                 Payload.Data := [Some (Examples.hotspotRule (map Some Examples.items));
                                  Some MoreExamples.largestId] |}
              [Examples.hotspotRule (map Some Examples.items); MoreExamples.largestId]
              eq_refl eq_refl)
    as (new & arr & Hret & Htrace & Hbatch & _ & Hlen).
  - repeat constructor; unfold itemsPresent; simpl; intuition discriminate.
  - exists new, arr. repeat split; assumption.
Defined.

(** With an engine that rejects every batch the flow handler logs the
    rejection and returns. *)
Lemma handlers_log_and_swallow_engine_errors_witness :
  fst (onFlowRuleChange (ext := MoreExamples.rejecting) "payload"
         (Examples.start MoreExamples.rejecting Reference.nothingInstalled)) = Returned tt /\
  exists arr,
    trace (snd (onFlowRuleChange (ext := MoreExamples.rejecting) "payload"
                  (Examples.start MoreExamples.rejecting Reference.nothingInstalled))) =
    [Infof "ACM data received for flow rules: %v" "payload"; FlowLoadRules arr;
     Errorf "Failed to load flow rules: %+v"
       ("rejected"%string : @error MoreExamples.rejecting)].
Proof.
  destruct (handlers_log_and_swallow_engine_errors (platform := Reference.platform)
              (ext := MoreExamples.rejecting) "payload"
              (Examples.start MoreExamples.rejecting Reference.nothingInstalled))
    as [Hflow _].
  destruct (Hflow {| Payload.Version := "1"; Payload.Data := [Some Examples.r1] |} eq_refl)
    as (arr & Hret & Htrace).
  - simpl. intuition discriminate.
  - split; [exact Hret |]. exists arr. exact Htrace.
Defined.

(** * Further properties of the data ids *)

Section DataIdProperties.

Lemma append_cancel_l (p x y : string) : (p ++ x = p ++ y)%string -> x = y.
Proof.
  induction p as [| c p IH]; simpl; [trivial |]. intros H. injection H as H. now apply IH.
Qed.

(** A string without hyphen ends where the first hyphen is. *)
Lemma hyphen_split (u u' r r' : string) :
  hyphenFree u = true -> hyphenFree u' = true ->
  (u ++ "-" ++ r = u' ++ "-" ++ r')%string -> u = u' /\ r = r'.
Proof.
  revert u'. induction u as [| c u IH]; intros [| c' u'] Hu Hu' Heq; simpl in *.
  - injection Heq as Heq. now split.
  - injection Heq as Hc Heq. subst c'. simpl in Hu'. discriminate.
  - injection Heq as Hc Heq. subst c. simpl in Hu. discriminate.
  - injection Heq as Hc Heq. subst c'.
    apply andb_true_iff in Hu, Hu'. destruct Hu as [_ Hu]. destruct Hu' as [_ Hu'].
    destruct (IH u' Hu Hu' Heq) as [-> ->]. now split.
Qed.

Lemma data_id_cancel (prefix u n a u' n' a' : string) :
  hyphenFree u = true -> hyphenFree n = true ->
  hyphenFree u' = true -> hyphenFree n' = true ->
  (prefix ++ u ++ "-" ++ n ++ "-" ++ a = prefix ++ u' ++ "-" ++ n' ++ "-" ++ a')%string ->
  u = u' /\ n = n' /\ a = a'.
Proof.
  intros Hu Hn Hu' Hn' Heq. apply append_cancel_l in Heq.
  destruct (hyphen_split u u' _ _ Hu Hu' Heq) as [-> Hrest].
  destruct (hyphen_split n n' _ _ Hn Hn' Hrest) as [-> ->]. now repeat split.
Qed.

(** X12. The data ids of two different rule categories are never equal,
    whatever the user ids, namespaces and application names: the four
    subscriptions have four different keys. *)
Theorem data_ids_of_categories_differ (u n a u' n' a' : string) :
  formFlowRuleDataId u n a <> formSystemRuleDataId u' n' a' /\
  formFlowRuleDataId u n a <> formCircuitBreakingRuleDataId u' n' a' /\
  formFlowRuleDataId u n a <> formParamFlowRuleDataId u' n' a' /\
  formSystemRuleDataId u n a <> formCircuitBreakingRuleDataId u' n' a' /\
  formSystemRuleDataId u n a <> formParamFlowRuleDataId u' n' a' /\
  formCircuitBreakingRuleDataId u n a <> formParamFlowRuleDataId u' n' a'.
Proof. repeat split; discriminate. Qed.

(** X13. For user ids and namespaces without a hyphen, the data id of each
    category determines the user id, the namespace and the application name:
    two applications get the same data id only if all three agree. *)
Theorem data_id_injective_without_hyphen (u n a u' n' a' : string) :
  hyphenFree u = true -> hyphenFree n = true ->
  hyphenFree u' = true -> hyphenFree n' = true ->
  (formFlowRuleDataId u n a = formFlowRuleDataId u' n' a' ->
   u = u' /\ n = n' /\ a = a') /\
  (formSystemRuleDataId u n a = formSystemRuleDataId u' n' a' ->
   u = u' /\ n = n' /\ a = a') /\
  (formCircuitBreakingRuleDataId u n a = formCircuitBreakingRuleDataId u' n' a' ->
   u = u' /\ n = n' /\ a = a') /\
  (formParamFlowRuleDataId u n a = formParamFlowRuleDataId u' n' a' ->
   u = u' /\ n = n' /\ a = a').
Proof.
  intros Hu Hn Hu' Hn'. split; [| split; [| split]]; intros Heq.
  - now apply (data_id_cancel FlowRuleDataIdPrefix).
  - now apply (data_id_cancel SystemRuleDataIdPrefix).
  - now apply (data_id_cancel CircuitBreakingRuleDataIdPrefix).
  - now apply (data_id_cancel ParamFlowRuleDataIdPrefix).
Qed.

(** With a hyphen in the names the data id does not tell them apart. *)
Lemma data_id_hyphen_collision :
  formFlowRuleDataId "1001-eu" "prod" "shop" = formFlowRuleDataId "1001" "eu-prod" "shop".
Proof. reflexivity. Qed.

End DataIdProperties.

(** The user 1001, the namespace default and the application shop have no
    hyphen: their flow data id determines them. *)
Lemma data_id_injective_without_hyphen_witness :
  "1001"%string = "1001"%string /\ "default"%string = "default"%string /\
  "shop"%string = "shop"%string.
Proof.
  exact (proj1 (data_id_injective_without_hyphen "1001" "default" "shop"
                  "1001" "default" "shop" eq_refl eq_refl eq_refl eq_refl) eq_refl).
Defined.

(** * Properties of the metadata *)

Section PrivateAddress.
Context {env : meta.Env}.

Lemma land_pow2_eqb0 (f n : Z) :
  0 <= n -> (Z.land f (2 ^ n) =? 0) = negb (Z.testbit f n).
Proof.
  intros Hn. destruct (Z.testbit f n) eqn:Hbit; simpl.
  - apply Z.eqb_neq. intros Hzero.
    assert (Hb : Z.testbit (Z.land f (2 ^ n)) n = true).
    { rewrite Z.land_spec, Hbit, Z.pow2_bits_true by lia. reflexivity. }
    rewrite Hzero, Z.bits_0 in Hb. discriminate.
  - apply Z.eqb_eq. apply Z.bits_inj'. intros m Hm.
    rewrite Z.land_spec, Z.bits_0, Z.pow2_bits_eqb by lia.
    destruct (Z.eqb_spec n m) as [-> | Hne]; [now rewrite Hbit | apply andb_false_r].
Qed.

(** The loop over addresses is a search for the first routable address. *)
Lemma rangeAddrs_step (a : meta.Addr) (rest : list meta.Addr) :
  meta.rangeAddrs (a :: rest) =
  match routable a with
  | Some ip4 => Some (meta.IP_String ip4)
  | None => meta.rangeAddrs rest
  end.
Proof.
  simpl. destruct a as [[ip |] | [ip |] |]; simpl; try reflexivity;
    destruct (meta.IsLoopback ip); try reflexivity; now destruct (meta.To4 ip).
Qed.

Lemma rangeAddrs_app (l1 l2 : list meta.Addr) :
  meta.rangeAddrs (l1 ++ l2) =
  match meta.rangeAddrs l1 with
  | Some s => Some s
  | None => meta.rangeAddrs l2
  end.
Proof.
  induction l1 as [| a l1 IH]; [reflexivity |].
  rewrite <- app_comm_cons, !rangeAddrs_step. now destruct (routable a).
Qed.

Lemma rangeAddrs_none (l : list meta.Addr) :
  Forall (fun a => routable a = None) l -> meta.rangeAddrs l = None.
Proof.
  induction 1 as [| a l Ha _ IH]; [reflexivity |]. now rewrite rangeAddrs_step, Ha.
Qed.

(** The two nested loops are one search through the addresses of the usable
    interfaces. *)
Lemma rangeInterfaces_candidates (ifs : list meta.Interface) (log : list meta.LogLine) :
  fst (meta.rangeInterfaces ifs log) =
  match meta.rangeAddrs (candidates ifs) with
  | Some s => (s, None)
  | None => (""%string, Some (meta.errors_New "Cannot get host ip address"))
  end.
Proof.
  revert log. induction ifs as [| i ifs IH]; intros log; [reflexivity |].
  cbn [meta.rangeInterfaces]. unfold candidates. cbn [flat_map]. fold (candidates ifs).
  unfold usable.
  change meta.FlagUp with (2 ^ 0). change meta.FlagLoopback with (2 ^ 2).
  rewrite !land_pow2_eqb0 by lia.
  destruct (Z.testbit (meta.Flags i) 0); cbn [negb andb app]; [| apply IH].
  destruct (Z.testbit (meta.Flags i) 2); cbn [negb andb app]; [apply IH |].
  destruct (meta.Addrs i) as [addrs [err |]]; cbn [fst snd app]; [apply IH |].
  rewrite rangeAddrs_app. destruct (meta.rangeAddrs addrs); [reflexivity | apply IH].
Qed.

(** X14. [resolvePrivateIp] returns the first routable address of the host:
    among the addresses of the interfaces that are up, are not loopback
    interfaces and whose addresses can be listed, taken in the order of the
    interfaces and of their addresses, the first IP address that is not nil,
    not a loopback address and has a 4-byte form, written as a string. When no
    such address exists it returns the error Cannot get host ip address, and
    when the interfaces cannot be listed it returns that error. *)
Theorem resolvePrivateIp_first_routable_address
    (ifs : list meta.Interface) (log : list meta.LogLine) :
  (forall err, meta.net_Interfaces = (ifs, Some err) ->
               meta.resolvePrivateIp log = ((""%string, Some err), log)) /\
  (meta.net_Interfaces = (ifs, None) ->
   (forall pre a post ip4,
      candidates ifs = pre ++ a :: post ->
      Forall (fun a' => routable a' = None) pre ->
      routable a = Some ip4 ->
      fst (meta.resolvePrivateIp log) = (meta.IP_String ip4, None)) /\
   (Forall (fun a => routable a = None) (candidates ifs) ->
    fst (meta.resolvePrivateIp log) =
    (""%string, Some (meta.errors_New "Cannot get host ip address")))).
Proof.
  unfold meta.resolvePrivateIp. split.
  - intros err ->. reflexivity.
  - intros ->. rewrite rangeInterfaces_candidates. split.
    + intros pre a post ip4 Hsplit Hpre Ha.
      rewrite Hsplit, rangeAddrs_app, (rangeAddrs_none pre Hpre), rangeAddrs_step, Ha.
      reflexivity.
    + intros Hnone. now rewrite (rangeAddrs_none _ Hnone).
Qed.

End PrivateAddress.

(** On the example host the address is 10.0.0.5: the loopback interface and
    the interface that is down are passed over, and so is the IPv6 address. *)
Lemma resolvePrivateIp_first_routable_address_witness :
  fst (meta.resolvePrivateIp (env := StartExamples.publicHost StartExamples.interfaces) [])
  = ("10.0.0.5"%string, None).
Proof.
  destruct (resolvePrivateIp_first_routable_address
              (env := StartExamples.publicHost StartExamples.interfaces)
              StartExamples.interfaces []) as [_ Hlisted].
  destruct (Hlisted eq_refl) as [Hfirst _].
  apply (Hfirst
           [StartExamples.ipnet [254; 128; 0; 0; 0; 0; 0; 0; 0; 0; 0; 0; 0; 0; 0; 1]]
           (StartExamples.ipnet [10; 0; 0; 5]) [] [10; 0; 0; 5]).
  - reflexivity.
  - repeat constructor.
  - reflexivity.
Defined.

Section InitMetadata.
Context {env : meta.Env}.

Lemma selectEndpoint_found env_ secureTransport metadata log metadata' log' :
  meta.selectEndpoint env_ secureTransport metadata log = (None, metadata', log') ->
  exists endpoint,
    endpointTable secureTransport (env_ ++ "-" ++ meta.regionId metadata)%string
      = (endpoint, true) /\
    endpoint <> ""%string /\
    metadata' = meta.set_version meta.CurrentSdkVersion
                  (meta.set_ahasEndpoint endpoint metadata) /\
    log' = log.
Proof.
  unfold meta.selectEndpoint, endpointTable.
  destruct secureTransport;
    match goal with
    | |- context [let '(_, _) := ?lookup in _] =>
        destruct lookup as [endpoint supported] eqn:Hlookup
    end;
    (destruct supported; simpl; [| discriminate]);
    (destruct (endpoint =? "")%string eqn:Hempty; [discriminate |]);
    intros H; inversion H; subst; exists endpoint;
    apply String.eqb_neq in Hempty; now repeat split.
Qed.

Lemma selectEndpoint_missing env_ secureTransport metadata log err metadata' log' :
  meta.selectEndpoint env_ secureTransport metadata log = (Some err, metadata', log') ->
  (snd (endpointTable secureTransport (env_ ++ "-" ++ meta.regionId metadata)%string)
     = false \/
   fst (endpointTable secureTransport (env_ ++ "-" ++ meta.regionId metadata)%string)
     = ""%string) /\
  err = meta.errors_New ("No available AHAS endpoint, env not supported: " ++
                         env_ ++ "-" ++ meta.regionId metadata)%string /\
  metadata' = metadata /\
  log' = log ++ [meta.Warn ("No available AHAS endpoint, env not supported: " ++
                            env_ ++ "-" ++ meta.regionId metadata)%string].
Proof.
  unfold meta.selectEndpoint, endpointTable.
  destruct secureTransport;
    match goal with
    | |- context [let '(_, _) := ?lookup in _] =>
        destruct lookup as [endpoint supported] eqn:Hlookup
    end;
    (destruct supported; simpl;
     [ destruct (endpoint =? "")%string eqn:Hempty; [| discriminate];
       apply String.eqb_eq in Hempty; intros H; inversion H; subst;
       repeat split; now right
     | intros H; inversion H; subst; repeat split; now left ]).
Qed.

Lemma resolveHostName_name (log : list meta.LogLine) :
  fst (meta.resolveHostName log) =
  match snd meta.os_Hostname with
  | Some _ => ""%string
  | None => fst meta.os_Hostname
  end.
Proof.
  unfold meta.resolveHostName. now destruct meta.os_Hostname as [name [err |]].
Qed.

(** X15. When [InitMetadata] succeeds, the metadata holds the license, the
    namespace and the environment it was given, the private-network flag is
    set exactly when the license is empty, the endpoint is the non-empty
    entry that the table for the chosen transport has under the key
    [env-regionId], the version is the SDK version and the process id is the
    one of the operating system; cid, tid and the token channel are as they
    were. With an empty license the other fields come from the discovery
    answer, whose user id is not empty; with a license the region is the
    public one, the network id is the license, the user id is empty, the
    address is the one [resolvePrivateIp] finds and the instance id is the
    host name. *)
Theorem InitMetadata_success
    (license_ namespace_ env_ : string) (secureTransport : bool)
    (metadata : meta.Meta) (log : list meta.LogLine)
    (metadata' : meta.Meta) (log' : list meta.LogLine) :
  meta.InitMetadata license_ namespace_ env_ secureTransport metadata log
    = (None, metadata', log') ->
  meta.license metadata' = license_ /\
  meta.namespace metadata' = namespace_ /\
  meta.deployEnv metadata' = env_ /\
  (meta.inVpc metadata' = true <-> license_ = ""%string) /\
  endpointTable secureTransport (env_ ++ "-" ++ meta.regionId metadata')%string
    = (meta.ahasEndpoint metadata', true) /\
  meta.ahasEndpoint metadata' <> ""%string /\
  meta.version metadata' = meta.CurrentSdkVersion /\
  meta.pid metadata' = Itoa meta.os_Getpid /\
  meta.cid metadata' = meta.cid metadata /\
  meta.tid metadata' = meta.tid metadata /\
  meta.tidChan metadata' = meta.tidChan metadata /\
  (license_ = ""%string ->
   exists vpcEcs,
     meta.aliyun_RetrieveVpcMetadata = (vpcEcs, None) /\
     meta.Vpc_Uid vpcEcs <> ""%string /\
     meta.uid metadata' = meta.Vpc_Uid vpcEcs /\
     meta.regionId metadata' = meta.Vpc_RegionId vpcEcs /\
     meta.vpcId metadata' = meta.Vpc_VpcId vpcEcs /\
     meta.ip metadata' = meta.Vpc_Ip vpcEcs /\
     meta.hostName metadata' = meta.Vpc_HostName vpcEcs /\
     meta.instanceId metadata' = meta.Vpc_InstanceId vpcEcs) /\
  (license_ <> ""%string ->
   meta.regionId metadata' = meta.aliyun_CnPublic /\
   meta.vpcId metadata' = license_ /\
   meta.uid metadata' = ""%string /\
   fst (meta.resolvePrivateIp log) = (meta.ip metadata', None) /\
   meta.instanceId metadata' = meta.hostName metadata').
Proof.
  unfold meta.InitMetadata.
  destruct (license_ =? "")%string eqn:Hlicense.
  - apply String.eqb_eq in Hlicense.
    destruct meta.aliyun_RetrieveVpcMetadata as [vpcEcs [err |]] eqn:Hvpc; simpl;
      [discriminate |].
    destruct (meta.Vpc_Uid vpcEcs =? "")%string eqn:Huid; [discriminate |].
    apply String.eqb_neq in Huid. intros Hsel.
    apply selectEndpoint_found in Hsel.
    destruct Hsel as (endpoint & Hlookup & Hnonempty & -> & ->). simpl in *.
    repeat match goal with
           | |- _ /\ _ => split
           | |- _ <-> _ => split
           end;
      intros; try reflexivity; try assumption; try contradiction.
    exists vpcEcs. now repeat split.
  - apply String.eqb_neq in Hlicense.
    destruct (meta.resolvePrivateIp log) as [[ip_ [err |]] log1] eqn:Hip; [discriminate |].
    destruct (meta.resolveHostName log1) as [name1 log2] eqn:Hname1.
    destruct (meta.resolveHostName log2) as [name2 log3] eqn:Hname2.
    intros Hsel. apply selectEndpoint_found in Hsel.
    destruct Hsel as (endpoint & Hlookup & Hnonempty & -> & ->). simpl in *.
    assert (Hnames : name2 = name1).
    { pose proof (resolveHostName_name log1) as H1.
      pose proof (resolveHostName_name log2) as H2.
      rewrite Hname1 in H1. rewrite Hname2 in H2. simpl in *. congruence. }
    repeat match goal with
           | |- _ /\ _ => split
           | |- _ <-> _ => split
           end;
      intros; try reflexivity; try assumption; try contradiction; try discriminate.
    now repeat split.
Qed.

(** X16. When [InitMetadata] fails, the endpoint and the version of the
    metadata are as they were, and so are cid, tid and the token channel; but
    the license, the namespace and the environment are already those of the
    call. The error tells the cause. With an empty license and a discovery
    that fails or has no user id it is cannot find AHAS license, and nothing
    else was assigned. With a license and no private address it wraps the
    error of [resolvePrivateIp], the region and the network id being assigned
    already. Otherwise the table has no usable endpoint under the key
    [env-regionId]: the error and a warning in the log name the key, and all
    fields but the endpoint and the version were assigned. *)
Theorem InitMetadata_failure
    (license_ namespace_ env_ : string) (secureTransport : bool)
    (metadata : meta.Meta) (log : list meta.LogLine)
    (err : meta.error) (metadata' : meta.Meta) (log' : list meta.LogLine) :
  meta.InitMetadata license_ namespace_ env_ secureTransport metadata log
    = (Some err, metadata', log') ->
  meta.license metadata' = license_ /\
  meta.namespace metadata' = namespace_ /\
  meta.deployEnv metadata' = env_ /\
  meta.ahasEndpoint metadata' = meta.ahasEndpoint metadata /\
  meta.version metadata' = meta.version metadata /\
  meta.cid metadata' = meta.cid metadata /\
  meta.tid metadata' = meta.tid metadata /\
  meta.tidChan metadata' = meta.tidChan metadata /\
  ((license_ = ""%string /\
    (snd meta.aliyun_RetrieveVpcMetadata <> None \/
     meta.Vpc_Uid (fst meta.aliyun_RetrieveVpcMetadata) = ""%string) /\
    err = meta.errors_New "cannot find AHAS license" /\
    metadata' = meta.set_deployEnv env_
                  (meta.set_namespace namespace_ (meta.set_license license_ metadata)) /\
    log' = log) \/
   (license_ <> ""%string /\
    (exists cause,
       snd (fst (meta.resolvePrivateIp log)) = Some cause /\
       err = meta.errors_Wrap cause "cannot resolve private IP") /\
    meta.regionId metadata' = meta.aliyun_CnPublic /\
    meta.vpcId metadata' = license_ /\
    meta.inVpc metadata' = false /\
    meta.ip metadata' = meta.ip metadata) \/
   ((snd (endpointTable secureTransport
            (env_ ++ "-" ++ meta.regionId metadata')%string) = false \/
     fst (endpointTable secureTransport
            (env_ ++ "-" ++ meta.regionId metadata')%string) = ""%string) /\
    err = meta.errors_New ("No available AHAS endpoint, env not supported: " ++
                           env_ ++ "-" ++ meta.regionId metadata')%string /\
    (meta.inVpc metadata' = true <-> license_ = ""%string) /\
    meta.pid metadata' = Itoa meta.os_Getpid /\
    exists earlier,
      log' = earlier ++
             [meta.Warn ("No available AHAS endpoint, env not supported: " ++
                         env_ ++ "-" ++ meta.regionId metadata')%string])).
Proof.
  unfold meta.InitMetadata.
  destruct (license_ =? "")%string eqn:Hlicense.
  - apply String.eqb_eq in Hlicense.
    destruct meta.aliyun_RetrieveVpcMetadata as [vpcEcs [cause |]] eqn:Hvpc; simpl.
    + intros H. inversion H; subst. simpl.
      repeat match goal with |- _ /\ _ => split end; try reflexivity.
      left. repeat split. left. discriminate.
    + destruct (meta.Vpc_Uid vpcEcs =? "")%string eqn:Huid.
      * apply String.eqb_eq in Huid. intros H. inversion H; subst. simpl.
        repeat match goal with |- _ /\ _ => split end; try reflexivity.
        left. repeat split. now right.
      * intros Hsel. apply selectEndpoint_missing in Hsel.
        destruct Hsel as (Htable & -> & -> & ->). simpl in *.
        repeat match goal with |- _ /\ _ => split end; try reflexivity.
        right. right.
        repeat match goal with
               | |- _ /\ _ => split
               | |- _ <-> _ => split
               end;
          intros; try assumption; try reflexivity; try (now eexists).
  - apply String.eqb_neq in Hlicense.
    destruct (meta.resolvePrivateIp log) as [[ip_ [cause |]] log1] eqn:Hip.
    + intros H. inversion H; subst. simpl.
      repeat match goal with |- _ /\ _ => split end; try reflexivity.
      right. left. repeat split; try assumption; try reflexivity.
      exists cause. now split.
    + destruct (meta.resolveHostName log1) as [name1 log2] eqn:Hname1.
      destruct (meta.resolveHostName log2) as [name2 log3] eqn:Hname2.
      intros Hsel. apply selectEndpoint_missing in Hsel.
      destruct Hsel as (Htable & -> & -> & ->). simpl in *.
      repeat match goal with |- _ /\ _ => split end; try reflexivity.
      right. right.
      repeat match goal with
             | |- _ /\ _ => split
             | |- _ <-> _ => split
             end;
        intros; try assumption; try reflexivity; try discriminate; try contradiction;
        try (now eexists).
Qed.

End InitMetadata.

(** With a license on the example host the start succeeds: the network id is
    the license, the host is not in the private network, and an endpoint is
    set. *)
Lemma InitMetadata_success_witness :
  exists metadata',
    meta.InitMetadata (env := StartExamples.publicHost StartExamples.interfaces)
      "license-1" "default" "prod" true meta.metadata0 [] = (None, metadata', []) /\
    meta.vpcId metadata' = "license-1"%string /\
    meta.uid metadata' = ""%string /\
    meta.ahasEndpoint metadata' <> ""%string.
Proof.
  assert (Hrun : exists metadata',
            meta.InitMetadata (env := StartExamples.publicHost StartExamples.interfaces)
              "license-1" "default" "prod" true meta.metadata0 [] = (None, metadata', []))
    by (eexists; lazy; reflexivity).
  destruct Hrun as [metadata' Hrun]. exists metadata'. split; [exact Hrun |].
  destruct (InitMetadata_success (env := StartExamples.publicHost StartExamples.interfaces)
              "license-1" "default" "prod" true meta.metadata0 [] metadata' [] Hrun)
    as (_ & _ & _ & _ & _ & Hendpoint & _ & _ & _ & _ & _ & _ & Hlicensed).
  assert (Hne : "license-1"%string <> ""%string) by discriminate.
  destruct (Hlicensed Hne) as (_ & Hvpc & Huid & _ & _).
  split; [exact Hvpc |]. split; [exact Huid | exact Hendpoint].
Defined.

(** Without a license and without a discovery service the start fails, and
    the metadata has the namespace of the call all the same. *)
Lemma InitMetadata_failure_witness :
  meta.InitMetadata (env := StartExamples.publicHost StartExamples.interfaces)
    "" "default" "prod" true meta.metadata0 []
  = (Some (meta.errors_New "cannot find AHAS license"),
     meta.set_deployEnv "prod"
       (meta.set_namespace "default" (meta.set_license "" meta.metadata0)), []) /\
  meta.namespace
    (meta.set_deployEnv "prod"
       (meta.set_namespace "default" (meta.set_license "" meta.metadata0)))
  = "default"%string /\
  meta.ahasEndpoint
    (meta.set_deployEnv "prod"
       (meta.set_namespace "default" (meta.set_license "" meta.metadata0)))
  = ""%string.
Proof.
  assert (Hrun : meta.InitMetadata
                   (env := StartExamples.publicHost StartExamples.interfaces)
                   "" "default" "prod" true meta.metadata0 []
                 = (Some (meta.errors_New "cannot find AHAS license"),
                    meta.set_deployEnv "prod"
                      (meta.set_namespace "default" (meta.set_license "" meta.metadata0)),
                    [])) by reflexivity.
  split; [exact Hrun |].
  destruct (InitMetadata_failure (env := StartExamples.publicHost StartExamples.interfaces)
              "" "default" "prod" true meta.metadata0 [] _ _ [] Hrun)
    as (_ & Hnamespace & _ & Hendpoint & _).
  split; [exact Hnamespace | exact Hendpoint].
Defined.

(** * Properties of the start of the synchronisation *)

Section InitAcmProperties.
Context {platform : GoPlatform} {ext : Collaborators} {service : ConfigService}.

(** The metadata once the token is taken from the channel. *)
Lemma InitAcm_timeout acmHost conf m metadata s :
  meta.queue (meta.tidChan m) = [] ->
  InitAcm acmHost conf m metadata s =
  (Some (errors_New "wait AHAS transport timeout"), m, s).
Proof.
  intros Hempty. unfold InitAcm, meta.TidChan, meta.receive. now rewrite Hempty.
Qed.

(** The case of a run that stops at the registration number [k], the results
    of the registrations being in the context. *)
Local Ltac run_stops_at k :=
  exists k; eexists; eexists; eexists;
  (split; [reflexivity |]); (split; [lia |]); (split; [reflexivity |]);
  cbn [firstn fold_left map app nth_error];
  repeat (match goal with H : ListenConfig _ _ _ = _ |- _ => rewrite H end;
          cbn [fst snd]);
  (split; [reflexivity |]);
  (split; [first [discriminate | reflexivity] |]);
  (split;
   [ let j := fresh "j" in
     let earlier := fresh "earlier" in
     let Hj := fresh "Hj" in
     let Hnth := fresh "Hnth" in
     intros j earlier Hj Hnth;
     destruct j as [| [| [| j]]]; try lia;
     cbn [nth_error] in Hnth; injection Hnth as <-;
     cbn [firstn fold_left];
     repeat (match goal with H : ListenConfig _ _ _ = _ |- _ => rewrite H end;
          cbn [fst snd]);
     reflexivity |]);
  (split; [reflexivity |]);
  rewrite <- ?app_assoc; reflexivity.

(** A run of [InitAcm] that finds a token: the client is asked for, and when
    it is there the registrations are made in order up to the first that
    fails. *)
Lemma InitAcm_run acmHost conf m metadata s token rest client cerr st1 :
  meta.queue (meta.tidChan m) = token :: rest ->
  clients_CreateConfigClient (clientConfigOf acmHost conf m) (state s)
    = ((client, cerr), st1) ->
  let m' := meta.set_tidChan
              {| meta.capacity := meta.capacity (meta.tidChan m); meta.queue := rest |} m in
  match cerr with
  | Some err =>
      InitAcm acmHost conf m metadata s =
      (Some err, m',
       {| state := st1; events := events s ++ [Created (clientConfigOf acmHost conf m)] |})
  | None =>
      exists (k : nat) (param : vo.ConfigParam) (err : option error) (s' : Startup),
        InitAcm acmHost conf m metadata s = (err, m', s') /\
        (k < 4)%nat /\
        nth_error (registrations m metadata) k = Some param /\
        err = fst (ListenConfig client param
                     (registered client (firstn k (registrations m metadata)) st1)) /\
        (err = None -> k = 3%nat) /\
        (forall (j : nat) (earlier : vo.ConfigParam),
           (j < k)%nat ->
           nth_error (registrations m metadata) j = Some earlier ->
           fst (ListenConfig client earlier
                  (registered client (firstn j (registrations m metadata)) st1)) = None) /\
        state s' = registered client (firstn (S k) (registrations m metadata)) st1 /\
        events s' =
          events s ++ [Created (clientConfigOf acmHost conf m)] ++
          map Listening (firstn (S k) (registrations m metadata)) ++
          match err with
          | Some _ => []
          | None =>
              [SentinelInfo "ACM data source initialized successfully";
               LoggerInfof "ACM data source initialized successfully, flow dataId: %s"
                 (formFlowRuleDataId (meta.Uid m) (meta.Namespace metadata)
                    sentinelConf_AppName)]
          end
  end.
Proof.
  intros Hqueue Hclient m'.
  unfold InitAcm, meta.TidChan, meta.receive. rewrite Hqueue.
  change (meta.Tid (meta.set_tidChan _ m)) with (meta.Tid m).
  change (meta.Uid (meta.set_tidChan _ m)) with (meta.Uid m).
  fold (clientConfigOf acmHost conf m). rewrite Hclient.
  destruct cerr as [err |]; [reflexivity |].
  unfold listen, registrations, registered. cbn [state events].
  repeat match goal with
         | |- context [ListenConfig ?c ?p ?st] =>
             lazymatch goal with
             | H : ListenConfig c p st = _ |- _ => fail
             | _ =>
                 let r := fresh "r" in
                 let st' := fresh "st" in
                 let H := fresh "Hlisten" in
                 destruct (ListenConfig c p st) as [r st'] eqn:H;
                 cbn [state events fst snd]; destruct r
             end
         end.
  all: first [ run_stops_at 0%nat | run_stops_at 1%nat
             | run_stops_at 2%nat | run_stops_at 3%nat ].
Qed.

(** X17. [InitAcm] starts only with a session token. With no token on the
    channel of the metadata it returns the error wait AHAS transport timeout
    and does nothing else: no client is created, nothing is registered, the
    metadata is unchanged. Once [SetTid] has put a token on the empty channel,
    [InitAcm] takes it, leaves the channel empty, and asks for a client whose
    namespace id is that token and whose endpoint is the host with port
    8080. *)
Theorem InitAcm_waits_for_token acmHost conf m metadata s :
  meta.queue (meta.tidChan m) = [] ->
  InitAcm acmHost conf m metadata s =
    (Some (errors_New "wait AHAS transport timeout"), m, s) /\
  forall tid,
    (0 < meta.capacity (meta.tidChan m))%nat ->
    fst (meta.SetTid tid m) = meta.Done /\
    exists err s' later,
      InitAcm acmHost conf (snd (meta.SetTid tid m)) metadata s
        = (err, meta.set_tid tid m, s') /\
      events s' =
        events s ++
        Created {| constant.TimeoutMs := TimeoutMs conf;
                   constant.ListenInterval := ListenIntervalMs conf;
                   constant.NamespaceId := tid;
                   constant.Endpoint := (acmHost ++ ":8080")%string |} :: later.
Proof.
  intros Hempty. split; [now apply InitAcm_timeout |].
  intros tid Hcap.
  assert (Hsend : meta.SetTid tid m =
                  (meta.Done,
                   meta.set_tidChan
                     {| meta.capacity := meta.capacity (meta.tidChan m);
                        meta.queue := [tid] |} (meta.set_tid tid m))).
  { unfold meta.SetTid, meta.send. cbn [meta.tidChan meta.set_tid].
    rewrite Hempty. cbn [List.length app].
    destruct (meta.capacity (meta.tidChan m)) as [| c]; [lia |]. reflexivity. }
  rewrite Hsend. cbn [fst snd]. split; [reflexivity |].
  set (m1 := meta.set_tidChan _ (meta.set_tid tid m)).
  assert (Hback : meta.set_tidChan
                    {| meta.capacity := meta.capacity (meta.tidChan m1); meta.queue := [] |}
                    m1 = meta.set_tid tid m).
  { unfold m1. destruct m as [? ? ? ? ? ? ? ? ? ? ? ? ? ? ? [cap q] ?].
    cbn in Hempty |- *. now rewrite Hempty. }
  destruct (clients_CreateConfigClient (clientConfigOf acmHost conf m1) (state s))
    as [[client cerr] st1] eqn:Hclient.
  pose proof (InitAcm_run acmHost conf m1 metadata s tid [] client cerr st1 eq_refl Hclient)
    as Hrun.
  cbv zeta in Hrun. rewrite Hback in Hrun.
  destruct cerr as [err |].
  - eexists _, _, _. split; [exact Hrun |]. reflexivity.
  - destruct Hrun as (k & param & err & s' & Hrun & _ & _ & _ & _ & _ & _ & Hevents).
    eexists _, _, _. split; [exact Hrun |]. rewrite Hevents. reflexivity.
Qed.

(** X18. A run of [InitAcm] that finds a token asks for one client. When the
    client cannot be created, the run returns that error and registers
    nothing. Otherwise it registers the handlers in the order flow, system,
    circuit breaking, hot-spot, and stops at the first registration that
    fails: the run ends with the registration number [k], each of the [k]
    registrations before it returned no error, and the run returns what the
    registration number [k] returned. The service is in the state the first
    [k + 1] calls of [ListenConfig] left it in, so that the earlier
    registrations stay and nothing is undone, and the events are the creation
    and these registrations. The run returns without error only when [k] is
    the last registration, that is, when all four returned no error, and then
    after the two closing log lines. *)
Theorem InitAcm_registers_in_order_without_rollback
    acmHost conf m metadata s token rest client cerr st1 :
  meta.queue (meta.tidChan m) = token :: rest ->
  clients_CreateConfigClient (clientConfigOf acmHost conf m) (state s)
    = ((client, cerr), st1) ->
  let m' := meta.set_tidChan
              {| meta.capacity := meta.capacity (meta.tidChan m); meta.queue := rest |} m in
  match cerr with
  | Some err =>
      InitAcm acmHost conf m metadata s =
      (Some err, m',
       {| state := st1; events := events s ++ [Created (clientConfigOf acmHost conf m)] |})
  | None =>
      exists (k : nat) (param : vo.ConfigParam) (err : option error) (s' : Startup),
        InitAcm acmHost conf m metadata s = (err, m', s') /\
        (k < 4)%nat /\
        nth_error (registrations m metadata) k = Some param /\
        err = fst (ListenConfig client param
                     (registered client (firstn k (registrations m metadata)) st1)) /\
        (err = None -> k = 3%nat) /\
        (forall (j : nat) (earlier : vo.ConfigParam),
           (j < k)%nat ->
           nth_error (registrations m metadata) j = Some earlier ->
           fst (ListenConfig client earlier
                  (registered client (firstn j (registrations m metadata)) st1)) = None) /\
        state s' = registered client (firstn (S k) (registrations m metadata)) st1 /\
        events s' =
          events s ++ [Created (clientConfigOf acmHost conf m)] ++
          map Listening (firstn (S k) (registrations m metadata)) ++
          match err with
          | Some _ => []
          | None =>
              [SentinelInfo "ACM data source initialized successfully";
               LoggerInfof "ACM data source initialized successfully, flow dataId: %s"
                 (formFlowRuleDataId (meta.Uid m) (meta.Namespace metadata)
                    sentinelConf_AppName)]
          end
  end.
Proof. exact (InitAcm_run acmHost conf m metadata s token rest client cerr st1). Qed.

(** X19. Every registration a run of [InitAcm] makes is in the group
    ahas-sentinel, under the data id of one of the four categories for the
    user id of the metadata, the namespace of the package metadata and the
    application name, and its callback is the change handler of that
    category applied to the payload, whatever namespace, group and data id
    the notification names. *)
Theorem InitAcm_registers_each_handler_under_its_data_id
    acmHost conf m metadata s err m' s' (param : vo.ConfigParam) :
  InitAcm acmHost conf m metadata s = (err, m', s') ->
  In (Listening param) (events s') ->
  In (Listening param) (events s) \/
  (vo.Group param = "ahas-sentinel"%string /\
   ((vo.DataId param =
       formFlowRuleDataId (meta.uid m) (meta.namespace metadata) sentinelConf_AppName /\
     forall namespace group dataId data,
       vo.OnChange param namespace group dataId data = onFlowRuleChange data) \/
    (vo.DataId param =
       formSystemRuleDataId (meta.uid m) (meta.namespace metadata) sentinelConf_AppName /\
     forall namespace group dataId data,
       vo.OnChange param namespace group dataId data = onSystemRuleChange data) \/
    (vo.DataId param =
       formCircuitBreakingRuleDataId (meta.uid m) (meta.namespace metadata)
         sentinelConf_AppName /\
     forall namespace group dataId data,
       vo.OnChange param namespace group dataId data = onCircuitBreakingRuleChange data) \/
    (vo.DataId param =
       formParamFlowRuleDataId (meta.uid m) (meta.namespace metadata)
         sentinelConf_AppName /\
     forall namespace group dataId data,
       vo.OnChange param namespace group dataId data = onParamFlowRuleChange data))).
Proof.
  intros Hrun Hin.
  destruct (meta.queue (meta.tidChan m)) as [| token rest] eqn:Hqueue.
  - rewrite (InitAcm_timeout acmHost conf m metadata s Hqueue) in Hrun.
    injection Hrun as _ _ <-. now left.
  - destruct (clients_CreateConfigClient (clientConfigOf acmHost conf m) (state s))
      as [[client cerr] st1] eqn:Hclient.
    pose proof (InitAcm_run acmHost conf m metadata s token rest client cerr st1
                  Hqueue Hclient) as Hdescr.
    cbv zeta in Hdescr. destruct cerr as [cause |].
    + rewrite Hdescr in Hrun. injection Hrun as _ _ <-. cbn [events] in Hin.
      apply in_app_or in Hin. destruct Hin as [Hin | [Heq | []]]; [now left | discriminate].
    + destruct Hdescr as (k & p & err0 & s0 & Hrun0 & _ & _ & _ & _ & _ & _ & Hevents).
      rewrite Hrun0 in Hrun. injection Hrun as _ _ <-. rewrite Hevents in Hin.
      apply in_app_or in Hin. destruct Hin as [Hin | Hin]; [now left |].
      cbn [app] in Hin. destruct Hin as [Heq | Hin]; [discriminate |].
      apply in_app_or in Hin. destruct Hin as [Hin | Hin].
      * right. apply in_map_iff in Hin. destruct Hin as (q & Hq & Hin).
        injection Hq as ->.
        assert (Hreg : In param (registrations m metadata)).
        { rewrite <- (firstn_skipn (S k) (registrations m metadata)).
          apply in_or_app. now left. }
        clear Hin. rename Hreg into Hin.
        unfold registrations in Hin. cbn [In] in Hin.
        destruct Hin as [<- | [<- | [<- | [<- | []]]]]; (split; [reflexivity |]).
        -- left. split; reflexivity.
        -- right. left. split; reflexivity.
        -- right. right. left. split; reflexivity.
        -- right. right. right. split; reflexivity.
      * destruct err0; cbn [In] in Hin; [contradiction |].
        destruct Hin as [Heq | [Heq | []]]; discriminate.
Qed.

End InitAcmProperties.

(** Before the token is set the start times out. *)
Lemma InitAcm_waits_for_token_witness :
  InitAcm (platform := Reference.platform) (service := StartExamples.service [])
    "acm.example" StartExamples.conf StartExamples.waiting StartExamples.waiting
    (StartExamples.idle [])
  = (Some (errors_New (ConfigService := StartExamples.service [])
             "wait AHAS transport timeout"),
     StartExamples.waiting, StartExamples.idle []).
Proof.
  exact (proj1 (InitAcm_waits_for_token (platform := Reference.platform)
                  (service := StartExamples.service [])
                  "acm.example" StartExamples.conf StartExamples.waiting
                  StartExamples.waiting (StartExamples.idle []) eq_refl)).
Defined.

(** When the service refuses the circuit-breaking data id, the start stops at
    the third registration with the service's error, and the service still
    listens to the flow and the system data id. *)
Lemma InitAcm_registers_in_order_without_rollback_witness :
  exists (k : nat) (err : option string) s',
    InitAcm (platform := Reference.platform)
      (service := StartExamples.service
                    [formCircuitBreakingRuleDataId "1001" "default" "shop"])
      "acm.example" StartExamples.conf StartExamples.ready StartExamples.waiting
      (StartExamples.idle [formCircuitBreakingRuleDataId "1001" "default" "shop"])
    = (err, StartExamples.waiting_with_token, s') /\
    k = 2%nat /\
    err = Some "refused"%string /\
    state s' = [formFlowRuleDataId "1001" "default" "shop";
                formSystemRuleDataId "1001" "default" "shop"].
Proof.
  destruct (InitAcm_registers_in_order_without_rollback (platform := Reference.platform)
              (service := StartExamples.service
                            [formCircuitBreakingRuleDataId "1001" "default" "shop"])
              "acm.example" StartExamples.conf StartExamples.ready StartExamples.waiting
              (StartExamples.idle [formCircuitBreakingRuleDataId "1001" "default" "shop"])
              "t-7"%string []
              (clientConfigOf "acm.example" StartExamples.conf StartExamples.ready)
              None [] eq_refl eq_refl)
    as (k & param & err & s' & Hrun & Hk & Hnth & Herr & Hlast & Hearlier & Hstate & _).
  exists k, err, s'. split; [exact Hrun |].
  destruct k as [| [| [| [| k]]]]; try lia;
    cbn [nth_error registrations] in Hnth; injection Hnth as <-.
  - vm_compute in Herr. discriminate (Hlast Herr).
  - vm_compute in Herr. discriminate (Hlast Herr).
  - vm_compute in Herr. vm_compute in Hstate.
    split; [reflexivity |]. split; [exact Herr | exact Hstate].
  - pose proof (Hearlier 2%nat _ ltac:(lia) eq_refl) as Hthird.
    vm_compute in Hthird. discriminate Hthird.
Defined.

(** The flow registration of a start without refusal calls the flow
    handler. *)
Lemma InitAcm_registers_each_handler_under_its_data_id_witness :
  vo.Group StartExamples.flowRegistration = "ahas-sentinel"%string.
Proof.
  assert (Hrun : exists err s',
            InitAcm (platform := Reference.platform) (service := StartExamples.service [])
              "acm.example" StartExamples.conf StartExamples.ready StartExamples.waiting
              (StartExamples.idle []) = (err, StartExamples.waiting_with_token, s') /\
            In (Listening StartExamples.flowRegistration) (events s')).
  { eexists _, _. split; [lazy; reflexivity |]. right. left. reflexivity. }
  destruct Hrun as (err & s' & Hrun & Hin).
  destruct (InitAcm_registers_each_handler_under_its_data_id
              (platform := Reference.platform) (service := StartExamples.service [])
              "acm.example" StartExamples.conf StartExamples.ready StartExamples.waiting
              (StartExamples.idle []) err _ s' StartExamples.flowRegistration Hrun Hin)
    as [[] | [Hgroup _]].
  exact Hgroup.
Defined.

(** * The token channel *)

Section TokenChannel.

Lemma SetTid_room (tid : string) (m : meta.Meta) :
  (List.length (meta.queue (meta.tidChan m)) < meta.capacity (meta.tidChan m))%nat ->
  fst (meta.SetTid tid m) = meta.Done /\
  meta.tid (snd (meta.SetTid tid m)) = tid /\
  meta.queue (meta.tidChan (snd (meta.SetTid tid m))) =
    meta.queue (meta.tidChan m) ++ [tid] /\
  meta.capacity (meta.tidChan (snd (meta.SetTid tid m))) = meta.capacity (meta.tidChan m).
Proof.
  intros Hroom. unfold meta.SetTid, meta.send. cbn [meta.tidChan meta.set_tid].
  apply Nat.ltb_lt in Hroom. rewrite Hroom. now repeat split.
Qed.

Lemma SetTid_full (tid : string) (m : meta.Meta) :
  (meta.capacity (meta.tidChan m) <= List.length (meta.queue (meta.tidChan m)))%nat ->
  fst (meta.SetTid tid m) = meta.Blocked /\
  meta.tid (snd (meta.SetTid tid m)) = tid /\
  meta.tidChan (snd (meta.SetTid tid m)) = meta.tidChan m.
Proof.
  intros Hfull. unfold meta.SetTid, meta.send. cbn [meta.tidChan meta.set_tid].
  apply Nat.ltb_ge in Hfull. rewrite Hfull. now repeat split.
Qed.

Lemma last_cons_default {A} (l : list A) (a d : A) : last (a :: l) d = last l a.
Proof.
  revert a d. induction l as [| b l IH]; intros a d; [reflexivity |].
  change (last (a :: b :: l) d) with (last (b :: l) d). now rewrite !IH.
Qed.

(** X20. [SetTid] stores the token in the metadata and queues it on the
    token channel, which holds five tokens in the package's metadata. While
    nobody takes a token from the channel, calls of [SetTid] complete as long
    as the channel has room, the tokens being queued in the order of the
    calls, and the call that finds the channel full waits; the token of a
    waiting call is stored in the metadata all the same. *)
Theorem SetTid_waits_when_channel_full (tids : list string) (m : meta.Meta) :
  (List.length (meta.queue (meta.tidChan m)) <= meta.capacity (meta.tidChan m))%nat ->
  ((List.length (meta.queue (meta.tidChan m)) + List.length tids
    <= meta.capacity (meta.tidChan m))%nat ->
   fst (SetTids tids m) = meta.Done /\
   meta.queue (meta.tidChan (snd (SetTids tids m))) = meta.queue (meta.tidChan m) ++ tids /\
   meta.tid (snd (SetTids tids m)) = last tids (meta.tid m)) /\
  ((meta.capacity (meta.tidChan m)
    < List.length (meta.queue (meta.tidChan m)) + List.length tids)%nat ->
   fst (SetTids tids m) = meta.Blocked /\
   List.length (meta.queue (meta.tidChan (snd (SetTids tids m))))
     = meta.capacity (meta.tidChan m) /\
   exists done waiting later,
     tids = done ++ waiting :: later /\
     meta.tid (snd (SetTids tids m)) = waiting /\
     meta.queue (meta.tidChan (snd (SetTids tids m))) =
       meta.queue (meta.tidChan m) ++ done).
Proof.
  revert m. induction tids as [| tid tids IH]; intros m Hwf.
  - simpl. split.
    + intros _. now rewrite app_nil_r.
    + intros H. lia.
  - cbn [SetTids List.length].
    destruct (Nat.lt_ge_cases (List.length (meta.queue (meta.tidChan m)))
                (meta.capacity (meta.tidChan m))) as [Hroom | Hfull].
    + destruct (SetTid_room tid m Hroom) as (Hdone & Htid & Hqueue & Hcap).
      destruct (meta.SetTid tid m) as [progress m1]. cbn [fst snd] in *. subst progress.
      destruct (IH m1) as [IHroom IHfull].
      { rewrite Hqueue, Hcap, length_app. cbn [List.length]. lia. }
      rewrite Hqueue, Hcap, length_app in IHroom, IHfull. cbn [List.length] in *.
      split.
      * intros Hle. destruct IHroom as (Hd & Hq & Ht); [lia |].
        split; [exact Hd |]. split.
        -- rewrite Hq, <- app_assoc. reflexivity.
        -- rewrite Ht, Htid. symmetry. apply last_cons_default.
      * intros Hgt.
        destruct IHfull as (Hb & Hlen & done & waiting & later & Hsplit & Ht & Hq);
          [lia |].
        split; [exact Hb |]. split; [exact Hlen |].
        exists (tid :: done), waiting, later. split; [now rewrite Hsplit |].
        split; [exact Ht |]. rewrite Hq, <- app_assoc. reflexivity.
    + destruct (SetTid_full tid m Hfull) as (Hblocked & Htid & Hchan).
      destruct (meta.SetTid tid m) as [progress m1]. cbn [fst snd] in *. subst progress.
      split; [intros Hle; lia |]. intros _.
      cbn [fst snd]. rewrite Hchan. split; [reflexivity |]. split; [lia |].
      exists [], tid, tids. split; [reflexivity |]. split; [exact Htid |].
      now rewrite app_nil_r.
Qed.

End TokenChannel.

(** On the package's metadata five tokens are queued and a sixth call
    waits. *)
Lemma SetTid_waits_when_channel_full_witness :
  fst (SetTids ["a"; "b"; "c"; "d"; "e"]%string meta.metadata0) = meta.Done /\
  fst (SetTids ["a"; "b"; "c"; "d"; "e"; "f"]%string meta.metadata0) = meta.Blocked.
Proof.
  split.
  - apply (proj1 (SetTid_waits_when_channel_full ["a"; "b"; "c"; "d"; "e"]%string
                    meta.metadata0 ltac:(simpl; lia))).
    simpl. lia.
  - apply (proj2 (SetTid_waits_when_channel_full ["a"; "b"; "c"; "d"; "e"; "f"]%string
                    meta.metadata0 ltac:(simpl; lia))).
    simpl. lia.
Defined.
